(** * xenohooks: configuration merging, feedback store, background queue,
      task runner and decision engine.

    A shallow embedding of the orchestration core of the [xenohooks]
    package ([router.py] and [common/*.py]) together with the properties
    stated about it.

    Conventions of the embedding:
    - Python values coming from YAML/JSON documents are the inductive
      [value]; a Python [dict] is an association list in insertion order
      whose keys are pairwise different ([wf_value]).
    - Text is [string]; the functions of [PyStr] follow the Python [str]
      methods on ASCII text.
    - Wall-clock readings ([time.time()]) are integers in a fixed unit; the
      code only subtracts and compares them.
    - An SQLite file is an entry of a finite map keyed by the file's name;
      its table is the list of rows in insertion order.  Every statement
      commits, so each operation is a function from store to store.
    - Library calls whose result the code does not control (hashing, path
      arithmetic, [json.loads], module import, process spawn and probe) are
      parameters of the sections that use them.
    - The first part of the file holds the model, the second part the
      lemmas and theorems. *)

From Stdlib Require Import String Ascii List ZArith Lia Bool Arith DecimalString.
From stdpp Require Import base option gmap strings.
Import ListNotations.

Local Open Scope string_scope.
Local Open Scope list_scope.

(* ===================================================================== *)
(** ** Python string methods used by the code *)
(* ===================================================================== *)

Module PyStr.

(** [str.isspace] on one ASCII character: TAB..CR, FS..US and SPACE. *)
Definition is_space (c : ascii) : bool :=
  let n := nat_of_ascii c in
  ((9 <=? n)%nat && (n <=? 13)%nat) || ((28 <=? n)%nat && (n <=? 32)%nat).

Fixpoint lstrip (s : string) : string :=
  match s with
  | EmptyString => EmptyString
  | String c r => if is_space c then lstrip r else s
  end.

Fixpoint rstrip (s : string) : string :=
  match s with
  | EmptyString => EmptyString
  | String c r =>
      match rstrip r with
      | EmptyString => if is_space c then EmptyString else String c EmptyString
      | r' => String c r'
      end
  end.

(** [s.strip()] *)
Definition strip (s : string) : string := rstrip (lstrip s).

(** [s.lstrip(c)] for a one-character set. *)
Fixpoint lstrip_char (c : ascii) (s : string) : string :=
  match s with
  | EmptyString => EmptyString
  | String d r => if Ascii.eqb c d then lstrip_char c r else s
  end.

Definition lower_ascii (c : ascii) : ascii :=
  let n := nat_of_ascii c in
  if ((65 <=? n)%nat && (n <=? 90)%nat) then ascii_of_nat (n + 32) else c.

(** [s.lower()] *)
Fixpoint lower (s : string) : string :=
  match s with
  | EmptyString => EmptyString
  | String c r => String (lower_ascii c) (lower r)
  end.

(** Python truthiness of a string: [bool(s)]. *)
Definition truthy (s : string) : bool :=
  match s with EmptyString => false | _ => true end.

(** [c in s] for a one-character needle. *)
Fixpoint contains_char (c : ascii) (s : string) : bool :=
  match s with
  | EmptyString => false
  | String d r => Ascii.eqb c d || contains_char c r
  end.

(** [s.split(c, 1)] as a pair when [c] occurs in [s]; [(s, "")] otherwise. *)
Fixpoint split_once (c : ascii) (s : string) : string * string :=
  match s with
  | EmptyString => (EmptyString, EmptyString)
  | String d r =>
      if Ascii.eqb c d then (EmptyString, r)
      else let '(a, b) := split_once c r in (String d a, b)
  end.

(** [s.rsplit(c, 1)[-1]]: the text after the last [c], all of [s] when
    there is none. *)
Fixpoint after_last (c : ascii) (s : string) : string :=
  match s with
  | EmptyString => EmptyString
  | String d r =>
      if contains_char c r then after_last c r
      else if Ascii.eqb c d then r else s
  end.

(** [s[:n]] *)
Fixpoint prefix (n : nat) (s : string) : string :=
  match n, s with
  | O, _ => EmptyString
  | _, EmptyString => EmptyString
  | S n', String c r => String c (prefix n' r)
  end.

(** [s.startswith(p)] *)
Definition startswith (p s : string) : bool := String.prefix p s.

(** [sep.join(l)] *)
Fixpoint join (sep : string) (l : list string) : string :=
  match l with
  | [] => EmptyString
  | [x] => x
  | x :: r => x +:+ sep +:+ join sep r
  end.

Definition LF : ascii := ascii_of_nat 10.
Definition CR : ascii := ascii_of_nat 13.
Definition nl : string := String LF EmptyString.

(** ASCII line boundaries of [str.splitlines]: LF, VT, FF, CR, FS, GS, RS. *)
Definition is_linebreak (c : ascii) : bool :=
  let n := nat_of_ascii c in
  ((10 <=? n)%nat && (n <=? 13)%nat) || ((28 <=? n)%nat && (n <=? 30)%nat).

(** [s.splitlines()]: [cur] is the line read so far ([None] right after a
    boundary); a CR immediately followed by LF is one boundary; no empty
    last line is produced after a final boundary. *)
Fixpoint splitlines_aux (cur : option string) (s : string) : list string :=
  match s with
  | EmptyString => match cur with None => [] | Some l => [l] end
  | String c r =>
      let line := match cur with None => EmptyString | Some l => l end in
      if is_linebreak c then
        match r with
        | String d r2 =>
            if Ascii.eqb c CR && Ascii.eqb d LF
            then line :: splitlines_aux None r2
            else line :: splitlines_aux None r
        | EmptyString => [line]
        end
      else splitlines_aux (Some (line +:+ String c EmptyString)) r
  end.

Definition splitlines (s : string) : list string := splitlines_aux None s.

(** [str(n)] for a natural number. *)
Definition of_nat (n : nat) : string := NilEmpty.string_of_uint (Nat.to_uint n).

(** [str(z)] for an integer. *)
Definition of_Z (z : Z) : string :=
  match z with
  | Z0 => "0"
  | Zpos p => of_nat (Pos.to_nat p)
  | Zneg p => "-" +:+ of_nat (Pos.to_nat p)
  end.

(** [s in l] *)
Definition mem (s : string) (l : list string) : bool :=
  existsb (String.eqb s) l.

End PyStr.

(* ===================================================================== *)
(** ** Python values and ordered dictionaries *)
(* ===================================================================== *)

(** The values a YAML or JSON document can hold. *)
#[warnings="-register-all"]
Inductive value : Type :=
| VNone
| VBool (b : bool)
| VInt (z : Z)
| VStr (s : string)
| VList (l : list value)
| VDict (d : list (string * value)).

Module Dict.
Section Ops.
Context {V : Type}.

(** [d.get(k)] *)
Fixpoint get (d : list (string * V)) (k : string) : option V :=
  match d with
  | [] => None
  | (k', v) :: r => if String.eqb k k' then Some v else get r k
  end.

(** [k in d] *)
Definition has (d : list (string * V)) (k : string) : bool :=
  match get d k with Some _ => true | None => false end.

(** [d[k] = v]: an existing key keeps its position, a new key goes last. *)
Fixpoint set (d : list (string * V)) (k : string) (v : V) : list (string * V) :=
  match d with
  | [] => [(k, v)]
  | (k', v') :: r =>
      if String.eqb k k' then (k', v) :: r else (k', v') :: set r k v
  end.

(** [d.pop(k, None)] *)
Fixpoint pop (d : list (string * V)) (k : string) : list (string * V) :=
  match d with
  | [] => []
  | (k', v') :: r => if String.eqb k k' then r else (k', v') :: pop r k
  end.

(** [{k: v for k, v in d.items() if k != key}] *)
Definition without (key : string) (d : list (string * V)) : list (string * V) :=
  List.filter (fun kv => negb (String.eqb (fst kv) key)) d.

Definition keys (d : list (string * V)) : list string := map fst d.
Definition values (d : list (string * V)) : list V := map snd d.
End Ops.
End Dict.

Abbreviation dict := (list (string * value)).

(** Pairwise different keys. *)
Fixpoint uniq (l : list string) : bool :=
  match l with
  | [] => true
  | k :: r => negb (PyStr.mem k r) && uniq r
  end.

(** Keys of every dictionary inside the value are pairwise different, as in
    any Python [dict]. *)
Fixpoint wf_value (v : value) : bool :=
  match v with
  | VList l => forallb wf_value l
  | VDict d => uniq (Dict.keys d) && forallb (fun kv => wf_value (snd kv)) d
  | _ => true
  end.

(** A call that returns, raises, or never returns. *)
Inductive result (A : Type) : Type :=
| Ok (a : A)
| Raise (exc : string)
| NoReturn.
Arguments Ok {A} a.
Arguments Raise {A} exc.
Arguments NoReturn {A}.

(** Python truthiness [bool(v)]. *)
Definition truthy (v : value) : bool :=
  match v with
  | VNone => false
  | VBool b => b
  | VInt z => negb (Z.eqb z 0)
  | VStr s => PyStr.truthy s
  | VList l => match l with [] => false | _ => true end
  | VDict d => match d with [] => false | _ => true end
  end.

(** [d.get(k, default)] *)
Definition get_or (d : dict) (k : string) (default : value) : value :=
  match Dict.get d k with Some v => v | None => default end.

(** [a or b] on values, with [None] for a missing key. *)
Definition or_else (a : option value) (b : option value) : option value :=
  match a with
  | Some v => if truthy v then a else b
  | None => b
  end.

(* ===================================================================== *)
(** ** SQL row order *)
(* ===================================================================== *)

Module Sql.

(** [ORDER BY]: a stable insertion sort by the order [le].  SQLite fixes
    no order among rows that compare equal; they keep their table order
    here. *)
Fixpoint insert_by {A} (le : A -> A -> bool) (x : A) (l : list A) : list A :=
  match l with
  | [] => [x]
  | y :: r => if le x y then x :: l else y :: insert_by le x r
  end.

Definition order_by {A} (le : A -> A -> bool) (l : list A) : list A :=
  fold_right (insert_by le) [] l.

(** [ORDER BY key ASC] and [ORDER BY key DESC] on a column without NULLs. *)
Definition asc {A} (key : A -> Z) (x y : A) : bool := (key x <=? key y)%Z.
Definition desc {A} (key : A -> Z) (x y : A) : bool := (key y <=? key x)%Z.

(** NULL sorts before every number. *)
Definition null_le (a b : option Z) : bool :=
  match a, b with
  | None, _ => true
  | Some _, None => false
  | Some x, Some y => (x <=? y)%Z
  end.

End Sql.

(* ===================================================================== *)
(** ** The libraries the code calls *)
(* ===================================================================== *)

(** [pathlib]: the operations the code uses, on paths written as text. *)
Record PathLib := {
  path_join : string -> string -> string;  (* [str(Path(a) / b)] *)
  path_resolve : string -> string;         (* [str(Path(a).resolve())] *)
  path_parent : string -> string;          (* [str(Path(a).parent)] *)
  path_is_absolute : string -> bool;       (* [Path(a).is_absolute()] *)
  path_suffix : string -> string;          (* [Path(a).suffix] *)
  path_name : string -> string             (* [Path(a).name] *)
}.

(* ===================================================================== *)
(** ** common/config.py *)
(* ===================================================================== *)

Module Config.

Definition _DEFAULTS : dict :=
  [("concurrency", VInt 6);
   ("default_timeout", VInt 12);
   ("timeouts", VDict []);
   ("policy", VDict [("missing_tool_is_warning", VBool true);
                     ("treat_stderr_only_as_warning", VBool true);
                     ("block_on", VList [])]);
   ("PreToolUse", VDict [("tasks", VList [])]);
   ("PostToolUse", VDict [("tasks", VList [])]);
   ("UserPromptSubmit", VDict [("tasks", VList [])]);
   ("Notification", VDict [("tasks", VList [])]);
   ("Stop", VDict [("tasks", VList [])]);
   ("SubagentStop", VDict [("tasks", VList [])]);
   ("PreCompact", VDict [("tasks", VList [])]);
   ("SessionStart", VDict [("tasks", VList [])]);
   ("SessionEnd", VDict [("tasks", VList [])])].

Definition _EVENT_KEYS : list string :=
  ["PreToolUse"; "PostToolUse"; "Notification"; "UserPromptSubmit"; "Stop";
   "SubagentStop"; "PreCompact"; "SessionStart"; "SessionEnd"].

Definition is_event_key (k : string) : bool := PyStr.mem k _EVENT_KEYS.

Definition empty_section : dict := [("tasks", VList [])].

(** [_merge(a, b)]: values of [b] override [a], nested dicts merge.  The
    recursion runs on [b] as a value so that the nested call on a
    sub-dictionary is structural. *)
Fixpoint merge_into (a : dict) (bv : value) {struct bv} : dict :=
  match bv with
  | VDict b =>
      (fix go (out : dict) (b : list (string * value)) {struct b} : dict :=
         match b with
         | [] => out
         | (k, v) :: b' =>
             go (match Dict.get out k, v with
                 | Some (VDict da), VDict _ => Dict.set out k (VDict (merge_into da v))
                 | _, _ => Dict.set out k v
                 end) b'
         end) a b
  | _ => a
  end.

Definition _merge (a b : dict) : dict := merge_into a (VDict b).

Definition _normalize_event_section (section : value) : dict :=
  match section with
  | VList l => [("tasks", VList l)]
  | VDict d =>
      match Dict.get d "tasks" with
      | Some (VList l) => Dict.set (Dict.without "tasks" d) "tasks" (VList l)
      | _ => empty_section
      end
  | _ => empty_section
  end.

(** [isinstance(x, str) and x.strip()], giving [x.strip()]. *)
Definition stripped_str (x : option value) : option string :=
  match x with
  | Some (VStr s) =>
      if PyStr.truthy (PyStr.strip s) then Some (PyStr.strip s) else None
  | _ => None
  end.

Definition _task_key (entry : value) : string :=
  match entry with
  | VDict d =>
      match stripped_str (Dict.get d "id") with
      | Some tid => tid
      | None =>
          match stripped_str (Dict.get d "ref") with
          | Some ref => ref
          | None => ""
          end
      end
  | VStr s => match stripped_str (Some entry) with Some k => k | None => "" end
  | _ => ""
  end.

(** [isinstance(ent, dict) and ent.get("disabled") is True] *)
Definition is_disabled (ent : value) : bool :=
  match ent with
  | VDict d => match Dict.get d "disabled" with Some (VBool true) => true | _ => false end
  | _ => false
  end.

(** [section.get("tasks", []) or []] on a normalized section. *)
Definition section_tasks (s : dict) : list value :=
  match Dict.get s "tasks" with Some (VList l) => l | _ => [] end.

(** The three loops of [_merge_event_sections] over the ordered dict. *)
Definition seed_step (ordered : dict) (ent : value) : dict :=
  let k := _task_key ent in
  if PyStr.truthy k then Dict.set ordered k ent else ordered.

Definition remove_step (ordered : dict) (rid : value) : dict :=
  match rid with
  | VStr r => if Dict.has ordered r then Dict.pop ordered r else ordered
  | _ => ordered
  end.

Definition apply_removes (removes : option value) (ordered : dict) : dict :=
  match removes with
  | Some (VList rs) => fold_left remove_step rs ordered
  | _ => ordered
  end.

Definition task_step (ordered : dict) (ent : value) : dict :=
  let k := _task_key ent in
  if PyStr.truthy k then
    if is_disabled ent then Dict.pop ordered k else Dict.set ordered k ent
  else ordered.

Definition _merge_event_sections (a b : value) : dict :=
  let sa := _normalize_event_section a in
  let sb := _normalize_event_section b in
  let out := Dict.without "tasks" sa in
  let ordered := fold_left seed_step (section_tasks sa) [] in
  let ordered := apply_removes (Dict.get sb "remove") ordered in
  let ordered := fold_left task_step (section_tasks sb) ordered in
  Dict.set out "tasks" (VList (Dict.values ordered)).

(** One turn of the loop of [_merge_configs]. *)
Definition config_step (out : dict) (kv : string * value) : dict :=
  let '(k, v) := kv in
  if is_event_key k then
    Dict.set out k
      (VDict (_merge_event_sections
                (match Dict.get out k with
                 | Some s => s
                 | None => VDict empty_section
                 end) v))
  else
    match Dict.get out k, v with
    | Some (VDict da), VDict db => Dict.set out k (VDict (_merge da db))
    | _, _ => Dict.set out k v
    end.

Definition _merge_configs (a b : dict) : dict := fold_left config_step b a.

(** *** Loading *)

(** A file as the two parsers see it: what [yaml.safe_load] and
    [json.load] return on it, [None] when opening or parsing raises. *)
Record cfg_file := { yaml_doc : option value; json_doc : option value }.

(** What a load reads from its surroundings. *)
Record ConfigEnv := {
  env_CLAUDE_HOOKS_CONFIG : option string;   (* [os.environ.get(...)] *)
  getcwd : string;                           (* [os.getcwd()] *)
  files : list (string * cfg_file);          (* the paths that exist *)
  examples : list (string * option value)    (* packaged examples by file
                                                name, as [yaml.safe_load]
                                                reads them *)
}.

(** The result of a load: a configuration, the [RuntimeError] of
    [_load_config_cached], or a chain of [extends] deeper than the fuel. *)
Inductive load_result :=
| Loaded (cfg : dict)
| RuntimeError (msg : string)
| OutOfFuel.

Section Loading.
Variable P : PathLib.
Variable E : ConfigEnv.

Definition as_dict (v : option value) : option dict :=
  match v with Some (VDict d) => Some d | _ => None end.

Definition exists_ (p : string) : bool := Dict.has (files E) p.

Definition _try_load_yaml_text (p : string) : option dict :=
  match Dict.get (files E) p with
  | Some f => as_dict (yaml_doc f)
  | None => None
  end.

Definition _try_load_json_text (p : string) : option dict :=
  match Dict.get (files E) p with
  | Some f => as_dict (json_doc f)
  | None => None
  end.

Definition _candidate_paths (cwd : string) : list string :=
  match env_CLAUDE_HOOKS_CONFIG E with
  | Some (String _ _ as env_path) => [env_path]
  | _ =>
      [path_join P cwd "hooks.yml";
       path_join P cwd "hooks.yaml";
       path_join P (path_join P cwd "config") "hooks.yml";
       path_join P (path_join P cwd "config") "hooks.yaml";
       path_join P (path_join P (path_join P (path_join P cwd ".claude") "hooks") "config") "hooks.yml";
       path_join P cwd "hooks.json"]
  end.

Definition _load_example (name : string) : option dict :=
  match as_dict (match Dict.get (examples E) (name +:+ ".yml") with
                 | Some d => d | None => None end) with
  | Some d => Some d
  | None => as_dict (match Dict.get (examples E) (name +:+ ".yaml") with
                     | Some d => d | None => None end)
  end.

Definition _load_one (source : string) (base_dir : option string)
  : option dict * option string :=
  let source := PyStr.strip source in
  if PyStr.startswith "example:" source then
    (_load_example (PyStr.strip (snd (PyStr.split_once ":" source))), None)
  else
    let p := match base_dir with
             | Some b => if path_is_absolute P source then source
                         else path_resolve P (path_join P b source)
             | None => source
             end in
    if exists_ p then
      let sfx := PyStr.lower (path_suffix P p) in
      if PyStr.mem sfx [".yaml"; ".yml"] then (_try_load_yaml_text p, Some p)
      else if String.eqb sfx ".json" then (_try_load_json_text p, Some p)
      else match _try_load_yaml_text p with
           | Some d => (Some d, Some p)
           | None => (_try_load_json_text p, Some p)
           end
    else (None, Some p).

(** The key under which an [extends] token is remembered. *)
Definition cycle_key (base_dir : option string) (token : string) : string :=
  match base_dir with
  | Some b =>
      if PyStr.startswith "example:" token then token
      else path_resolve P (path_join P b token)
  | None => token
  end.

(** The loop of [_resolve_extends] over the [extends] list: [resolve] is
    the recursive call on a parent document, [cur] the current document
    without its [extends]; [seen] is threaded through and returned. *)
Fixpoint extends_loop
    (resolve : dict -> option string -> list string -> option (dict * list string))
    (cur : dict) (base_dir : option string) (items : list value)
    (merged : dict) (seen : list string) {struct items}
  : option (dict * list string) :=
  match items with
  | [] => Some (_merge_configs merged cur, seen)
  | raw :: rest =>
      match stripped_str (Some raw) with
      | None => extends_loop resolve cur base_dir rest merged seen
      | Some token =>
          let key := cycle_key base_dir token in
          if PyStr.mem key seen then extends_loop resolve cur base_dir rest merged seen
          else
            let seen := key :: seen in
            match _load_one token base_dir with
            | (Some data, child_origin) =>
                match resolve data child_origin seen with
                | Some (child_resolved, seen) =>
                    extends_loop resolve cur base_dir rest
                      (_merge_configs merged child_resolved) seen
                | None => None
                end
            | (None, _) => extends_loop resolve cur base_dir rest merged seen
            end
      end
  end.

(** [_resolve_extends(cfg, origin, seen)].  One unit of fuel is spent per
    nesting level of [extends]; [None] when the fuel does not reach. *)
Fixpoint _resolve_extends (fuel : nat) (cfg : dict) (origin : option string)
    (seen : list string) {struct fuel} : option (dict * list string) :=
  match Dict.get cfg "extends" with
  | Some (VList ((_ :: _) as items)) =>
      extends_loop
        (fun data child_origin seen =>
           match fuel with
           | O => None
           | S fuel' => _resolve_extends fuel' data child_origin seen
           end)
        (Dict.without "extends" cfg) (option_map (path_parent P) origin)
        items [] seen
  | _ => Some (Dict.without "extends" cfg, seen)
  end.

(** The sources [_load_config_cached] reads: the explicit ones, or the
    first conventional path that exists. *)
Definition sources_of (key : option (list string)) : list string :=
  match key with
  | Some ((_ :: _) as l) => l
  | _ =>
      match List.find exists_ (_candidate_paths (getcwd E)) with
      | Some p => [p]
      | None => []
      end
  end.

Fixpoint load_sources (fuel : nat) (sources : list string) (result : dict)
    (seen : list string) : load_result :=
  match sources with
  | [] => Loaded result
  | src :: rest =>
      match _load_one src None with
      | (Some data, origin) =>
          match _resolve_extends fuel data origin seen with
          | Some (resolved, seen) =>
              load_sources fuel rest (_merge_configs result resolved) seen
          | None => OutOfFuel
          end
      | (None, _) => load_sources fuel rest result seen
      end
  end.

Definition _load_config_cached (fuel : nat) (key : option (list string))
  : load_result :=
  match sources_of key with
  | [] => RuntimeError
            "No hooks config found. Provide --config or add hooks.yml in your project."
  | sources => load_sources fuel sources _DEFAULTS []
  end.

(** [load_config(path)] for the two shapes the router passes: [None] and a
    list of sources. *)
Definition load_config (fuel : nat) (path : option (list string)) : load_result :=
  match path with
  | None => _load_config_cached fuel None
  | Some l =>
      let parts :=
        List.filter PyStr.truthy (map PyStr.strip l) in
      match parts with
      | [] => _load_config_cached fuel None
      | _ => _load_config_cached fuel (Some parts)
      end
  end.

End Loading.

End Config.

(* ===================================================================== *)
(** ** common/feedback.py *)
(* ===================================================================== *)

Module Feedback.

(** Default cache duration in seconds (5 minutes). *)
Definition DEFAULT_DEDUP_WINDOW : Z := 300.

(** The dataclass, which is also a row of the table [feedback_items]
    (primary key [issue_id]).  [strategy] is the stored text. *)
Record FeedbackItem := {
  instance_id : string;
  issue_id : string;
  content : string;
  task_id : string;
  severity : option string;
  category : option string;
  file_path : option string;
  strategy : string;
  first_seen : Z;
  last_seen : Z;
  occurrence_count : Z;
  times_shown : Z
}.

(** The database files under [~/.cache/xenohooks/feedback/], by file name:
    a missing key is a file that does not exist. *)
Abbreviation fstore := (gmap string (list FeedbackItem)).

(** The file name of [_db_path]. *)
Definition db_name (session_id : string) : string :=
  PyStr.prefix 16 (if PyStr.truthy session_id then session_id else "default")
  +:+ ".db".

(** [_get_connection]: opens the file, creating it with an empty table when
    it does not exist. *)
Definition _get_connection (session_id : string) (st : fstore)
  : list FeedbackItem * fstore :=
  let t := match st !! db_name session_id with Some t => t | None => [] end in
  (t, <[db_name session_id := t]> st).

(** A statement's commit: the table of the session's file is replaced. *)
Definition commit (session_id : string) (t : list FeedbackItem) (st : fstore)
  : fstore :=
  <[db_name session_id := t]> st.

(** [DELETE FROM feedback_items WHERE last_seen < cutoff] *)
Definition _cleanup_expired (t : list FeedbackItem) (current_time : Z)
    (window : Z) : list FeedbackItem :=
  let cutoff := (current_time - window)%Z in
  List.filter (fun r => negb (last_seen r <? cutoff)%Z) t.

(** [SELECT * FROM feedback_items WHERE issue_id = ?], first row. *)
Definition select_issue (t : list FeedbackItem) (iid : string)
  : option FeedbackItem :=
  List.find (fun r => String.eqb (issue_id r) iid) t.

(** [UPDATE feedback_items SET ... WHERE issue_id = ?] *)
Definition update_issue (f : FeedbackItem -> FeedbackItem) (iid : string)
    (t : list FeedbackItem) : list FeedbackItem :=
  map (fun r => if String.eqb (issue_id r) iid then f r else r) t.

Definition seen_again (inst cont : string) (now : Z) (r : FeedbackItem)
  : FeedbackItem :=
  {| instance_id := inst; issue_id := issue_id r; content := cont;
     task_id := task_id r; severity := severity r; category := category r;
     file_path := file_path r; strategy := strategy r;
     first_seen := first_seen r; last_seen := now;
     occurrence_count := (occurrence_count r + 1)%Z;
     times_shown := times_shown r |}.

Definition shown_once_more (r : FeedbackItem) : FeedbackItem :=
  {| instance_id := instance_id r; issue_id := issue_id r; content := content r;
     task_id := task_id r; severity := severity r; category := category r;
     file_path := file_path r; strategy := strategy r;
     first_seen := first_seen r; last_seen := last_seen r;
     occurrence_count := occurrence_count r;
     times_shown := (times_shown r + 1)%Z |}.

(** The item returned for empty content. *)
Definition empty_item (task : string) : FeedbackItem :=
  {| instance_id := "empty"; issue_id := "empty"; content := "";
     task_id := task; severity := None; category := None; file_path := None;
     strategy := "always"; first_seen := 0; last_seen := 0;
     occurrence_count := 1; times_shown := 0 |}.

Section Store.
(** [hashlib.sha256(s.encode("utf-8")).hexdigest()] *)
Variable sha256_hexdigest : string -> string.
Variable P : PathLib.

Definition _content_hash (content : string) : string :=
  PyStr.prefix 16 (sha256_hexdigest content).

Definition _issue_id (task : string) (file : option string) (content : string)
  : string :=
  let file_part := match file with
                   | Some (String _ _ as f) => path_name P f
                   | _ => "global"
                   end in
  let content_prefix := PyStr.prefix 100 content in
  let issue_hash := PyStr.prefix 8 (sha256_hexdigest content_prefix) in
  task +:+ ":" +:+ file_part +:+ ":" +:+ issue_hash.

(** [record_feedback]; [now] is the reading of [time.time()]. *)
Definition record_feedback (content_ task session_id : string)
    (file : option string) (sev cat : option string) (strat : string)
    (now : Z) (st : fstore) : FeedbackItem * fstore :=
  if negb (PyStr.truthy content_) || negb (PyStr.truthy (PyStr.strip content_))
  then (empty_item task, st)
  else
    let current_time := now in
    let inst := _content_hash (PyStr.strip content_) in
    let issue_id_str := _issue_id task file (PyStr.strip content_) in
    let '(t, st) := _get_connection session_id st in
    let t := _cleanup_expired t current_time DEFAULT_DEDUP_WINDOW in
    match select_issue t issue_id_str with
    | Some row =>
        (* the row as it is read back after the update *)
        let row' := seen_again inst (PyStr.strip content_) current_time row in
        let t := update_issue (seen_again inst (PyStr.strip content_) current_time)
                   issue_id_str t in
        (row', commit session_id t st)
    | None =>
        let row := {| instance_id := inst; issue_id := issue_id_str;
                      content := PyStr.strip content_; task_id := task;
                      severity := sev; category := cat; file_path := file;
                      strategy := strat; first_seen := current_time;
                      last_seen := current_time; occurrence_count := 1;
                      times_shown := 0 |} in
        (row, commit session_id (t ++ [row]) st)
    end.

End Store.

Definition should_show_feedback (item : FeedbackItem) : bool :=
  if String.eqb (strategy item) "always" then true
  else if String.eqb (strategy item) "show_once" then (times_shown item =? 0)%Z
  else if String.eqb (strategy item) "summary_after_first" then (times_shown item =? 0)%Z
  else if String.eqb (strategy item) "defer" then false
  else true.

(** [mark_shown]: opens the file and counts one more showing of the row. *)
Definition mark_shown (iid : string) (session_id : string) (st : fstore) : fstore :=
  let '(t, st) := _get_connection session_id st in
  commit session_id (update_issue shown_once_more iid t) st.

Definition get_feedback_summary (session_id : string) (min_occurrences : Z)
    (now : Z) (st : fstore) : list FeedbackItem * fstore :=
  let '(t, st) := _get_connection session_id st in
  let t := _cleanup_expired t now DEFAULT_DEDUP_WINDOW in
  (Sql.order_by (Sql.desc last_seen)
     (List.filter (fun r => (min_occurrences <=? occurrence_count r)%Z) t),
   commit session_id t st).

Definition get_deferred_feedback (session_id : string) (now : Z) (st : fstore)
  : list FeedbackItem * fstore :=
  let '(t, st) := _get_connection session_id st in
  let t := _cleanup_expired t now DEFAULT_DEDUP_WINDOW in
  (Sql.order_by (Sql.asc first_seen)
     (List.filter (fun r => String.eqb (strategy r) "defer") t),
   commit session_id t st).

(** [cleanup_session]: the session's file is unlinked. *)
Definition cleanup_session (session_id : string) (st : fstore) : fstore :=
  delete (db_name session_id) st.

End Feedback.

(* ===================================================================== *)
(** ** common/task_queue.py *)
(* ===================================================================== *)

Module TaskQueue.

(** The dataclass, which is also a row of the table [tasks] (primary key
    [task_id]); the two JSON columns are held decoded. *)
Record BackgroundTask := {
  task_id : string;
  task_type : string;
  status : string;
  command : option (list value);
  metadata : option dict;
  source : string;
  session_id : string;
  created_at : Z;
  started_at : option Z;
  completed_at : option Z;
  timeout : Z;
  exit_code : option Z;
  stdout : option string;
  stderr : option string;
  error : option string
}.

(** The storage under [~/.cache/xenohooks/tasks/]: a [queue.db] and an
    [incoming/] directory per session directory, and the files the spawned
    processes write, by path.  [drawn] counts the identifiers taken from
    [uuid.uuid4()]. *)
Record qstore := {
  dbs : gmap string (list BackgroundTask);
  incoming : gmap string (list (string * string));
  outputs : gmap string string;
  drawn : nat
}.

(** The directory name of [_session_dir]. *)
Definition dir_name (session_id : string) : string :=
  PyStr.prefix 16 (if PyStr.truthy session_id then session_id else "default").

Definition with_dbs (q : qstore) (d : gmap string (list BackgroundTask)) : qstore :=
  {| dbs := d; incoming := incoming q; outputs := outputs q; drawn := drawn q |}.

(** The table of the session, an empty one when the file does not exist. *)
Definition table (session_id : string) (q : qstore) : list BackgroundTask :=
  match dbs q !! dir_name session_id with Some t => t | None => [] end.

(** [_get_connection]: the file exists afterwards. *)
Definition _get_connection (session_id : string) (q : qstore) : qstore :=
  with_dbs q (<[dir_name session_id := table session_id q]> (dbs q)).

(** One statement on the session's table, committed. *)
Definition execute (session_id : string)
    (f : list BackgroundTask -> list BackgroundTask) (q : qstore) : qstore :=
  with_dbs q (<[dir_name session_id := f (table session_id q)]> (dbs q)).

Definition status_is (s : string) (t : BackgroundTask) : bool :=
  String.eqb (status t) s.

Definition get_pending_tasks (session_id : string) (limit : nat) (q : qstore)
  : list BackgroundTask * qstore :=
  (firstn limit
     (Sql.order_by (Sql.asc created_at)
        (List.filter (status_is "pending") (table session_id q))),
   _get_connection session_id q).

Definition get_running_tasks (session_id : string) (q : qstore)
  : list BackgroundTask * qstore :=
  (Sql.order_by (fun x y => Sql.null_le (started_at x) (started_at y))
     (List.filter (status_is "running") (table session_id q)),
   _get_connection session_id q).

Definition get_completed_tasks (session_id : string) (limit : nat) (q : qstore)
  : list BackgroundTask * qstore :=
  (firstn limit
     (Sql.order_by (fun x y => Sql.null_le (completed_at y) (completed_at x))
        (List.filter (fun t => status_is "completed" t || status_is "failed" t)
           (table session_id q))),
   _get_connection session_id q).

(** The optional arguments of [update_task_status]. *)
Record status_update := {
  u_status : option string;
  u_started_at : option Z;
  u_completed_at : option Z;
  u_exit_code : option Z;
  u_stdout : option string;
  u_stderr : option string;
  u_error : option string;
  u_metadata : option dict
}.

Definition no_update : status_update :=
  {| u_status := None; u_started_at := None; u_completed_at := None;
     u_exit_code := None; u_stdout := None; u_stderr := None;
     u_error := None; u_metadata := None |}.

Definition keep {A} (new : option A) (old : A) : A :=
  match new with Some x => x | None => old end.

Definition keep_opt {A} (new : option A) (old : option A) : option A :=
  match new with Some x => Some x | None => old end.

Definition apply_update (u : status_update) (t : BackgroundTask) : BackgroundTask :=
  {| task_id := task_id t; task_type := task_type t;
     status := keep (u_status u) (status t);
     command := command t;
     metadata := keep_opt (u_metadata u) (metadata t);
     source := source t; session_id := session_id t;
     created_at := created_at t;
     started_at := keep_opt (u_started_at u) (started_at t);
     completed_at := keep_opt (u_completed_at u) (completed_at t);
     timeout := timeout t;
     exit_code := keep_opt (u_exit_code u) (exit_code t);
     stdout := keep_opt (u_stdout u) (stdout t);
     stderr := keep_opt (u_stderr u) (stderr t);
     error := keep_opt (u_error u) (error t) |}.

(** [UPDATE tasks SET ... WHERE task_id = ?] *)
Definition update_task_status (tid : string) (session_id : string)
    (u : status_update) (q : qstore) : qstore :=
  execute session_id
    (map (fun t => if String.eqb (task_id t) tid then apply_update u t else t)) q.

(** [DELETE FROM tasks WHERE task_id = ?] *)
Definition mark_task_consumed (tid : string) (session_id : string) (q : qstore)
  : qstore :=
  execute session_id
    (List.filter (fun t => negb (String.eqb (task_id t) tid))) q.

Section Queue.
(** The [n]-th identifier [str(uuid.uuid4())] hands out. *)
Variable uuid4 : nat -> string.
(** [json.loads]: the value, or the class of the exception it raises. *)
Variable json_loads : string -> value + string.

Definition queue_task (cmd : list value) (sid src ttype : string) (tmo : Z)
    (meta : option dict) (now : Z) (q : qstore) : string * qstore :=
  let tid := uuid4 (drawn q) in
  let row := {| task_id := tid; task_type := ttype; status := "pending";
                command := Some cmd;
                metadata := Some (match meta with Some m => m | None => [] end);
                source := src; session_id := sid; created_at := now;
                started_at := None; completed_at := None; timeout := tmo;
                exit_code := None; stdout := None; stderr := None;
                error := None |} in
  let q := execute sid (fun t => t ++ [row]) q in
  (tid, {| dbs := dbs q; incoming := incoming q; outputs := outputs q;
           drawn := S (drawn q) |}).

(** What the import does with one drop-in file. *)
Inductive dropin :=
| Invalid                     (* no command list: the file is removed *)
| Task (cmd : list value) (src ttype : string) (tmo : Z) (meta : option dict)
| Left                        (* reading raised: the file stays *)
| Untyped.                    (* an optional field has another type than
                                 [queue_task] declares: the row SQLite
                                 would store is none of [BackgroundTask],
                                 and the model follows the import no
                                 further *)

(** The fields of a drop-in, of the types [queue_task] declares.  The
    code checks the type of [command] only. *)
Definition read_dropin (text : string) : dropin :=
  match json_loads text with
  | inl (VDict data) =>
      match Dict.get data "command" with
      | Some (VList cmd) =>
          match get_or data "source" (VStr "external-json"),
                get_or data "task_type" (VStr "external"),
                get_or data "timeout" (VInt 120),
                Dict.get data "metadata" with
          | VStr src, VStr ttype, VInt tmo, Some (VDict m) =>
              Task cmd src ttype tmo (Some m)
          | VStr src, VStr ttype, VInt tmo, (Some VNone | None) =>
              Task cmd src ttype tmo None
          | _, _, _, _ => Untyped
          end
      | _ => Invalid
      end
  | _ => Left
  end.

Definition incoming_files (sid : string) (q : qstore) : list (string * string) :=
  match incoming q !! dir_name sid with Some l => l | None => [] end.

Definition with_incoming (sid : string) (l : list (string * string)) (q : qstore)
  : qstore :=
  {| dbs := dbs q; incoming := <[dir_name sid := l]> (incoming q);
     outputs := outputs q; drawn := drawn q |}.

(** [json_file.unlink()] *)
Definition unlink_incoming (sid name : string) (q : qstore) : qstore :=
  with_incoming sid
    (List.filter (fun f => negb (String.eqb (fst f) name)) (incoming_files sid q)) q.

(** The loop of [import_from_incoming]: the ids queued and the store, or
    [None] at a drop-in outside the model. *)
Fixpoint import_loop (fs : list (string * string)) (sid : string) (now : Z)
    (q : qstore) : option (list string * qstore) :=
  match fs with
  | [] => Some ([], q)
  | (name, text) :: rest =>
      match read_dropin text with
      | Invalid => import_loop rest sid now (unlink_incoming sid name q)
      | Left => import_loop rest sid now q
      | Untyped => None
      | Task cmd src ttype tmo meta =>
          let '(tid, q) := queue_task cmd sid src ttype tmo meta now q in
          match import_loop rest sid now (unlink_incoming sid name q) with
          | Some (ids, q) => Some (tid :: ids, q)
          | None => None
          end
      end
  end.

(** [import_from_incoming]: the directory is created, then every [*.json]
    file in it is read. *)
Definition import_from_incoming (sid : string) (now : Z) (q : qstore)
  : option (list string * qstore) :=
  let q := with_incoming sid (incoming_files sid q) q in
  import_loop (incoming_files sid q) sid now q.

End Queue.

(** [cleanup_session]: the queue file and the drop-in directory go; the
    captured output stays. *)
Definition cleanup_session (sid : string) (q : qstore) : qstore :=
  {| dbs := delete (dir_name sid) (dbs q);
     incoming := delete (dir_name sid) (incoming q);
     outputs := outputs q; drawn := drawn q |}.

End TaskQueue.

(* ===================================================================== *)
(** ** common/task_runner.py *)
(* ===================================================================== *)

Module TaskRunner.
Import TaskQueue.

(** A harvested task in feedback format; the three fields read from the
    task's JSON output hold whatever the output gave. *)
Record feedback := {
  fb_content : value;
  fb_severity : value;
  fb_category : value;
  fb_task_id : string
}.

(** The path of a captured output file, below the cache directory. *)
Definition output_file (sid tid ext : string) : string :=
  dir_name sid +:+ "/output/" +:+ tid +:+ ext.

(** [Path(f).read_text(...)] guarded as in the code: the empty text when
    [f] is missing, empty, no text, or cannot be read. *)
Definition read_back (f : option value) (q : qstore) : string :=
  match f with
  | Some (VStr (String _ _ as p)) =>
      match outputs q !! p with Some s => s | None => "" end
  | _ => ""
  end.

(** Truthiness of [task.metadata] and of [task.command]. *)
Definition has_metadata (t : BackgroundTask) : option dict :=
  match metadata t with Some ((_ :: _) as m) => Some m | _ => None end.

Definition has_command (t : BackgroundTask) : option (list value) :=
  match command t with Some ((_ :: _) as c) => Some c | _ => None end.

(** [task.started_at and (current_time - task.started_at) > task.timeout] *)
Definition timed_out (current_time : Z) (t : BackgroundTask) : bool :=
  match started_at t with
  | Some s => negb (s =? 0)%Z && (timeout t <? current_time - s)%Z
  | None => false
  end.

Section Runner.
(** [subprocess.Popen] for the task with this id, command and working
    directory: the process id, or the text of the exception. *)
Variable popen : string -> list value -> option string -> Z + string.
(** [os.kill(pid, 0)]: [true] when it returns (the process exists),
    [false] when it raises [OSError] or [TypeError]. *)
Variable kill0 : value -> bool.
(** [json.loads]: the value, or the class of the exception it raises:
    [JSONDecodeError] on text that is no JSON, [RecursionError] on text
    nested too deeply, [ValueError] on an integer of too many digits. *)
Variable json_loads : string -> value + string.

(** The body of the loop of [spawn_tasks]. *)
Definition spawn_one (sid : string) (cwd : option string) (now : Z)
    (t : BackgroundTask) (q : qstore) : option string * qstore :=
  match has_command t with
  | None =>
      (None,
       update_task_status (task_id t) sid
         {| u_status := Some "failed"; u_started_at := None;
            u_completed_at := Some now; u_exit_code := None;
            u_stdout := None; u_stderr := None;
            u_error := Some "No command specified"; u_metadata := None |} q)
  | Some cmd =>
      let stdout_file := output_file sid (task_id t) ".stdout" in
      let stderr_file := output_file sid (task_id t) ".stderr" in
      let q := {| dbs := dbs q; incoming := incoming q;
                  outputs := <[stderr_file := ""]> (<[stdout_file := ""]> (outputs q));
                  drawn := drawn q |} in
      match popen (task_id t) cmd cwd with
      | inl pid =>
          let m := match has_metadata t with Some m => m | None => [] end in
          let m := Dict.set m "pid" (VInt pid) in
          let m := Dict.set m "stdout_file" (VStr stdout_file) in
          let m := Dict.set m "stderr_file" (VStr stderr_file) in
          (Some (task_id t),
           update_task_status (task_id t) sid
             {| u_status := Some "running"; u_started_at := Some now;
                u_completed_at := None; u_exit_code := None;
                u_stdout := None; u_stderr := None; u_error := None;
                u_metadata := Some m |} q)
      | inr e =>
          (None,
           update_task_status (task_id t) sid
             {| u_status := Some "failed"; u_started_at := None;
                u_completed_at := Some now; u_exit_code := None;
                u_stdout := None; u_stderr := None; u_error := Some e;
                u_metadata := None |} q)
      end
  end.

Fixpoint spawn_loop (pending : list BackgroundTask) (sid : string)
    (cwd : option string) (now : Z) (q : qstore) : list string * qstore :=
  match pending with
  | [] => ([], q)
  | t :: rest =>
      let '(spawned, q) := spawn_one sid cwd now t q in
      let '(ids, q) := spawn_loop rest sid cwd now q in
      (match spawned with Some i => i :: ids | None => ids end, q)
  end.

Definition spawn_tasks (sid : string) (max_concurrent : nat)
    (cwd : option string) (now : Z) (q : qstore) : list string * qstore :=
  let '(running, q) := get_running_tasks sid q in
  let available_slots := (max_concurrent - length running)%nat in
  match available_slots with
  | O => ([], q)
  | _ =>
      let '(pending, q) := get_pending_tasks sid available_slots q in
      spawn_loop pending sid cwd now q
  end.

(** The body of the loop of [check_running_tasks]: the id when the task
    was found finished. *)
Definition check_one (sid : string) (current_time : Z) (t : BackgroundTask)
    (q : qstore) : option string * qstore :=
  if timed_out current_time t then
    let stdout_content :=
      match has_metadata t with
      | Some m => read_back (Dict.get m "stdout_file") q
      | None => ""
      end in
    let stderr_content :=
      match has_metadata t with
      | Some m => read_back (Dict.get m "stderr_file") q
      | None => ""
      end in
    (Some (task_id t),
     update_task_status (task_id t) sid
       {| u_status := Some "failed"; u_started_at := None;
          u_completed_at := Some current_time; u_exit_code := None;
          u_stdout := Some stdout_content; u_stderr := Some stderr_content;
          u_error := Some ("Task timed out after " +:+ PyStr.of_Z (timeout t) +:+ "s");
          u_metadata := None |} q)
  else
    match has_metadata t with
    | Some m =>
        match Dict.get m "pid" with
        | Some pid =>
            if kill0 pid then (None, q)
            else
              let stdout_content := read_back (Dict.get m "stdout_file") q in
              let stderr_content := read_back (Dict.get m "stderr_file") q in
              let exit_code := if PyStr.truthy stderr_content then 1%Z else 0%Z in
              (Some (task_id t),
               update_task_status (task_id t) sid
                 {| u_status := Some (if (exit_code =? 0)%Z then "completed" else "failed");
                    u_started_at := None;
                    u_completed_at := Some current_time;
                    u_exit_code := Some exit_code;
                    u_stdout := Some stdout_content;
                    u_stderr := Some stderr_content;
                    u_error := None; u_metadata := None |} q)
        | None => (None, q)
        end
    | None => (None, q)
    end.

Fixpoint check_loop (running : list BackgroundTask) (sid : string)
    (current_time : Z) (q : qstore) : list string * qstore :=
  match running with
  | [] => ([], q)
  | t :: rest =>
      let '(done, q) := check_one sid current_time t q in
      let '(ids, q) := check_loop rest sid current_time q in
      (match done with Some i => i :: ids | None => ids end, q)
  end.

Definition check_running_tasks (sid : string) (now : Z) (q : qstore)
  : list string * qstore :=
  let '(running, q) := get_running_tasks sid q in
  check_loop running sid now q.

(** [a or b] on optional text. *)
Definition or_text (a : option string) (b : string) : string :=
  match a with Some (String _ _ as s) => s | _ => b end.

(** [_parse_task_output]: the feedback, [None], the [AttributeError] of
    [first.get] when the first entry of the list is no object, or the
    exception of [json.loads] that the [except] clause does not name (it
    names [JSONDecodeError], [KeyError] and [IndexError]). *)
Definition _parse_task_output (t : BackgroundTask) : result (option feedback) :=
  let fallback :=
    match exit_code t, stdout t with
    | Some 0%Z, Some (String _ _ as out) =>
        Ok (Some {| fb_content := VStr ("Background task completed:" +:+ PyStr.nl
                                          +:+ PyStr.prefix 500 out);
                    fb_severity := VStr "info";
                    fb_category := VStr "background-task";
                    fb_task_id := source t |})
    | Some 0%Z, _ => Ok None
    | _, _ =>
        let error_msg := or_text (error t) (or_text (stderr t) "Unknown error") in
        Ok (Some {| fb_content := VStr ("Background task failed: "
                                          +:+ PyStr.prefix 500 error_msg);
                    fb_severity := VStr "warn";
                    fb_category := VStr "background-task";
                    fb_task_id := source t |})
    end in
  match stdout t with
  | Some (String _ _ as out) =>
      match json_loads out with
      | inl (VDict data) =>
          match Dict.get data "feedback" with
          | Some (VList (first :: _)) =>
              match first with
              | VDict f =>
                  Ok (Some {| fb_content := get_or f "content" (VStr "");
                              fb_severity := get_or f "severity" (VStr "info");
                              fb_category := get_or f "category" (VStr "background-task");
                              fb_task_id := source t |})
              | _ => Raise "AttributeError"
              end
          | _ => fallback
          end
      | inl _ => fallback
      | inr exc =>
          if PyStr.mem exc ["JSONDecodeError"; "KeyError"; "IndexError"] then fallback
          else Raise exc
      end
  | _ => fallback
  end.

(** The loop of [process_completed_tasks]; an exception leaves the rows
    not yet consumed in the queue. *)
Fixpoint harvest_loop (completed : list BackgroundTask) (sid : string)
    (q : qstore) : result (list feedback) * qstore :=
  match completed with
  | [] => (Ok [], q)
  | t :: rest =>
      match _parse_task_output t with
      | Raise e => (Raise e, q)
      | NoReturn => (NoReturn, q)
      | Ok fb =>
          let q := mark_task_consumed (task_id t) sid q in
          let '(r, q) := harvest_loop rest sid q in
          (match r with
           | Ok items => Ok (match fb with Some f => f :: items | None => items end)
           | Raise e => Raise e
           | NoReturn => NoReturn
           end, q)
      end
  end.

Definition process_completed_tasks (sid : string) (q : qstore)
  : result (list feedback) * qstore :=
  let '(completed, q) := get_completed_tasks sid 10 q in
  harvest_loop completed sid q.

End Runner.
End TaskRunner.

(* ===================================================================== *)
(** ** common/types.py *)
(* ===================================================================== *)

Module Types.

(** Unified action returned by tasks. *)
Record Action := {
  block : bool;
  reason : option string;
  end_turn : bool;
  add_context : option string;
  permission_decision : option string;
  permission_decision_reason : option string;
  user_message : option string;
  suppress_output : option bool;
  system_message : option string;
  exit2 : option bool;
  file_path : option string;
  task_id : option string;
  elapsed_seconds : option Z;
  severity : option string;
  category : option string
}.

(** [Action()] with every field at its default. *)
Definition Action_ : Action :=
  {| block := false; reason := None; end_turn := false; add_context := None;
     permission_decision := None; permission_decision_reason := None;
     user_message := None; suppress_output := None; system_message := None;
     exit2 := None; file_path := None; task_id := None;
     elapsed_seconds := None; severity := None; category := None |}.

(** [Action(block=False, reason=r, task_id=t, elapsed_seconds=e)] *)
Definition warning (r : string) (t : string) (e : option Z) : Action :=
  {| block := false; reason := Some r; end_turn := false; add_context := None;
     permission_decision := None; permission_decision_reason := None;
     user_message := None; suppress_output := None; system_message := None;
     exit2 := None; file_path := None; task_id := Some t;
     elapsed_seconds := e; severity := None; category := None |}.

(** What calling a task body does: it returns one action or a list, raises
    an [Exception] with the text [str(e)], or never returns. *)
Inductive body_result :=
| Returns (out : Action + list Action)
| Raises (err : string)
| Hangs.

(** A task callable, applied to the payload it is given. *)
Definition TaskFn := dict -> body_result.

(** A resolved task ready for execution. *)
Record TaskDescriptor := {
  id : string;
  fn : TaskFn;
  timeout_seconds : option Z;
  params : option dict
}.

Definition flatten_actions (v : Action + list Action) : list Action :=
  match v with inl a => [a] | inr l => l end.

End Types.

(* ===================================================================== *)
(** ** common/runner.py *)
(* ===================================================================== *)

Module Runner.
Import Types.

(** [int(v)] and [float(v)] on a value, as far as the code needs them. *)
Definition number_of (number_of_text : string -> option Z) (v : value) : result Z :=
  match v with
  | VInt z => Ok z
  | VBool b => Ok (if b then 1 else 0)%Z
  | VStr s => match number_of_text s with Some z => Ok z | None => Raise "ValueError" end
  | _ => Raise "TypeError"
  end.

Section Pool.
(** [int(s)] and [float(s)] on text, [None] when they raise. *)
Variable number_of_text : string -> option Z.
(** The seconds [perf_counter] measures around the call of the [i]-th
    descriptor of the batch. *)
Variable elapsed : nat -> Z.
(** Whether the future of the [i]-th descriptor has its result before the
    wait of [timeout] seconds on it expires: the pool's schedule and real
    time decide it. *)
Variable arrives : nat -> Z -> bool.

(** The payload a task is called with. *)
Definition task_payload (desc : TaskDescriptor) (payload : dict) : dict :=
  Dict.set payload "task"
    (VDict [("id", VStr (id desc));
            ("params", match params desc with Some p => VDict p | None => VNone end)]).

Definition stamp (desc : TaskDescriptor) (secs : Z) (a : Action) : Action :=
  {| block := block a; reason := reason a; end_turn := end_turn a;
     add_context := add_context a;
     permission_decision := permission_decision a;
     permission_decision_reason := permission_decision_reason a;
     user_message := user_message a; suppress_output := suppress_output a;
     system_message := system_message a; exit2 := exit2 a;
     file_path := file_path a;
     task_id := match task_id a with None => Some (id desc) | t => t end;
     elapsed_seconds := match elapsed_seconds a with None => Some secs | e => e end;
     severity := severity a; category := category a |}.

(** [_safe_task_call] for the [i]-th descriptor: its list of actions, or
    [None] when the body never returns. *)
Definition _safe_task_call (i : nat) (desc : TaskDescriptor) (payload : dict)
  : option (list Action) :=
  match fn desc (task_payload desc payload) with
  | Returns out => Some (map (stamp desc (elapsed i)) (flatten_actions out))
  | Raises e => Some [warning e (id desc) (Some (elapsed i))]
  | Hangs => None
  end.

(** The timeout the runner waits on a descriptor's future. *)
Definition wait_timeout (desc : TaskDescriptor) (default_timeout : Z) : Z :=
  match timeout_seconds desc with
  | Some t => if (0 <? t)%Z then t else default_timeout
  | None => default_timeout
  end.

(** Whether the body of a descriptor never returns. *)
Definition hangs (desc : TaskDescriptor) (payload : dict) : bool :=
  match fn desc (task_payload desc payload) with
  | Hangs => true
  | _ => false
  end.

(** What the loop over the futures adds to the results for one descriptor:
    the actions of its call, or the warning built from the [TimeoutError]
    of [fut.result], whose text is empty.  The wait on a body that never
    returns always expires. *)
Definition collect (default_timeout : Z) (i : nat) (desc : TaskDescriptor)
    (payload : dict) : list Action :=
  match _safe_task_call i desc payload with
  | Some actions =>
      if arrives i (wait_timeout desc default_timeout) then actions
      else [warning "" (id desc) None]
  | None => [warning "" (id desc) None]
  end.

Fixpoint collect_from (default_timeout : Z) (i : nat)
    (tasks : list TaskDescriptor) (payload : dict) : list Action :=
  match tasks with
  | [] => []
  | desc :: rest =>
      collect default_timeout i desc payload
      ++ collect_from default_timeout (S i) rest payload
  end.

(** [int(payload.get("config", {}).get("concurrency", 6))] *)
Definition cfg_conc (payload : dict) : result Z :=
  match get_or payload "config" (VDict []) with
  | VDict c => number_of number_of_text (get_or c "concurrency" (VInt 6))
  | _ => Raise "AttributeError"
  end.

(** [float(payload.get("timeout_seconds", 12))] *)
Definition default_timeout_of (payload : dict) : result Z :=
  number_of number_of_text (get_or payload "timeout_seconds" (VInt 12)).

(** [run_parallel].  The pool is left through the exit of its [with]
    block, which joins every worker: with a body that never returns the
    call never returns, whatever the loop collected and whether or not the
    conversion of the default timeout raised inside the block. *)
Definition run_parallel (tasks : list TaskDescriptor) (payload : dict)
  : result (list Action) :=
  match tasks with
  | [] => Ok []
  | _ =>
      match cfg_conc payload with
      | Ok _ =>
          if existsb (fun desc => hangs desc payload) tasks then NoReturn
          else
            match default_timeout_of payload with
            | Ok default_timeout => Ok (collect_from default_timeout 0 tasks payload)
            | Raise e => Raise e
            | NoReturn => NoReturn
            end
      | Raise e => Raise e
      | NoReturn => NoReturn
      end
  end.

End Pool.
End Runner.

(* ===================================================================== *)
(** ** common/filematch.py *)
(* ===================================================================== *)

Module FileMatch.

(** [isinstance(v, str) and v] *)
Definition nonempty_str (v : option value) : option string :=
  match v with Some (VStr (String _ _ as s)) => Some s | _ => None end.

(** Deduplicate preserving order. *)
Fixpoint uniq_keep_first (seen : list string) (l : list string) : list string :=
  match l with
  | [] => []
  | p :: r =>
      if PyStr.mem p seen then uniq_keep_first seen r
      else p :: uniq_keep_first (p :: seen) r
  end.

Definition strs_of (v : option value) : list string :=
  match v with
  | Some (VList l) =>
      flat_map (fun item => match nonempty_str (Some item) with
                            | Some s => [s] | None => [] end) l
  | _ => []
  end.

Definition edit_paths (v : option value) : list string :=
  match v with
  | Some (VList l) =>
      flat_map (fun e =>
                  match e with
                  | VDict d =>
                      match nonempty_str (or_else (Dict.get d "path") (Dict.get d "file_path")) with
                      | Some s => [s]
                      | None => []
                      end
                  | _ => []
                  end) l
  | _ => []
  end.

Definition collect_changed_files (tool_input : dict) : list string :=
  let paths :=
    match nonempty_str (Dict.get tool_input "file_path") with
    | Some s => [s] | None => [] end
    ++ strs_of (Dict.get tool_input "file_paths")
    ++ strs_of (Dict.get tool_input "files")
    ++ edit_paths (Dict.get tool_input "edits") in
  uniq_keep_first [] paths.

(** [_pull]: camelCase keys are copied to their snake_case names first. *)
Definition pull (d : dict) : list string :=
  let norm := d in
  let norm := if Dict.has norm "filePath" && negb (Dict.has norm "file_path")
              then Dict.set norm "file_path" (get_or norm "filePath" VNone) else norm in
  let norm := if Dict.has norm "filePaths" && negb (Dict.has norm "file_paths")
              then Dict.set norm "file_paths" (get_or norm "filePaths" VNone) else norm in
  collect_changed_files norm.

Definition dict_field (payload : dict) (k : string) : dict :=
  match Dict.get payload k with Some (VDict d) => d | _ => [] end.

Definition collect_changed_files_from_payload (payload : dict) : list string :=
  uniq_keep_first []
    (pull (dict_field payload "tool_input") ++ pull (dict_field payload "tool_response")).

End FileMatch.

(* ===================================================================== *)
(** ** common/selectors.py *)
(* ===================================================================== *)

Module Selectors.
Import Types.

Record _Resolved := {
  r_id : string;
  r_fn : TaskFn;
  r_timeout : option Z;
  r_params : option dict
}.

(** [str(v)] for the scalars; [repr] gives the text of a list or dict. *)
Definition py_str (repr : value -> string) (v : value) : string :=
  match v with
  | VStr s => s
  | VInt z => PyStr.of_Z z
  | VBool true => "True"
  | VBool false => "False"
  | VNone => "None"
  | _ => repr v
  end.

(** [_wrap_missing_task]: a placeholder that reports a non-blocking
    warning. *)
Definition _wrap_missing_task (ref error_text : string) : TaskFn :=
  fun _ =>
    Returns (inl (warning ("Task not available: " +:+ ref +:+ " (" +:+ error_text +:+ ")")
                    ref None)).

Section Select.
(** [_resolve_callable_from_ref]: the import of the module or entry point a
    reference names, giving the resolved id and the callable, or the text
    of the exception. *)
Variable _resolve_callable_from_ref : string -> (string * TaskFn) + string.
Variable repr : value -> string.

Definition _parse_task_entry (entry : value) : option _Resolved :=
  let fields :=
    match entry with
    | VStr s => Some (Some s, None, None, None)
    | VDict d =>
        let ref := match Dict.get d "ref" with Some (VStr s) => Some s | _ => None end in
        let timeout := match Dict.get d "timeout" with
                       | Some (VInt z) => if (0 <? z)%Z then Some z else None
                       | Some (VBool true) => Some 1%Z
                       | _ => None
                       end in
        let friendly_id := match Dict.get d "id" with
                           | Some (VStr s) =>
                               if PyStr.truthy (PyStr.strip s) then Some s else None
                           | _ => None
                           end in
        let params := match or_else (or_else (Dict.get d "params") (Dict.get d "args"))
                              (Dict.get d "config") with
                      | Some (VDict p) => Some p
                      | _ => None
                      end in
        Some (ref, timeout, friendly_id, params)
    | _ => None
    end in
  match fields with
  | Some (Some (String _ _ as ref), timeout, friendly_id, params) =>
      match _resolve_callable_from_ref ref with
      | inl (resolved_id, f) =>
          Some {| r_id := match friendly_id with Some i => i | None => resolved_id end;
                  r_fn := f; r_timeout := timeout; r_params := params |}
      | inr e =>
          Some {| r_id := match friendly_id with Some i => i | None => ref end;
                  r_fn := _wrap_missing_task ref e; r_timeout := timeout;
                  r_params := None |}
      end
  | _ => None
  end.

Fixpoint dedupe_from (seen : list string) (items : list _Resolved)
  : list TaskDescriptor :=
  match items with
  | [] => []
  | r :: rest =>
      if PyStr.mem (r_id r) seen then dedupe_from seen rest
      else {| id := r_id r; fn := r_fn r; timeout_seconds := r_timeout r;
              params := r_params r |} :: dedupe_from (r_id r :: seen) rest
  end.

Definition _dedupe_descriptors (items : list _Resolved) : list TaskDescriptor :=
  dedupe_from [] items.

Definition _entries_for_section (section : option value) : list value :=
  match section with
  | Some (VDict d) => match Dict.get d "tasks" with Some (VList l) => l | _ => [] end
  | Some (VList l) => l
  | _ => []
  end.

(** [_ext]: the lower-case text after the last dot, empty without a dot. *)
Definition _ext (p : string) : string :=
  let p := PyStr.lower p in
  if PyStr.contains_char "." p then PyStr.after_last "." p else "".

(** The [tools] filter lets the entry pass. *)
Definition tools_pass (task_entry : dict) (tool_name : string) : bool :=
  match get_or task_entry "tools" (VList []) with
  | VList ((_ :: _) as tools) =>
      PyStr.truthy tool_name
      && PyStr.mem (PyStr.lower tool_name)
           (map (fun t => PyStr.lower (py_str repr t)) tools)
  | _ => true
  end.

(** The [file_types] filter lets the entry pass. *)
Definition file_types_pass (task_entry : dict) (files : list string) : bool :=
  match get_or task_entry "file_types" (VList []) with
  | VList ((_ :: _) as file_types) =>
      let exts := map (fun ft => PyStr.lstrip_char "." (PyStr.lower (py_str repr ft)))
                    file_types in
      match files with
      | [] => false
      | _ => existsb (fun fp => PyStr.mem (_ext fp) exts) files
      end
  | _ => true
  end.

Definition select_entry (tool_name : string) (files : list string)
    (task_entry : value) : list _Resolved :=
  let parsed := match _parse_task_entry task_entry with
                | Some r => [r] | None => [] end in
  match task_entry with
  | VDict d =>
      if tools_pass d tool_name && file_types_pass d files then parsed else []
  | _ => parsed
  end.

(** [select_tasks] with the configuration given. *)
Definition select_tasks (event : string) (cfg : dict) (tool_name : string)
    (files : list string) : list TaskDescriptor :=
  let entries := _entries_for_section (Dict.get cfg event) in
  _dedupe_descriptors (flat_map (select_entry tool_name files) entries).

End Select.
End Selectors.

(* ===================================================================== *)
(** ** router.py *)
(* ===================================================================== *)

Module Router.
Import Types.

(** The state that outlives an invocation. *)
Record World := {
  feedback : Feedback.fstore;
  queue : TaskQueue.qstore
}.

(** How an invocation of [main] ends. *)
Inductive outcome :=
| Printed (response : value)   (* the one JSON object printed; exit code 0 *)
| SystemExit (msg : string)    (* [raise SystemExit(msg)] *)
| Uncaught (exc : string)      (* an exception leaves [main] *)
| IllTyped                     (* a harvested field is neither text nor
                                  null, or a field of a drop-in has
                                  another type than declared: the [Action]
                                  or the row built from it is not of the
                                  dataclass's types, and the model follows
                                  the run no further *)
| Unbounded                    (* [extends] nested deeper than the fuel *)
| NeverReturns.                (* a task body never returns: [main] waits
                                  for it and prints nothing *)

Definition text_or_empty (s : option string) : string :=
  match s with Some x => x | None => "" end.

Definition truthy_text (s : option string) : bool :=
  match s with Some x => PyStr.truthy x | None => false end.

(** [_truncate_context] *)
Definition _truncate_context (text : string) (max_lines : nat) : string :=
  if negb (PyStr.truthy text) then text
  else
    let lines := PyStr.splitlines text in
    if (length lines <=? max_lines)%nat then text
    else
      PyStr.join PyStr.nl (firstn max_lines lines)
      +:+ PyStr.nl +:+ PyStr.nl +:+ "... ("
      +:+ PyStr.of_nat (length lines - max_lines)
      +:+ " more lines truncated for brevity)".

(** [isinstance(s, str) and s.strip()], giving [s.strip()]. *)
Definition stripped (s : option string) : option string :=
  match s with
  | Some x => if PyStr.truthy (PyStr.strip x) then Some (PyStr.strip x) else None
  | None => None
  end.

Section Decide.
Variable repr : value -> string.
Variable sha256_hexdigest : string -> string.
Variable P : PathLib.

(** One rule of [block_on] against the lowered severity and category. *)
Definition rule_matches (sev cat : string) (rule : value) : bool :=
  let s := PyStr.strip (PyStr.lower (Selectors.py_str repr rule)) in
  if negb (PyStr.truthy s) then false
  else if PyStr.contains_char ":" s then
    let '(rcat, rsev) := PyStr.split_once ":" s in
    (negb (PyStr.truthy rcat) || String.eqb rcat cat)
    && (negb (PyStr.truthy rsev) || String.eqb rsev sev)
  else if PyStr.mem s ["info"; "warn"; "error"] then String.eqb sev s
  else String.eqb s cat.

Definition _matches_policy (block_on : list value) (a : Action) : bool :=
  let sev := PyStr.lower (text_or_empty (severity a)) in
  let cat := PyStr.lower (text_or_empty (category a)) in
  existsb (rule_matches sev cat) block_on.

Definition blocks_of (block_on : list value) (results : list Action) : list Action :=
  List.filter (fun a => block a || _matches_policy block_on a) results.

Definition adds_of (block_on : list value) (results : list Action) : list Action :=
  List.filter (fun a => truthy_text (add_context a) && negb (block a)
                        && negb (_matches_policy block_on a)) results.

(** The deduplication of the additions for PostToolUse. *)
Fixpoint dedupe_adds (adds : list Action) (session_id : string) (now : Z)
    (st : Feedback.fstore) : list Action * Feedback.fstore :=
  match adds with
  | [] => ([], st)
  | a :: rest =>
      if negb (truthy_text (add_context a)) then dedupe_adds rest session_id now st
      else
        let '(item, st) :=
          Feedback.record_feedback sha256_hexdigest P
            (text_or_empty (add_context a))
            (match task_id a with
             | Some (String _ _ as t) => t
             | _ => "unknown"
             end)
            session_id (file_path a) (severity a) (category a) "show_once" now st in
        if Feedback.should_show_feedback item then
          let st := Feedback.mark_shown (Feedback.issue_id item) session_id st in
          let '(kept, st) := dedupe_adds rest session_id now st in
          (a :: kept, st)
        else dedupe_adds rest session_id now st
  end.

Definition is_post (event_name : string) : bool := String.eqb event_name "PostToolUse".

(** [_reason_from_blocks] *)
Definition _reason_from_blocks (blocks : list Action) (event_name : string) : string :=
  let texts :=
    flat_map (fun a => match stripped (reason a) with
                       | Some r => [r]
                       | None => match stripped (add_context a) with
                                 | Some c => [c]
                                 | None => []
                                 end
                       end) blocks in
  match texts with
  | _ :: _ =>
      let detailed := _truncate_context (PyStr.join (PyStr.nl +:+ PyStr.nl) texts) 50 in
      if is_post event_name then "Issues found:" +:+ PyStr.nl +:+ detailed
      else detailed
  | [] =>
      let ids := flat_map (fun a => match task_id a with
                                    | Some (String _ _ as t) => [t]
                                    | _ => []
                                    end) blocks in
      match ids with
      | _ :: _ =>
          if is_post event_name then "Issues found in: " +:+ PyStr.join ", " ids
          else "Blocked by: " +:+ PyStr.join ", " ids
      | [] => if is_post event_name then "Issues found" else "Blocked"
      end
  end.

(** [_merged_context] *)
Definition _merged_context (adds : list Action) : string :=
  let lines := flat_map (fun a => match stripped (add_context a) with
                                  | Some _ => [text_or_empty (add_context a)]
                                  | None => []
                                  end) adds in
  _truncate_context (PyStr.join PyStr.nl lines) 50.

(** [next((a.reason for a in enders if a.reason), "Requested stop")] *)
Definition stop_reason (enders : list Action) : string :=
  match List.find (fun a => truthy_text (reason a)) enders with
  | Some a => text_or_empty (reason a)
  | None => "Requested stop"
  end.

Definition with_context (event_name ctx : string) (out : dict) : dict :=
  if PyStr.truthy ctx then
    Dict.set out "hookSpecificOutput"
      (VDict [("hookEventName", VStr event_name); ("additionalContext", VStr ctx)])
  else out.

(** The shape used by the events that answer a block with a decision. *)
Definition decision_shape (event blocks_reason : string) (has_blocks : bool)
    (ctx : string) : dict :=
  if has_blocks then [("decision", VStr "block"); ("reason", VStr blocks_reason)]
  else with_context event ctx [("continue", VBool true)].

Definition nonempty {A} (l : list A) : bool :=
  match l with [] => false | _ => true end.

(** [policy.get("block_on")] of the configuration, the empty list when
    the policy or the list is missing. *)
Definition block_on_of (cfg : dict) : list value :=
  let policy := match Dict.get cfg "policy" with Some (VDict p) => p | _ => [] end in
  match Dict.get policy "block_on" with Some (VList l) => l | _ => [] end.

(** The event switch: the object to print, before the common fields. *)
Definition shape (event : string) (blocks adds pre_decisions enders : list Action)
  : dict :=
  let ctx := _merged_context adds in
  let reason_ := _reason_from_blocks blocks event in
  if String.eqb event "PreToolUse" then
    if nonempty blocks then
      [("continue", VBool true);
       ("hookSpecificOutput",
        VDict [("hookEventName", VStr "PreToolUse");
               ("permissionDecision", VStr "deny");
               ("permissionDecisionReason", VStr reason_)])]
    else
      let out :=
        match pre_decisions with
        | d :: _ =>
            [("continue", VBool true);
             ("hookSpecificOutput",
              VDict [("hookEventName", VStr "PreToolUse");
                     ("permissionDecision", VStr (text_or_empty (permission_decision d)));
                     ("permissionDecisionReason",
                      VStr (text_or_empty (permission_decision_reason d)))])]
        | [] =>
            if PyStr.truthy ctx then
              [("continue", VBool true);
               ("hookSpecificOutput",
                VDict [("hookEventName", VStr "PreToolUse");
                       ("permissionDecision", VStr "allow");
                       ("permissionDecisionReason", VStr ctx)])]
            else [("continue", VBool true)]
        end in
      if nonempty enders
      then [("continue", VBool false); ("stopReason", VStr (stop_reason enders))]
      else out
  else if String.eqb event "PostToolUse" then
    decision_shape "PostToolUse" reason_ (nonempty blocks) ctx
  else if String.eqb event "UserPromptSubmit" then
    decision_shape "UserPromptSubmit" reason_ (nonempty blocks) ctx
  else if PyStr.mem event ["Stop"; "SubagentStop"; "PreCompact"] then
    decision_shape event reason_ (nonempty blocks) ctx
  else if String.eqb event "SessionStart" then
    if nonempty blocks then [("continue", VBool false); ("stopReason", VStr reason_)]
    else if nonempty enders
    then [("continue", VBool false); ("stopReason", VStr (stop_reason enders))]
    else with_context "SessionStart" ctx [("continue", VBool true)]
  else if PyStr.mem event ["SessionEnd"; "Notification"] then
    with_context event ctx [("continue", VBool true)]
  else [("continue", VBool true)].

(** The clean-up at the end of the SessionEnd case. *)
Definition session_end_cleanup (event session_id : string) (w : World) : World :=
  if String.eqb event "SessionEnd" then
    {| feedback := Feedback.cleanup_session session_id (feedback w);
       queue := TaskQueue.cleanup_session session_id (queue w) |}
  else w.

(** The common fields attached to the object. *)
Definition common_fields (results : list Action) (payload_out : dict) : dict :=
  let suppress := existsb (fun a => match suppress_output a with
                                    | Some b => b | None => false end) results in
  let sys_msgs := flat_map (fun a => match stripped (system_message a) with
                                     | Some m => [m] | None => [] end) results in
  let payload_out := if suppress then Dict.set payload_out "suppressOutput" (VBool true)
                     else payload_out in
  if nonempty sys_msgs
  then Dict.set payload_out "systemMessage" (VStr (PyStr.join PyStr.nl sys_msgs))
  else payload_out.

(** The decision engine: everything [main] does with the collected
    results, from the policy to the printed object. *)
Definition respond (event : string) (session_id : string) (cfg : dict)
    (results : list Action) (now : Z) (w : World) : value * World :=
  let block_on := block_on_of cfg in
  let blocks := blocks_of block_on results in
  let adds := adds_of block_on results in
  let pre_decisions := List.filter (fun a => truthy_text (permission_decision a)) results in
  let enders := List.filter end_turn results in
  let '(adds, fb) :=
    if is_post event then dedupe_adds adds session_id now (feedback w)
    else (adds, feedback w) in
  let w := {| feedback := fb; queue := queue w |} in
  let payload_out := shape event blocks adds pre_decisions enders in
  let w := session_end_cleanup event session_id w in
  (VDict (common_fields results payload_out), w).

End Decide.

(** A harvested field as an [Action] field: text or null. *)
Definition text_field (v : value) : option (option string) :=
  match v with
  | VStr s => Some (Some s)
  | VNone => Some None
  | _ => None
  end.

(** The [Action] built from one harvested feedback. *)
Definition action_of_feedback (f : TaskRunner.feedback) : option Action :=
  match text_field (TaskRunner.fb_content f),
        text_field (TaskRunner.fb_severity f),
        text_field (TaskRunner.fb_category f) with
  | Some c, Some s, Some k =>
      Some {| block := false; reason := None; end_turn := false; add_context := c;
              permission_decision := None; permission_decision_reason := None;
              user_message := None; suppress_output := None; system_message := None;
              exit2 := None; file_path := None;
              task_id := Some (TaskRunner.fb_task_id f);
              elapsed_seconds := None; severity := s; category := k |}
  | _, _, _ => None
  end.

Fixpoint actions_of_feedback (l : list TaskRunner.feedback) : option (list Action) :=
  match l with
  | [] => Some []
  | f :: rest =>
      match action_of_feedback f, actions_of_feedback rest with
      | Some a, Some r => Some (a :: r)
      | _, _ => None
      end
  end.

(** The message and response of the two fatal stops. *)
Definition stop_response (event msg : string) : value :=
  VDict [("continue", VBool false);
         ("stopReason", VStr msg);
         ("systemMessage", VStr msg);
         ("hookSpecificOutput",
          VDict [("hookEventName", VStr event); ("additionalContext", VStr msg)])].

Section Main.
Variable P : PathLib.
Variable E : Config.ConfigEnv.
(** Enough fuel for the nesting of [extends]. *)
Variable fuel : nat.
Variable repr : value -> string.
Variable sha256_hexdigest : string -> string.
Variable uuid4 : nat -> string.
Variable json_loads : string -> value + string.
Variable number_of_text : string -> option Z.
Variable _resolve_callable_from_ref : string -> (string * TaskFn) + string.
Variable elapsed : nat -> Z.
Variable arrives : nat -> Z -> bool.
Variable popen : string -> list value -> option string -> Z + string.
Variable kill0 : value -> bool.
(** [p.exists() and p.is_dir()] *)
Variable is_dir : string -> bool.
(** The reading of [time.time()] during the invocation. *)
Variable now : Z.

(** [str(payload.get(k) or default)] *)
Definition str_or (payload : dict) (k default : string) : string :=
  match Dict.get payload k with
  | Some v => if truthy v then Selectors.py_str repr v else default
  | None => default
  end.

(** [str(payload.get(k, default))] *)
Definition str_get (payload : dict) (k default : string) : string :=
  match Dict.get payload k with
  | Some v => Selectors.py_str repr v
  | None => default
  end.

Definition reserved_message (offenders : list string) : string :=
  "Reserved package namespace found at project root: "
  +:+ PyStr.join ", " offenders
  +:+ "." +:+ PyStr.nl
  +:+ "These folders can shadow the installed xenohooks package and cause import/runtime issues."
  +:+ PyStr.nl
  +:+ "Please rename or move these directories out of the project root.".

(** Background housekeeping and the decision, once tasks were selected. *)
Definition after_run (event : string) (payload cfg : dict) (results : list Action)
    (w : World) : outcome * World :=
  let session_id := str_get payload "session_id" "" in
  let cwd := str_get payload "cwd" "." in
  match TaskQueue.import_from_incoming uuid4 json_loads session_id now (queue w) with
  | None => (IllTyped, w)
  | Some (_, q) =>
      let '(_, q) := TaskRunner.spawn_tasks popen session_id 2 (Some cwd) now q in
      let '(_, q) := TaskRunner.check_running_tasks kill0 session_id now q in
      let '(harvest, q) := TaskRunner.process_completed_tasks json_loads session_id q in
      let w := {| feedback := feedback w; queue := q |} in
      match harvest with
      | Raise e => (Uncaught e, w)
      | NoReturn => (NeverReturns, w)
      | Ok completed_feedback =>
          match actions_of_feedback completed_feedback with
          | None => (IllTyped, w)
          | Some more =>
              let '(response, w) :=
                respond repr sha256_hexdigest P event session_id cfg (results ++ more) now w in
              (Printed response, w)
          end
      end
  end.

(** [main] from the parsed hook input on: the command-line flags give
    [config_paths], standard input gives [payload]. *)
Definition main (config_paths : option (list string)) (payload : dict) (w : World)
  : outcome * World :=
  match Dict.get payload "hook_event_name" with
  | Some (VStr (String _ _ as event)) =>
      let offenders :=
        if String.eqb event "SessionStart" then
          let cwd := path_resolve P (str_or payload "cwd" ".") in
          List.filter (fun name => is_dir (path_join P cwd name)) ["xenohooks"; "xenomorph"]
        else [] in
      match offenders with
      | _ :: _ => (Printed (stop_response "SessionStart" (reserved_message offenders)), w)
      | [] =>
          match Config.load_config P E fuel config_paths with
          | Config.OutOfFuel => (Unbounded, w)
          | Config.RuntimeError e => (Printed (stop_response event ("xenohooks: " +:+ e)), w)
          | Config.Loaded cfg =>
              let tool_name := str_or payload "tool_name" "" in
              let files := if String.eqb event "PostToolUse"
                           then FileMatch.collect_changed_files_from_payload payload
                           else [] in
              match Runner.number_of number_of_text (get_or cfg "default_timeout" (VInt 12)) with
              | Raise e => (Uncaught e, w)
              | NoReturn => (NeverReturns, w)
              | Ok default_timeout =>
                  let payload := Dict.set payload "files" (VList (map VStr files)) in
                  let payload := Dict.set payload "config" (VDict cfg) in
                  let payload := Dict.set payload "timeout_seconds" (VInt default_timeout) in
                  let tasks := Selectors.select_tasks _resolve_callable_from_ref repr
                                 event cfg tool_name files in
                  match tasks with
                  | [] => (Printed (VDict [("continue", VBool true)]), w)
                  | _ =>
                      match Runner.run_parallel number_of_text elapsed arrives tasks payload with
                      | Raise e => (Uncaught e, w)
                      | NoReturn => (NeverReturns, w)
                      | Ok results => after_run event payload cfg results w
                      end
                  end
              end
          end
      end
  | _ => (SystemExit "xenohooks: missing 'hook_event_name' in input", w)
  end.

End Main.
End Router.

(* ===================================================================== *)
(** ** The words of the specification *)
(* ===================================================================== *)

Module Spec.
Import Config.

(** The last entry of [ts] with the identity [k], [d] when there is none. *)
Fixpoint last_with_key (k : string) (ts : list value) (d : value) : value :=
  match ts with
  | [] => d
  | e :: r => last_with_key k r (if String.eqb (_task_key e) k then e else d)
  end.

(** "Task lists deduplicated by identity, order preserved": one entry per
    identity, at the place of the identity's first entry; of several
    entries with one identity the last is the one kept. *)
Fixpoint dedup_by_identity (seen : list string) (ts : list value) : list value :=
  match ts with
  | [] => []
  | e :: r =>
      let k := _task_key e in
      if PyStr.mem k seen then dedup_by_identity seen r
      else last_with_key k r e :: dedup_by_identity (k :: seen) r
  end.

(** An event section with its task list deduplicated. *)
Definition dedup_section (section : value) : dict :=
  let s := _normalize_event_section section in
  Dict.set (Dict.without "tasks" s) "tasks"
    (VList (dedup_by_identity [] (section_tasks s))).

(** "Merging a config with itself": the config with every event section's
    task list deduplicated and everything else as it was. *)
Definition self_merge (c : dict) : dict :=
  map (fun kv => if is_event_key (fst kv)
                 then (fst kv, VDict (dedup_section (snd kv)))
                 else kv) c.

(** The strings a [remove] list holds name the identity [k]. *)
Definition named (rs : list value) (k : string) : bool :=
  existsb (fun rid => match rid with VStr r => String.eqb r k | _ => false end) rs.

(** A section whose entries all have an identity, none of them disabled,
    and whose [remove] list names none of its own entries. *)
Definition plain_section (section : value) : bool :=
  let s := _normalize_event_section section in
  let removes := match Dict.get s "remove" with Some (VList rs) => rs | _ => [] end in
  forallb (fun e => PyStr.truthy (_task_key e) && negb (is_disabled e)
                    && negb (named removes (_task_key e)))
    (section_tasks s).

Definition plain_config (c : dict) : bool :=
  forallb (fun kv => if is_event_key (fst kv) then plain_section (snd kv) else true) c.






(** "Purged before the read or write": a table without the rows whose
    [last_seen] is older than the window. *)
Definition purged (now : Z) (t : list Feedback.FeedbackItem) : bool :=
  forallb (fun r => (now - Feedback.DEFAULT_DEDUP_WINDOW <=? Feedback.last_seen r)%Z) t.

(** The row of the task [tid] in the session's queue. *)
Definition task_row (tid sid : string) (q : TaskQueue.qstore)
  : option TaskQueue.BackgroundTask :=
  List.find (fun r => String.eqb (TaskQueue.task_id r) tid) (TaskQueue.table sid q).

(** The row update the poll writes for a task found finished at [now]
    with the captured texts [out] and [err]. *)
Definition finished (now : Z) (out err : string) : TaskQueue.status_update :=
  {| TaskQueue.u_status := Some (if PyStr.truthy err then "failed" else "completed");
     TaskQueue.u_started_at := None;
     TaskQueue.u_completed_at := Some now;
     TaskQueue.u_exit_code := Some (if PyStr.truthy err then 1 else 0)%Z;
     TaskQueue.u_stdout := Some out;
     TaskQueue.u_stderr := Some err;
     TaskQueue.u_error := None; TaskQueue.u_metadata := None |}.

(** The field [k] of a printed response. *)
Definition field (response : value) (k : string) : option value :=
  match response with VDict d => Dict.get d k | _ => None end.

End Spec.

(* ===================================================================== *)
(** ** A small host to run the model on *)
(* ===================================================================== *)

Module Host.
Import Types.

(** The text before the last [/]. *)
Fixpoint dirname (s : string) : string :=
  match s with
  | EmptyString => EmptyString
  | String c r => if PyStr.contains_char "/" r then String c (dirname r) else EmptyString
  end.

(** POSIX paths that are already normal. *)
Definition posix : PathLib :=
  {| path_join := fun a b => a +:+ "/" +:+ b;
     path_resolve := fun a => a;
     path_parent := dirname;
     path_is_absolute := PyStr.startswith "/";
     path_suffix := fun a => if PyStr.contains_char "." a
                             then "." +:+ PyStr.after_last "." a else "";
     path_name := PyStr.after_last "/" |}.

(** A stand-in for the digest: the text itself. *)
Definition digest (s : string) : string := s.

Definition uuid (n : nat) : string := "task-" +:+ PyStr.of_nat n.

Definition no_repr (v : value) : string := "".

Definition no_number (s : string) : option Z := None.

(** The double quote, for JSON texts. *)
Definition dq : string := String (ascii_of_nat 34) EmptyString.

(** A JSON object whose feedback list holds a text instead of an object. *)
Definition feedback_of_text : string :=
  "{" +:+ dq +:+ "feedback" +:+ dq +:+ ": [" +:+ dq +:+ "lint ok" +:+ dq +:+ "]}".

(** [json.loads] on the one JSON text used below; every other text is
    rejected. *)
Definition loads (s : string) : value + string :=
  if String.eqb s feedback_of_text
  then inl (VDict [("feedback", VList [VStr "lint ok"])])
  else inr "JSONDecodeError".

Definition empty_queue : TaskQueue.qstore :=
  {| TaskQueue.dbs := ∅; TaskQueue.incoming := ∅; TaskQueue.outputs := ∅;
     TaskQueue.drawn := 0 |}.

(** A configuration with a list-shaped section, repeated identities and a
    nested policy, on which the theorem applies. *)
Definition self_merge_sample : dict :=
  [("default_timeout", VInt 20);
   ("policy", VDict [("block_on", VList [VStr "security:error"])]);
   ("PreToolUse",
    VList [VStr "pack.a"; VDict [("ref", VStr "pack.b"); ("timeout", VInt 5)];
           VDict [("id", VStr "pack.a"); ("ref", VStr "pack.a2")]]);
   ("PostToolUse",
    VDict [("remove", VList [VStr "pack.z"]); ("tasks", VList [VStr "pack.c"])])].

(** A project directory in which every conventional configuration file
    exists and none can be parsed. *)
Definition broken : Config.cfg_file :=
  {| Config.yaml_doc := None; Config.json_doc := None |}.

Definition broken_env : Config.ConfigEnv :=
  {| Config.env_CLAUDE_HOOKS_CONFIG := None;
     Config.getcwd := "/work";
     Config.files :=
       [("/work/hooks.yml", broken); ("/work/hooks.yaml", broken);
        ("/work/config/hooks.yml", broken); ("/work/config/hooks.yaml", broken);
        ("/work/.claude/hooks/config/hooks.yml", broken);
        ("/work/hooks.json", broken)];
     Config.examples := [] |}.


(** A project directory whose [hooks.yml] configures no task. *)
Definition no_tasks_env : Config.ConfigEnv :=
  {| Config.env_CLAUDE_HOOKS_CONFIG := None;
     Config.getcwd := "/work";
     Config.files :=
       [("/work/hooks.yml",
         {| Config.yaml_doc := Some (VDict [("SessionEnd", VDict [("tasks", VList [])])]);
            Config.json_doc := None |})];
     Config.examples := [] |}.

(** A project whose [hooks.yml] and [base.yml] extend each other. *)
Definition cyclic_env : Config.ConfigEnv :=
  {| Config.env_CLAUDE_HOOKS_CONFIG := None;
     Config.getcwd := "/work";
     Config.files :=
       [("/work/hooks.yml",
         {| Config.yaml_doc :=
              Some (VDict [("extends", VList [VStr "base.yml"]);
                           ("default_timeout", VInt 20)]);
            Config.json_doc := None |});
        ("/work/base.yml",
         {| Config.yaml_doc :=
              Some (VDict [("extends", VList [VStr "hooks.yml"]);
                           ("concurrency", VInt 2)]);
            Config.json_doc := None |})];
     Config.examples := [] |}.

(** A feedback row last seen at time 0. *)
Definition stale_row : Feedback.FeedbackItem :=
  {| Feedback.instance_id := "unused import os";
     Feedback.issue_id := "python.ruff:app.py:unused import os";
     Feedback.content := "unused import os";
     Feedback.task_id := "python.ruff";
     Feedback.severity := Some "warn";
     Feedback.category := Some "lint";
     Feedback.file_path := Some "src/app.py";
     Feedback.strategy := "show_once";
     Feedback.first_seen := 0;
     Feedback.last_seen := 0;
     Feedback.occurrence_count := 1;
     Feedback.times_shown := 0 |}.

(** A task spawned at time 110 with two minutes to run. *)
Definition running_task : TaskQueue.BackgroundTask :=
  {| TaskQueue.task_id := "task-0"; TaskQueue.task_type := "external";
     TaskQueue.status := "running";
     TaskQueue.command := Some [VStr "pytest"; VStr "-q"];
     TaskQueue.metadata :=
       Some [("pid", VInt 4242);
             ("stdout_file", VStr "default/output/task-0.stdout");
             ("stderr_file", VStr "default/output/task-0.stderr")];
     TaskQueue.source := "cli"; TaskQueue.session_id := "";
     TaskQueue.created_at := 100; TaskQueue.started_at := Some 110%Z;
     TaskQueue.completed_at := None; TaskQueue.timeout := 120;
     TaskQueue.exit_code := None; TaskQueue.stdout := None;
     TaskQueue.stderr := None; TaskQueue.error := None |}.

(** Its queue, with the output the process left before it went away. *)
Definition polled_queue : TaskQueue.qstore :=
  {| TaskQueue.dbs := {[ "default" := [running_task] ]};
     TaskQueue.incoming := ∅;
     TaskQueue.outputs := {[ "default/output/task-0.stdout" := "3 passed";
                             "default/output/task-0.stderr" := "" ]};
     TaskQueue.drawn := 1 |}.

(** A completed task with the given id, completion time and output. *)
Definition completed_task (tid : string) (at_ : Z) (out : string)
  : TaskQueue.BackgroundTask :=
  {| TaskQueue.task_id := tid; TaskQueue.task_type := "external";
     TaskQueue.status := "completed";
     TaskQueue.command := Some [VStr "lint"];
     TaskQueue.metadata := Some [("pid", VInt 4243)];
     TaskQueue.source := "cli"; TaskQueue.session_id := "";
     TaskQueue.created_at := 100; TaskQueue.started_at := Some 110%Z;
     TaskQueue.completed_at := Some at_; TaskQueue.timeout := 120;
     TaskQueue.exit_code := Some 0%Z; TaskQueue.stdout := Some out;
     TaskQueue.stderr := Some ""; TaskQueue.error := None |}.

Definition queue_of (rows : list TaskQueue.BackgroundTask) : TaskQueue.qstore :=
  {| TaskQueue.dbs := {[ "default" := rows ]}; TaskQueue.incoming := ∅;
     TaskQueue.outputs := ∅; TaskQueue.drawn := 2 |}.

(** A project directory whose [hooks.yml] configures one SessionEnd task. *)
Definition one_task_env : Config.ConfigEnv :=
  {| Config.env_CLAUDE_HOOKS_CONFIG := None;
     Config.getcwd := "/work";
     Config.files :=
       [("/work/hooks.yml",
         {| Config.yaml_doc :=
              Some (VDict [("SessionEnd", VDict [("tasks", VList [VStr "notify.bye"])])]);
            Config.json_doc := None |})];
     Config.examples := [] |}.

(** Every reference resolves to a task that returns an empty action. *)
Definition import_quiet (ref : string) : (string * TaskFn) + string :=
  inl (ref +:+ ":run", fun _ => Returns (inl Action_)).

(** A world in which the session "s1" has left feedback and a finished
    background task behind. *)
Definition used_world : Router.World :=
  {| Router.feedback := {[ "s1.db" := [stale_row] ]};
     Router.queue :=
       {| TaskQueue.dbs := {[ "s1" := [running_task] ]};
          TaskQueue.incoming := {[ "s1" := [] ]};
          TaskQueue.outputs := ∅; TaskQueue.drawn := 1 |} |}.

(** An action that only adds context. *)
Definition advisory (ctx : string) : Action :=
  {| block := false; reason := None; end_turn := false; add_context := Some ctx;
     permission_decision := None; permission_decision_reason := None;
     user_message := None; suppress_output := None; system_message := None;
     exit2 := None; file_path := None; task_id := None;
     elapsed_seconds := None; severity := None; category := None |}.

(** A security finding of severity error, as an analyzer reports it. *)
Definition security_finding : Action :=
  {| block := false; reason := None; end_turn := false;
     add_context := Some "eval() on user input";
     permission_decision := None; permission_decision_reason := None;
     user_message := None; suppress_output := None; system_message := None;
     exit2 := None; file_path := Some "src/app.py"; task_id := Some "python.bandit";
     elapsed_seconds := Some 1%Z; severity := Some "error";
     category := Some "security" |}.

Definition task_returning (i : string) (a : Action) : TaskDescriptor :=
  {| id := i; fn := fun _ => Returns (inl a); timeout_seconds := None;
     params := None |}.

Definition task_raising (i err : string) : TaskDescriptor :=
  {| id := i; fn := fun _ => Raises err; timeout_seconds := Some 5%Z;
     params := None |}.


(** A payload as [main] hands it to the runner. *)
Definition run_payload : dict :=
  [("hook_event_name", VStr "PostToolUse");
   ("files", VList []);
   ("config", VDict [("concurrency", VInt 6)]);
   ("timeout_seconds", VInt 12)].

(** A configuration whose policy blocks on security errors, and one
    whose policy blocks on nothing. *)
Definition strict_cfg : dict :=
  [("policy", VDict [("block_on", VList [VStr "security:error"])])].

Definition lenient_cfg : dict :=
  [("policy", VDict [("block_on", VList [])])].

(** A configuration whose policy blocks on style findings, on security
    warnings, on lint errors and on every warning. *)
Definition other_rules_cfg : dict :=
  [("policy",
    VDict [("block_on",
            VList [VStr "style"; VStr "Security:Warn"; VStr " lint:error ";
                   VStr "warn"])])].

Definition fresh_world : Router.World :=
  {| Router.feedback := ∅; Router.queue := empty_queue |}.

(** No module can be imported. *)
Definition no_import (ref : string) : (string * TaskFn) + string :=
  inr "No module named that".

(** [main] on the host: nothing can be spawned, no process exists, no
    reserved directory is present, every future arrives in time. *)
Definition main (E : Config.ConfigEnv)
    (resolve : string -> (string * TaskFn) + string) (now : Z)
    (config_paths : option (list string)) (payload : dict) (w : Router.World)
  : Router.outcome * Router.World :=
  Router.main posix E 8 no_repr digest uuid loads no_number resolve
    (fun _ => 0%Z) (fun _ _ => true) (fun _ _ _ => inr "cannot spawn")
    (fun _ => false) (fun _ => false) now config_paths payload w.

End Host.

(* ===================================================================== *)
(** ** Invariants named in the statements *)
(* ===================================================================== *)

Module Inv.
Import Config.

(** An ordered dict of task entries under their identities: the keys are
    pairwise different and every entry stands under its own, non-empty
    identity. *)
Definition keyed (O : dict) : Prop :=
  uniq (Dict.keys O) = true
  /\ forall k v, In (k, v) O -> _task_key v = k /\ PyStr.truthy k = true.

(** A task list in which every entry has an identity and no two entries
    share one. *)
Definition distinct_identities (ts : list value) : bool :=
  uniq (map _task_key ts) && forallb (fun e => PyStr.truthy (_task_key e)) ts.

(** The section of the event [ev] in [cfg] is a dict with a task list of
    distinct identities. *)
Definition section_normal (cfg : dict) (ev : string) : Prop :=
  exists s ts, Dict.get cfg ev = Some (VDict s)
               /\ Dict.get s "tasks" = Some (VList ts)
               /\ distinct_identities ts = true.

(** How [_merge] and [_merge_configs] combine the value [old] a key has
    with the value [new] the overriding dict gives it, outside the event
    sections: two dicts merge, anything else is replaced. *)
Definition merged_value (old : option value) (new : value) : value :=
  match old, new with
  | Some (VDict da), VDict db => VDict (_merge da db)
  | _, _ => new
  end.

(** What tells the feedback files of two sessions apart: the first 16
    characters of the id, "default" standing for the empty id. *)
Definition file_stem (sid : string) : string :=
  PyStr.prefix 16 (if PyStr.truthy sid then sid else "default").

(** The rows of a session's feedback table, none when the file does not
    exist. *)
Definition feedback_rows (sid : string) (st : Feedback.fstore)
  : list Feedback.FeedbackItem :=
  match st !! Feedback.db_name sid with Some t => t | None => [] end.

(** A list in the order [le]: each element stands before its successor. *)
Fixpoint ordered {A} (le : A -> A -> bool) (l : list A) : bool :=
  match l with
  | x :: ((y :: _) as r) => le x y && ordered le r
  | _ => true
  end.





(** The text of a [block_on] rule as the policy reads it. *)
Definition rule_text (repr : value -> string) (rule : value) : string :=
  PyStr.strip (PyStr.lower (Selectors.py_str repr rule)).

(** The rule texts that name an outcome of severity "error" and category
    "security": the category and the severity around a colon, either of
    them left out, or one of the two alone. *)
Definition names_security_error (text : string) : bool :=
  PyStr.mem text ["security:error"; "security:"; ":error"; ":"; "security"; "error"].

(** The number of rows of the session with the status "running". *)
Definition running_count (sid : string) (q : TaskQueue.qstore) : nat :=
  length (List.filter (TaskQueue.status_is "running") (TaskQueue.table sid q)).

(** A row that is finished: completed or failed. *)
Definition finished_row (t : TaskQueue.BackgroundTask) : bool :=
  TaskQueue.status_is "completed" t || TaskQueue.status_is "failed" t.

End Inv.

(* ===================================================================== *)
(** ** router.py: the command line *)
(* ===================================================================== *)

Module Cli.

(** The variables the flag loop of [main] sets. *)
Record Flags := {
  config_paths : option (list string);
  check_config : bool;
  queue_task : bool;
  queue_session : string;
  queue_source : string;
  queue_timeout : Z;
  queue_command : list string
}.

(** Their values before the loop. *)
Definition initial : Flags :=
  {| config_paths := None; check_config := false; queue_task := false;
     queue_session := ""; queue_source := "cli"; queue_timeout := 120;
     queue_command := [] |}.

Definition with_config (val : string) (f : Flags) : Flags :=
  {| config_paths := Some (match config_paths f with Some l => l | None => [] end
                           ++ [val]);
     check_config := check_config f; queue_task := queue_task f;
     queue_session := queue_session f; queue_source := queue_source f;
     queue_timeout := queue_timeout f; queue_command := queue_command f |}.

Definition with_check (f : Flags) : Flags :=
  {| config_paths := config_paths f; check_config := true;
     queue_task := queue_task f; queue_session := queue_session f;
     queue_source := queue_source f; queue_timeout := queue_timeout f;
     queue_command := queue_command f |}.

Definition with_queue (f : Flags) : Flags :=
  {| config_paths := config_paths f; check_config := check_config f;
     queue_task := true; queue_session := queue_session f;
     queue_source := queue_source f; queue_timeout := queue_timeout f;
     queue_command := queue_command f |}.

Definition with_session (val : string) (f : Flags) : Flags :=
  {| config_paths := config_paths f; check_config := check_config f;
     queue_task := queue_task f; queue_session := val;
     queue_source := queue_source f; queue_timeout := queue_timeout f;
     queue_command := queue_command f |}.

Definition with_source (val : string) (f : Flags) : Flags :=
  {| config_paths := config_paths f; check_config := check_config f;
     queue_task := queue_task f; queue_session := queue_session f;
     queue_source := val; queue_timeout := queue_timeout f;
     queue_command := queue_command f |}.

Definition with_timeout (val : Z) (f : Flags) : Flags :=
  {| config_paths := config_paths f; check_config := check_config f;
     queue_task := queue_task f; queue_session := queue_session f;
     queue_source := queue_source f; queue_timeout := val;
     queue_command := queue_command f |}.

Definition with_command (cmd : list string) (f : Flags) : Flags :=
  {| config_paths := config_paths f; check_config := check_config f;
     queue_task := queue_task f; queue_session := queue_session f;
     queue_source := queue_source f; queue_timeout := queue_timeout f;
     queue_command := cmd |}.

(** How the flag loop ends. *)
Inductive parsed :=
| Help                 (* the usage text is printed, [main] returns *)
| Version              (* the version is printed, [main] returns *)
| ListExamples         (* the example names are printed, [main] returns *)
| Exit (msg : string)  (* [raise SystemExit(msg)] *)
| Parsed (f : Flags).  (* the loop ran to its end or to [--] *)

Section Args.
(** [int(s)] on text, [None] when it raises [ValueError]. *)
Variable int_of_text : string -> option Z.

(** The [while] loop over [args]: a flag with a value steps over two
    tokens, every other token over one. *)
Fixpoint parse_args (args : list string) (f : Flags) : parsed :=
  match args with
  | [] => Parsed f
  | tok :: rest =>
      if String.eqb tok "-h" || String.eqb tok "--help" then Help
      else if String.eqb tok "-V" || String.eqb tok "--version" then Version
      else if String.eqb tok "--list-examples" then ListExamples
      else if String.eqb tok "--check-config" then parse_args rest (with_check f)
      else if String.eqb tok "--config" then
        match rest with
        | [] => Exit "xenohooks: --config requires a path argument"
        | val :: rest' => parse_args rest' (with_config val f)
        end
      else if String.eqb tok "--queue-task" then parse_args rest (with_queue f)
      else if String.eqb tok "--session" then
        match rest with
        | [] => Exit "xenohooks: --session requires an ID argument"
        | val :: rest' => parse_args rest' (with_session val f)
        end
      else if String.eqb tok "--source" then
        match rest with
        | [] => Exit "xenohooks: --source requires a name argument"
        | val :: rest' => parse_args rest' (with_source val f)
        end
      else if String.eqb tok "--timeout" then
        match rest with
        | [] => Exit "xenohooks: --timeout requires a seconds argument"
        | val :: rest' =>
            match int_of_text val with
            | Some z => parse_args rest' (with_timeout z f)
            | None => Exit ("xenohooks: --timeout must be an integer, got: " +:+ val)
            end
        end
      else if String.eqb tok "--" then Parsed (with_command rest f)
      else parse_args rest f
  end.

End Args.

(** How a run of the command ends. *)
Inductive outcome :=
| Informed (p : parsed)           (* help, version or example list printed *)
| ConfigPrinted (cfg : dict)      (* [--check-config]: the merged config *)
| ErrorPrinted (line : string)    (* [--check-config]: "xenohooks: <error>" *)
| Queued (lines : list string)    (* [--queue-task]: the three lines printed *)
| Stopped (msg : string)          (* [raise SystemExit(msg)] *)
| Unbounded                       (* [extends] nested deeper than the fuel *)
| Hook (o : Router.outcome).      (* the hook input was handled by the router *)

Section Front.
Variable P : PathLib.
Variable E : Config.ConfigEnv.
Variable fuel : nat.
Variable repr : value -> string.
Variable sha256_hexdigest : string -> string.
Variable uuid4 : nat -> string.
Variable json_loads : string -> value + string.
Variable number_of_text : string -> option Z.
Variable _resolve_callable_from_ref : string -> (string * Types.TaskFn) + string.
Variable elapsed : nat -> Z.
Variable arrives : nat -> Z -> bool.
Variable popen : string -> list value -> option string -> Z + string.
Variable kill0 : value -> bool.
Variable is_dir : string -> bool.
Variable now : Z.
(** The text of the exception [json.loads] raises on the input. *)
Variable json_error : string -> string.


End Front.
End Cli.

(* ===================================================================== *)
(** * Lemmas and theorems *)
(* ===================================================================== *)

Import Config.

(** ** Text and ordered dictionaries *)

Lemma mem_In s l : PyStr.mem s l = true <-> In s l.
Proof.
  unfold PyStr.mem. rewrite existsb_exists. split.
  - intros [x [Hin Heq]]. apply String.eqb_eq in Heq. now subst.
  - intros Hin. exists s. split; [assumption | apply String.eqb_refl].
Qed.

Lemma list_filter_twice {A} (f g : A -> bool) (l : list A) :
  List.filter g (List.filter f l) = List.filter (fun x => f x && g x) l.
Proof.
  induction l as [|x r IH]; simpl; [reflexivity|].
  destruct (f x); simpl; [destruct (g x)|]; now rewrite IH.
Qed.

Lemma mem_false s l : PyStr.mem s l = false <-> ~ In s l.
Proof.
  rewrite <- mem_In. destruct (PyStr.mem s l); split; intros; congruence.
Qed.

Module DictFacts.
Section Facts.
Context {V : Type}.
Implicit Types (d : list (string * V)) (k : string) (v : V).

Lemma get_set_eq d k v : Dict.get (Dict.set d k v) k = Some v.
Proof.
  induction d as [|[k' v'] r IH]; simpl.
  - now rewrite String.eqb_refl.
  - destruct (String.eqb k k') eqn:E; simpl; rewrite E; [reflexivity | exact IH].
Qed.

Lemma get_set_ne d k k' v :
  k <> k' -> Dict.get (Dict.set d k v) k' = Dict.get d k'.
Proof.
  intros Hne. induction d as [|[k0 v0] r IH]; simpl.
  - destruct (String.eqb k' k) eqn:E; [|reflexivity].
    apply String.eqb_eq in E. congruence.
  - destruct (String.eqb k k0) eqn:E; simpl.
    + apply String.eqb_eq in E. subst k0.
      destruct (String.eqb k' k) eqn:E'; [|reflexivity].
      apply String.eqb_eq in E'. congruence.
    + now rewrite IH.
Qed.

Lemma has_In d k : Dict.has d k = true <-> In k (Dict.keys d).
Proof.
  unfold Dict.has. induction d as [|[k' v'] r IH]; simpl.
  - split; [discriminate | tauto].
  - destruct (String.eqb k k') eqn:E.
    + apply String.eqb_eq in E. subst. split; auto.
    + rewrite IH. apply String.eqb_neq in E. split; [auto | intros [H|H]; congruence].
Qed.

Lemma has_false d k : Dict.has d k = false <-> ~ In k (Dict.keys d).
Proof.
  rewrite <- has_In. destruct (Dict.has d k); split; intros; congruence.
Qed.

Lemma keys_set_present d k v :
  In k (Dict.keys d) -> Dict.keys (Dict.set d k v) = Dict.keys d.
Proof.
  induction d as [|[k' v'] r IH]; simpl; [tauto|].
  intros Hin. destruct (String.eqb k k') eqn:E; simpl; [reflexivity|].
  f_equal. apply IH. apply String.eqb_neq in E.
  destruct Hin as [H|H]; [congruence | exact H].
Qed.

Lemma set_absent d k v :
  ~ In k (Dict.keys d) -> Dict.set d k v = (d ++ [(k, v)])%list.
Proof.
  induction d as [|[k' v'] r IH]; simpl; [reflexivity|].
  intros Hn. destruct (String.eqb k k') eqn:E.
  - apply String.eqb_eq in E. subst k'. simpl in Hn. tauto.
  - f_equal. apply IH. tauto.
Qed.

Lemma filter_absent d k :
  ~ In k (Dict.keys d) ->
  List.filter (fun kv => negb (String.eqb k (fst kv))) d = d.
Proof.
  induction d as [|[k' v'] r IH]; simpl; [reflexivity|].
  intros Hn. destruct (String.eqb k k') eqn:E; simpl.
  - apply String.eqb_eq in E. subst k'. simpl in Hn. tauto.
  - f_equal. apply IH. tauto.
Qed.

(** On a dictionary [pop] deletes the one entry of the key. *)
Lemma pop_filter d k :
  uniq (Dict.keys d) = true ->
  Dict.pop d k = List.filter (fun kv => negb (String.eqb k (fst kv))) d.
Proof.
  induction d as [|[k' v'] r IH]; simpl; [reflexivity|].
  intros Hu. apply andb_prop in Hu as [Hk Hu].
  destruct (String.eqb k k') eqn:E; simpl.
  - apply String.eqb_eq in E. subst k'.
    symmetry. apply filter_absent. apply mem_false.
    now apply negb_true_iff.
  - f_equal. now apply IH.
Qed.

Lemma keys_filter_incl (f : string * V -> bool) d k :
  In k (Dict.keys (List.filter f d)) -> In k (Dict.keys d).
Proof.
  induction d as [|[k' v'] r IH]; simpl; [tauto|].
  destruct (f (k', v')); simpl; tauto.
Qed.

Lemma uniq_filter (f : string * V -> bool) d :
  uniq (Dict.keys d) = true -> uniq (Dict.keys (List.filter f d)) = true.
Proof.
  induction d as [|[k' v'] r IH]; simpl; [reflexivity|].
  intros Hu. apply andb_prop in Hu as [Hk Hu].
  destruct (f (k', v')); simpl; [|now apply IH].
  rewrite IH by assumption. rewrite andb_true_r.
  apply negb_true_iff, mem_false. intros Hin.
  apply keys_filter_incl in Hin.
  apply negb_true_iff, mem_false in Hk. tauto.
Qed.

Lemma filter_twice (f g : string * V -> bool) d :
  List.filter g (List.filter f d) = List.filter (fun x => f x && g x) d.
Proof.
  induction d as [|x r IH]; simpl; [reflexivity|].
  destruct (f x); simpl; [destruct (g x)|]; now rewrite IH.
Qed.
End Facts.
End DictFacts.


(* ===================================================================== *)
(** ** Properties of the configuration merge *)
(* ===================================================================== *)

Module ConfigFacts.


Lemma named_In rs k : Spec.named rs k = true <-> In (VStr k) rs.
Proof.
  unfold Spec.named. rewrite existsb_exists. split.
  - intros [rid [Hin Hn]]. destruct rid; simpl in Hn; try discriminate.
    apply String.eqb_eq in Hn. now subst.
  - intros Hin. exists (VStr k). split; [exact Hin | apply String.eqb_refl].
Qed.

Lemma named_false rs k : Spec.named rs k = false <-> ~ In (VStr k) rs.
Proof.
  rewrite <- named_In. destruct (Spec.named rs k); split; intros; congruence.
Qed.

Lemma remove_step_filter (o : dict) rid :
  uniq (Dict.keys o) = true ->
  remove_step o rid = List.filter (fun kv => negb (match rid with VStr r => String.eqb r (fst kv) | _ => false end)) o.
Proof.
  intros Hu. destruct rid; simpl;
    try (symmetry; apply forallb_filter_id, forallb_forall; reflexivity).
  destruct (Dict.has o s) eqn:Hh.
  - now apply DictFacts.pop_filter.
  - symmetry. apply DictFacts.filter_absent. now apply DictFacts.has_false.
Qed.

Lemma removes_filter rs : forall o : dict,
  uniq (Dict.keys o) = true ->
  fold_left remove_step rs o
  = List.filter (fun kv => negb (Spec.named rs (fst kv))) o.
Proof.
  induction rs as [|rid rs IH]; intros o Hu; simpl.
  - symmetry. apply forallb_filter_id, forallb_forall. reflexivity.
  - rewrite remove_step_filter by assumption.
    rewrite IH by now apply DictFacts.uniq_filter.
    rewrite DictFacts.filter_twice. apply filter_ext.
    intros [k v]; simpl. now rewrite negb_orb.
Qed.

Lemma section_tasks_set (out : dict) ts :
  section_tasks (Dict.set out "tasks" (VList ts)) = ts.
Proof. unfold section_tasks. now rewrite DictFacts.get_set_eq. Qed.

Lemma merged_tasks a b :
  section_tasks (_merge_event_sections a b)
  = Dict.values
      (fold_left task_step (section_tasks (_normalize_event_section b))
         (apply_removes (Dict.get (_normalize_event_section b) "remove")
            (fold_left seed_step (section_tasks (_normalize_event_section a)) []))).
Proof. unfold _merge_event_sections. apply section_tasks_set. Qed.

End ConfigFacts.

(** C4. A base section whose tasks are [A, B, C] (three different,
    non-empty identities), merged with an override section whose remove
    list names C (and not A) and whose only task B' has the identity of B
    and is not disabled, has the task list [A, B']: B' stands where B
    stood and C is gone.  The remove list may name B as well: removes act
    on the inherited entries only, before the override's own entry is
    applied, so B' is still present. *)
Theorem merge_event_sections_replace_and_remove :
  forall (a b A B C B' : value) (rem : list value),
    section_tasks (_normalize_event_section a) = [A; B; C] ->
    section_tasks (_normalize_event_section b) = [B'] ->
    Dict.get (_normalize_event_section b) "remove" = Some (VList rem) ->
    PyStr.truthy (_task_key A) = true ->
    PyStr.truthy (_task_key B) = true ->
    PyStr.truthy (_task_key C) = true ->
    _task_key A <> _task_key B ->
    _task_key A <> _task_key C ->
    _task_key B <> _task_key C ->
    _task_key B' = _task_key B ->
    is_disabled B' = false ->
    In (VStr (_task_key C)) rem ->
    ~ In (VStr (_task_key A)) rem ->
    section_tasks (_merge_event_sections a b) = [A; B'].
Proof.
  intros a b A B C B' rem Ha Hb Hrem HA HB HC HAB HAC HBC HB' Hdis HinC HninA.
  rewrite ConfigFacts.merged_tasks, Ha, Hb, Hrem.
  assert (Hseed : fold_left seed_step [A; B; C] []
                  = [(_task_key A, A); (_task_key B, B); (_task_key C, C)]).
  { simpl. unfold seed_step. rewrite HA; simpl. rewrite HB; simpl.
    assert (E1 : String.eqb (_task_key B) (_task_key A) = false)
      by (apply String.eqb_neq; congruence).
    rewrite E1; simpl. rewrite HC; simpl.
    assert (E2 : String.eqb (_task_key C) (_task_key A) = false)
      by (apply String.eqb_neq; congruence).
    assert (E3 : String.eqb (_task_key C) (_task_key B) = false)
      by (apply String.eqb_neq; congruence).
    now rewrite E2, E3. }
  rewrite Hseed. unfold apply_removes.
  rewrite ConfigFacts.removes_filter.
  2:{ simpl. unfold PyStr.mem; simpl.
      rewrite (proj2 (String.eqb_neq _ _) HAB), (proj2 (String.eqb_neq _ _) HAC),
        (proj2 (String.eqb_neq _ _) HBC). reflexivity. }
  simpl.
  rewrite (proj2 (ConfigFacts.named_false _ _) HninA).
  rewrite (proj2 (ConfigFacts.named_In _ _) HinC). simpl.
  unfold task_step. rewrite HB', HB, Hdis.
  assert (E1 : String.eqb (_task_key B) (_task_key A) = false)
    by (apply String.eqb_neq; congruence).
  destruct (Spec.named rem (_task_key B)); simpl; rewrite E1; simpl.
  - reflexivity.
  - now rewrite String.eqb_refl.
Qed.

(** The theorem applied to a list-shaped base section and an override
    that also carries a timeout for B. *)
Lemma merge_event_sections_replace_and_remove_witness :
  section_tasks
    (_merge_event_sections
       (VList [VStr "a.check"; VStr "b.check"; VStr "c.check"])
       (VDict [("remove", VList [VStr "c.check"]);
               ("tasks", VList [VDict [("ref", VStr "b.check"); ("timeout", VInt 30)]])]))
  = [VStr "a.check"; VDict [("ref", VStr "b.check"); ("timeout", VInt 30)]].
Proof.
  apply (merge_event_sections_replace_and_remove
           (VList [VStr "a.check"; VStr "b.check"; VStr "c.check"])
           (VDict [("remove", VList [VStr "c.check"]);
                   ("tasks", VList [VDict [("ref", VStr "b.check"); ("timeout", VInt 30)]])])
           (VStr "a.check") (VStr "b.check") (VStr "c.check")
           (VDict [("ref", VStr "b.check"); ("timeout", VInt 30)])
           [VStr "c.check"]);
    try reflexivity; try (vm_compute; discriminate).
  - simpl. left. reflexivity.
  - vm_compute. intros [H|[]]. discriminate H.
Defined.

(* ===================================================================== *)
(** ** Merging a configuration with itself *)
(* ===================================================================== *)

Module SelfMerge.
Import Spec.

(** Induction on values that reaches into lists and dictionaries. *)
Lemma value_nested_ind (Pv : value -> Prop) :
  Pv VNone -> (forall b, Pv (VBool b)) -> (forall z, Pv (VInt z)) ->
  (forall s, Pv (VStr s)) ->
  (forall l, List.Forall Pv l -> Pv (VList l)) ->
  (forall d, List.Forall (fun kv => Pv (snd kv)) d -> Pv (VDict d)) ->
  forall v, Pv v.
Proof.
  intros HN HB HI HS HL HD. fix IH 1. intros [ | b | z | s | l | d].
  - exact HN.
  - apply HB.
  - apply HI.
  - apply HS.
  - apply HL. induction l as [|x r IHr]; constructor; [apply IH | exact IHr].
  - apply HD. induction d as [|[k x] r IHr]; constructor; [apply IH | exact IHr].
Qed.

Lemma uniq_app_mid (l1 l2 : list string) k :
  uniq (l1 ++ k :: l2) = true -> ~ In k l1.
Proof.
  induction l1 as [|x r IH]; simpl; [tauto|].
  intros Hu. apply andb_prop in Hu as [Hx Hu].
  intros [E|Hin]; [|now apply IH].
  subst x. apply negb_true_iff, mem_false in Hx. apply Hx.
  apply in_or_app. right. now left.
Qed.

Lemma get_app_absent {V} (l1 l2 : list (string * V)) k :
  ~ In k (Dict.keys l1) -> Dict.get (l1 ++ l2) k = Dict.get l2 k.
Proof.
  induction l1 as [|[k' v'] r IH]; simpl; [reflexivity|].
  intros Hn. destruct (String.eqb k k') eqn:E.
  - apply String.eqb_eq in E. subst k'. tauto.
  - apply IH. tauto.
Qed.

Lemma set_app_mid {V} (l1 l2 : list (string * V)) k v x :
  ~ In k (Dict.keys l1) ->
  Dict.set (l1 ++ (k, v) :: l2) k x = l1 ++ (k, x) :: l2.
Proof.
  induction l1 as [|[k' v'] r IH]; simpl.
  - now rewrite String.eqb_refl.
  - intros Hn. destruct (String.eqb k k') eqn:E.
    + apply String.eqb_eq in E. subst k'. tauto.
    + f_equal. apply IH. tauto.
Qed.

Lemma get_mid {V} (l1 l2 : list (string * V)) k v :
  ~ In k (Dict.keys l1) -> Dict.get (l1 ++ (k, v) :: l2) k = Some v.
Proof.
  intros Hn. rewrite get_app_absent by exact Hn. simpl.
  now rewrite String.eqb_refl.
Qed.

Lemma keys_app {V} (l1 l2 : list (string * V)) :
  Dict.keys (l1 ++ l2) = Dict.keys l1 ++ Dict.keys l2.
Proof. apply map_app. Qed.

(** *** The plain merge of a dictionary with itself *)

Lemma merge_into_cons a k v b :
  merge_into a (VDict ((k, v) :: b))
  = merge_into (match Dict.get a k, v with
                | Some (VDict da), VDict _ => Dict.set a k (VDict (merge_into da v))
                | _, _ => Dict.set a k v
                end) (VDict b).
Proof. reflexivity. Qed.

Lemma merge_step_same (pre r : dict) k v :
  ~ In k (Dict.keys pre) ->
  (forall d, v = VDict d -> merge_into d (VDict d) = d) ->
  match Dict.get (pre ++ (k, v) :: r) k, v with
  | Some (VDict da), VDict _ =>
      Dict.set (pre ++ (k, v) :: r) k (VDict (merge_into da v))
  | _, _ => Dict.set (pre ++ (k, v) :: r) k v
  end = pre ++ (k, v) :: r.
Proof.
  intros Hk Hv. rewrite get_mid by exact Hk.
  destruct v; lazy beta iota; try (now rewrite set_app_mid by exact Hk).
  rewrite (Hv d eq_refl). now rewrite set_app_mid by exact Hk.
Qed.

Lemma merge_into_suffix : forall (suf pre : dict),
  uniq (Dict.keys (pre ++ suf)) = true ->
  List.Forall (fun kv => forall d, snd kv = VDict d -> merge_into d (VDict d) = d) suf ->
  merge_into (pre ++ suf) (VDict suf) = pre ++ suf.
Proof.
  induction suf as [|[k v] r IH]; intros pre Hu Hall.
  - reflexivity.
  - rewrite merge_into_cons.
    assert (Hk : ~ In k (Dict.keys pre)).
    { rewrite keys_app in Hu. simpl in Hu. now apply uniq_app_mid in Hu. }
    inversion Hall as [|? ? Hv Hr]; subst.
    rewrite merge_step_same by assumption.
    replace (pre ++ (k, v) :: r) with ((pre ++ [(k, v)]) ++ r) in *
      by (now rewrite <- app_assoc).
    apply IH; assumption.
Qed.

Lemma wf_dict_inv d :
  wf_value (VDict d) = true ->
  uniq (Dict.keys d) = true /\ List.Forall (fun kv => wf_value (snd kv) = true) d.
Proof.
  simpl. intros H. apply andb_prop in H as [Hu Hf]. split; [exact Hu|].
  apply List.Forall_forall. intros kv Hin.
  rewrite forallb_forall in Hf. now apply Hf.
Qed.

(** Merging a dictionary into itself changes nothing. *)
Lemma merge_same : forall v,
  wf_value v = true -> forall d, v = VDict d -> merge_into d (VDict d) = d.
Proof.
  induction v as [ | b | z | s | l _ | d IH] using value_nested_ind;
    intros Hwf d' E; try discriminate.
  injection E as <-.
  apply wf_dict_inv in Hwf as [Hu Hf].
  apply (merge_into_suffix d []); [exact Hu|].
  rewrite List.Forall_forall in *. intros kv Hin dv Edv.
  apply (IH kv Hin); [now apply Hf | exact Edv].
Qed.

(** *** An event section merged with itself *)

Lemma key_last k : forall r e,
  _task_key e = k -> _task_key (last_with_key k r e) = k.
Proof.
  induction r as [|x r IH]; intros e He; simpl; [exact He|].
  apply IH. destruct (String.eqb (_task_key x) k) eqn:E; [|exact He].
  now apply String.eqb_eq in E.
Qed.

Lemma dedup_ext : forall ts s1 s2,
  (forall x, PyStr.mem x s1 = PyStr.mem x s2) ->
  dedup_by_identity s1 ts = dedup_by_identity s2 ts.
Proof.
  induction ts as [|e r IH]; intros s1 s2 H; simpl; [reflexivity|].
  rewrite (H (_task_key e)).
  destruct (PyStr.mem (_task_key e) s2); [now apply IH|].
  f_equal. apply IH. intros x. simpl. unfold PyStr.mem in *. simpl.
  now rewrite H.
Qed.

Lemma dedup_all_seen : forall ts seen,
  (forall e, In e ts -> In (_task_key e) seen) -> dedup_by_identity seen ts = [].
Proof.
  induction ts as [|e r IH]; intros seen H; simpl; [reflexivity|].
  rewrite (proj2 (mem_In _ _) (H e (or_introl eq_refl))).
  apply IH. intros x Hx. apply H. now right.
Qed.

(** An entry kept by the deduplication is the last of its identity. *)
Lemma dedup_last : forall ts seen x d,
  In x (dedup_by_identity seen ts) -> last_with_key (_task_key x) ts d = x.
Proof.
  induction ts as [|e r IH]; intros seen x d Hin; simpl in *; [contradiction|].
  destruct (PyStr.mem (_task_key e) seen).
  - now apply (IH seen).
  - destruct Hin as [E|Hin]; [|now apply (IH (_task_key e :: seen))].
    subst x. rewrite (key_last (_task_key e) r e eq_refl).
    now rewrite String.eqb_refl.
Qed.

Lemma set_present_map (O : dict) k e :
  uniq (Dict.keys O) = true -> In k (Dict.keys O) ->
  Dict.set O k e
  = map (fun kv => (fst kv, if String.eqb k (fst kv) then e else snd kv)) O.
Proof.
  induction O as [|[k' v'] r IH]; simpl; [tauto|].
  intros Hu Hin. apply andb_prop in Hu as [Hk Hu].
  destruct (String.eqb k k') eqn:E.
  - apply String.eqb_eq in E. subst k'. f_equal.
    apply negb_true_iff, mem_false in Hk.
    rewrite <- (map_id r) at 1. apply map_ext_in.
    intros [k2 v2] Hin2. simpl.
    destruct (String.eqb k k2) eqn:E2; [|reflexivity].
    apply String.eqb_eq in E2. subst k2. exfalso. apply Hk.
    unfold Dict.keys. change k with (fst (k, v2)). now apply in_map.
  - f_equal. apply IH; [exact Hu|].
    apply String.eqb_neq in E. destruct Hin as [H|H]; [congruence | exact H].
Qed.

Lemma uniq_snoc (l : list string) k :
  uniq l = true -> ~ In k l -> uniq (l ++ [k]) = true.
Proof.
  induction l as [|x r IH]; simpl; [reflexivity|].
  intros Hu Hn. apply andb_prop in Hu as [Hx Hu].
  rewrite IH by tauto. rewrite andb_true_r.
  apply negb_true_iff, mem_false. apply negb_true_iff, mem_false in Hx.
  intros Hin. apply in_app_or in Hin as [Hin|[E|[]]]; [tauto|].
  subst. tauto.
Qed.

(** What seeding does to an ordered dict: the entries it holds take the
    last entry of their identity, the new identities follow in the order
    of their first entries. *)
Lemma seed_char : forall ts (O : dict),
  (forall e, In e ts -> PyStr.truthy (_task_key e) = true) ->
  uniq (Dict.keys O) = true ->
  fold_left seed_step ts O
  = map (fun kv => (fst kv, last_with_key (fst kv) ts (snd kv))) O
    ++ map (fun e => (_task_key e, e)) (dedup_by_identity (Dict.keys O) ts).
Proof.
  induction ts as [|e r IH]; intros O Hk Hu.
  - simpl. rewrite app_nil_r. rewrite <- (map_id O) at 1.
    apply map_ext. now intros [k v].
  - simpl. unfold seed_step at 2. rewrite (Hk e (or_introl eq_refl)).
    assert (Hk' : forall x, In x r -> PyStr.truthy (_task_key x) = true)
      by (intros x Hx; apply Hk; now right).
    destruct (PyStr.mem (_task_key e) (Dict.keys O)) eqn:Hm.
    + apply mem_In in Hm.
      rewrite set_present_map by assumption.
      rewrite IH; [| exact Hk' |].
      2:{ unfold Dict.keys in *. rewrite map_map. simpl. exact Hu. }
      rewrite map_map. simpl. f_equal.
      unfold Dict.keys. rewrite map_map. reflexivity.
    + apply mem_false in Hm.
      rewrite DictFacts.set_absent by exact Hm.
      rewrite IH; [| exact Hk' |].
      2:{ rewrite keys_app. simpl. now apply uniq_snoc. }
      rewrite map_app. simpl. rewrite <- app_assoc. simpl. f_equal.
      * apply map_ext_in. intros [k v] Hin. simpl.
        destruct (String.eqb (_task_key e) k) eqn:E; [|reflexivity].
        apply String.eqb_eq in E. subst k. exfalso. apply Hm.
        unfold Dict.keys. change (_task_key e) with (fst (_task_key e, v)).
        now apply in_map.
      * rewrite (key_last (_task_key e) r e eq_refl). f_equal. f_equal.
        apply dedup_ext. intros x. rewrite keys_app. simpl.
        unfold PyStr.mem. rewrite existsb_app. simpl.
        now rewrite orb_false_r, orb_comm.
Qed.

Lemma dedup_keys_in_list : forall ts seen x,
  In x (dedup_by_identity seen ts) -> exists e, In e ts /\ _task_key e = _task_key x.
Proof.
  induction ts as [|e r IH]; intros seen x Hin; simpl in *; [contradiction|].
  destruct (PyStr.mem (_task_key e) seen).
  - destruct (IH _ _ Hin) as [e' [H1 H2]]. exists e'. tauto.
  - destruct Hin as [E|Hin].
    + subst x. exists e. split; [now left|].
      now rewrite (key_last (_task_key e) r e eq_refl).
    + destruct (IH _ _ Hin) as [e' [H1 H2]]. exists e'. tauto.
Qed.

Lemma dedup_keys_complete : forall ts seen e,
  In e ts ->
  In (_task_key e) seen
  \/ In (_task_key e) (map _task_key (dedup_by_identity seen ts)).
Proof.
  induction ts as [|x r IH]; intros seen e Hin; simpl in *; [contradiction|].
  destruct (PyStr.mem (_task_key x) seen) eqn:Hm.
  - destruct Hin as [E|Hin]; [subst; left; now apply mem_In | now apply IH].
  - simpl. rewrite (key_last (_task_key x) r x eq_refl).
    destruct Hin as [E|Hin]; [subst; right; now left|].
    destruct (IH (_task_key x :: seen) e Hin) as [[E|H]|H].
    + right. left. exact E.
    + now left.
    + right. now right.
Qed.

Lemma dedup_keys_uniq : forall ts seen,
  uniq (map _task_key (dedup_by_identity seen ts)) = true
  /\ forall k, In k (map _task_key (dedup_by_identity seen ts)) -> ~ In k seen.
Proof.
  induction ts as [|x r IH]; intros seen; simpl; [split; [reflexivity | tauto]|].
  destruct (PyStr.mem (_task_key x) seen) eqn:Hm; [apply IH|].
  simpl. rewrite (key_last (_task_key x) r x eq_refl).
  destruct (IH (_task_key x :: seen)) as [Hu Hn]. split.
  - rewrite Hu, andb_true_r. apply negb_true_iff, mem_false.
    intros Hin. apply (Hn _ Hin). now left.
  - intros k [E|Hin].
    + subst k. now apply mem_false.
    + intros Hs. apply (Hn _ Hin). now right.
Qed.

Lemma keyed_keys (l : list value) :
  Dict.keys (map (fun e => (_task_key e, e)) l) = map _task_key l.
Proof. unfold Dict.keys. rewrite map_map. reflexivity. Qed.

Lemma keyed_values (l : list value) :
  Dict.values (map (fun e => (_task_key e, e)) l) = l.
Proof. unfold Dict.values. rewrite map_map. simpl. apply map_id. Qed.

(** Once the ordered dict holds the deduplicated entries, the removes and
    the entries of a plain section leave it as it is. *)
Lemma after_seed ts removes :
  (forall e, In e ts -> PyStr.truthy (_task_key e) = true) ->
  (forall e, In e ts -> is_disabled e = false) ->
  (forall e, In e ts -> forall rs, removes = Some (VList rs) ->
                                   named rs (_task_key e) = false) ->
  fold_left task_step ts
    (apply_removes removes (map (fun e => (_task_key e, e)) (dedup_by_identity [] ts)))
  = map (fun e => (_task_key e, e)) (dedup_by_identity [] ts).
Proof.
  intros Hk Hd Hr.
  set (O1 := map (fun e => (_task_key e, e)) (dedup_by_identity [] ts)).
  assert (Hu1 : uniq (Dict.keys O1) = true).
  { unfold O1. rewrite keyed_keys. apply dedup_keys_uniq. }
  assert (Hrem : apply_removes removes O1 = O1).
  { unfold apply_removes. destruct removes as [[ | | | | rs | ]|]; try reflexivity.
    rewrite ConfigFacts.removes_filter by exact Hu1.
    apply forallb_filter_id, forallb_forall. intros [k v] Hin. simpl.
    unfold O1 in Hin. apply in_map_iff in Hin as [x [E Hx]].
    injection E as <- <-.
    apply dedup_keys_in_list in Hx as [e [He Hke]].
    rewrite <- Hke. now rewrite (Hr e He rs eq_refl). }
  rewrite Hrem.
  assert (Hstep : fold_left task_step ts O1 = fold_left seed_step ts O1).
  { clear Hrem Hu1. generalize O1. clear O1.
    induction ts as [|e r IH]; intros O; simpl; [reflexivity|].
    assert (E : task_step O e = seed_step O e).
    { unfold task_step, seed_step. now rewrite (Hd e (or_introl eq_refl)). }
    rewrite E. apply IH; intros x Hx; [apply Hk | apply Hd | apply Hr]; now right. }
  rewrite Hstep, seed_char by assumption.
  rewrite dedup_all_seen.
  2:{ intros e He. unfold O1. rewrite keyed_keys.
      destruct (dedup_keys_complete ts [] e He) as [[]|H]. exact H. }
  rewrite app_nil_r. rewrite <- (map_id O1) at 2. apply map_ext_in.
  intros [k v] Hin. simpl. f_equal.
  unfold O1 in Hin. apply in_map_iff in Hin as [x [E Hx]].
  injection E as <- <-. now apply (dedup_last ts []).
Qed.

(** The task list of a plain section merged with itself. *)
Lemma self_merged_tasks ts removes :
  (forall e, In e ts -> PyStr.truthy (_task_key e) = true) ->
  (forall e, In e ts -> is_disabled e = false) ->
  (forall e, In e ts -> forall rs, removes = Some (VList rs) ->
                                   named rs (_task_key e) = false) ->
  fold_left task_step ts (apply_removes removes (fold_left seed_step ts []))
  = map (fun e => (_task_key e, e)) (dedup_by_identity [] ts).
Proof.
  intros Hk Hd Hr.
  rewrite (seed_char ts []) by (assumption || reflexivity). simpl.
  now apply after_seed.
Qed.

Lemma last_absent k : forall r e,
  ~ In k (map _task_key r) -> last_with_key k r e = e.
Proof.
  induction r as [|x r IH]; intros e Hn; simpl in *; [reflexivity|].
  destruct (String.eqb (_task_key x) k) eqn:E.
  - apply String.eqb_eq in E. tauto.
  - apply IH. tauto.
Qed.

(** A list with pairwise different identities is its own deduplication. *)
Lemma dedup_fixed : forall l seen,
  uniq (map _task_key l) = true ->
  (forall k, In k (map _task_key l) -> ~ In k seen) ->
  dedup_by_identity seen l = l.
Proof.
  induction l as [|e r IH]; intros seen Hu Hs; simpl in *; [reflexivity|].
  apply andb_prop in Hu as [He Hu]. apply negb_true_iff, mem_false in He.
  rewrite (proj2 (mem_false _ _) (Hs _ (or_introl eq_refl))).
  rewrite last_absent by exact He. f_equal.
  apply IH; [exact Hu|]. intros k Hk [E|Hin].
  - subst k. tauto.
  - apply (Hs k); tauto.
Qed.

Lemma without_tasks_set (s : dict) x :
  Dict.without "tasks" (Dict.set (Dict.without "tasks" s) "tasks" x)
  = Dict.without "tasks" s.
Proof.
  assert (Hn : ~ In "tasks" (Dict.keys (Dict.without "tasks" s))).
  { unfold Dict.without, Dict.keys. intros Hin.
    apply in_map_iff in Hin as [[k v] [E Hin]]. simpl in E. subst k.
    apply List.filter_In in Hin as [_ Hf]. simpl in Hf. discriminate. }
  rewrite DictFacts.set_absent by exact Hn.
  unfold Dict.without at 1. rewrite List.filter_app. simpl. rewrite app_nil_r.
  apply forallb_filter_id, forallb_forall. intros kv Hin.
  unfold Dict.without in Hin. now apply List.filter_In in Hin as [_ Hf].
Qed.

Lemma get_without_ne (s : dict) k :
  k <> "tasks" -> Dict.get (Dict.without "tasks" s) k = Dict.get s k.
Proof.
  intros Hne. induction s as [|[k' v] r IH]; simpl; [reflexivity|].
  destruct (String.eqb k' "tasks") eqn:E; simpl.
  - apply String.eqb_eq in E. subst k'.
    rewrite (proj2 (String.eqb_neq _ _) Hne). exact IH.
  - now rewrite IH.
Qed.

(** The deduplicated section is the normal form of itself. *)
Lemma normalize_dedup_section v :
  _normalize_event_section (VDict (dedup_section v)) = dedup_section v.
Proof.
  unfold dedup_section at 1. unfold _normalize_event_section at 1.
  rewrite DictFacts.get_set_eq. now rewrite without_tasks_set.
Qed.

Lemma plain_section_merge v :
  plain_section v = true -> _merge_event_sections v v = dedup_section v.
Proof.
  unfold plain_section, _merge_event_sections, dedup_section. intros Hp.
  rewrite forallb_forall in Hp. f_equal. f_equal.
  rewrite self_merged_tasks.
  - apply keyed_values.
  - intros e He. specialize (Hp e He).
    apply andb_prop in Hp as [Hp _]. now apply andb_prop in Hp as [Hp _].
  - intros e He. specialize (Hp e He).
    apply andb_prop in Hp as [Hp _]. apply andb_prop in Hp as [_ Hp].
    now apply negb_true_iff.
  - intros e He rs Hrs. specialize (Hp e He). rewrite Hrs in Hp.
    apply andb_prop in Hp as [_ Hp]. now apply negb_true_iff.
Qed.

(** Merging the section into its deduplicated form changes nothing. *)
Lemma plain_section_merge_again v :
  plain_section v = true ->
  _merge_event_sections (VDict (dedup_section v)) v = dedup_section v.
Proof.
  intros Hp. unfold _merge_event_sections.
  rewrite normalize_dedup_section.
  unfold dedup_section at 1 2. rewrite without_tasks_set.
  rewrite ConfigFacts.section_tasks_set.
  unfold dedup_section. f_equal. f_equal.
  unfold plain_section in Hp. rewrite forallb_forall in Hp.
  set (ts := section_tasks (_normalize_event_section v)) in *.
  assert (Hk : forall e, In e ts -> PyStr.truthy (_task_key e) = true).
  { intros e He. specialize (Hp e He).
    apply andb_prop in Hp as [Hp _]. now apply andb_prop in Hp as [Hp _]. }
  rewrite (seed_char (dedup_by_identity [] ts) []); [| | reflexivity].
  2:{ intros x Hx. apply dedup_keys_in_list in Hx as [e [He Hke]].
      rewrite <- Hke. now apply Hk. }
  simpl. rewrite dedup_fixed; [| apply dedup_keys_uniq | tauto].
  rewrite after_seed.
  - apply keyed_values.
  - exact Hk.
  - intros e He. specialize (Hp e He).
    apply andb_prop in Hp as [Hp _]. apply andb_prop in Hp as [_ Hp].
    now apply negb_true_iff.
  - intros e He rs Hrs. specialize (Hp e He). rewrite Hrs in Hp.
    apply andb_prop in Hp as [_ Hp]. now apply negb_true_iff.
Qed.

(** *** The whole configuration *)

Lemma self_merge_app (a b : dict) :
  self_merge (a ++ b) = self_merge a ++ self_merge b.
Proof. apply map_app. Qed.

Lemma self_merge_fold : forall (suf pre : dict),
  uniq (Dict.keys (pre ++ suf)) = true ->
  List.Forall (fun kv => wf_value (snd kv) = true) suf ->
  plain_config suf = true ->
  fold_left config_step suf (self_merge pre ++ suf) = self_merge (pre ++ suf).
Proof.
  induction suf as [|[k v] r IH]; intros pre Hu Hwf Hp.
  - simpl. now rewrite !app_nil_r.
  - cbn [fold_left].
    assert (Hk : ~ In k (Dict.keys (self_merge pre))).
    { rewrite keys_app in Hu. simpl in Hu. apply uniq_app_mid in Hu.
      unfold self_merge, Dict.keys. rewrite map_map.
      erewrite map_ext; [exact Hu|]. intros [k' v']; simpl.
      now destruct (is_event_key k'). }
    inversion Hwf as [|? ? Hv Hr]; subst.
    simpl in Hp. apply andb_prop in Hp as [Hpv Hpr].
    assert (Hstep : config_step (self_merge pre ++ (k, v) :: r) (k, v)
                    = self_merge (pre ++ [(k, v)]) ++ r).
    { unfold config_step. rewrite get_mid by exact Hk.
      rewrite self_merge_app. unfold self_merge at 3. simpl map.
      rewrite <- app_assoc. simpl app. simpl fst. simpl snd.
      destruct (is_event_key k).
      - rewrite set_app_mid by exact Hk. now rewrite plain_section_merge.
      - destruct v; try (now rewrite set_app_mid by exact Hk).
        unfold _merge. rewrite (merge_same (VDict d) Hv d eq_refl).
        now rewrite set_app_mid by exact Hk. }
    rewrite Hstep.
    replace (pre ++ (k, v) :: r) with ((pre ++ [(k, v)]) ++ r)
      by (now rewrite <- app_assoc).
    apply IH; try assumption.
    now rewrite <- app_assoc.
Qed.

Lemma self_merge_keys (c : dict) : Dict.keys (self_merge c) = Dict.keys c.
Proof.
  unfold self_merge, Dict.keys. rewrite map_map. apply map_ext.
  intros [k v]. simpl. now destruct (is_event_key k).
Qed.

Lemma self_merge_again_fold : forall (suf pre : dict),
  uniq (Dict.keys (pre ++ suf)) = true ->
  List.Forall (fun kv => wf_value (snd kv) = true) suf ->
  plain_config suf = true ->
  fold_left config_step suf (self_merge pre ++ self_merge suf)
  = self_merge (pre ++ suf).
Proof.
  induction suf as [|[k v] r IH]; intros pre Hu Hwf Hp.
  - simpl. now rewrite !app_nil_r.
  - cbn [fold_left].
    assert (Hk : ~ In k (Dict.keys (self_merge pre))).
    { rewrite keys_app in Hu. simpl in Hu. apply uniq_app_mid in Hu.
      now rewrite self_merge_keys. }
    inversion Hwf as [|? ? Hv Hr]; subst.
    simpl in Hp. apply andb_prop in Hp as [Hpv Hpr].
    assert (Hstep : config_step (self_merge pre ++ self_merge ((k, v) :: r)) (k, v)
                    = self_merge (pre ++ [(k, v)]) ++ self_merge r).
    { rewrite self_merge_app. unfold self_merge at 2 4. simpl map.
      fold (self_merge r). rewrite <- app_assoc. simpl app. simpl fst. simpl snd.
      unfold config_step.
      destruct (is_event_key k).
      - rewrite get_mid by exact Hk. rewrite set_app_mid by exact Hk.
        now rewrite plain_section_merge_again.
      - rewrite get_mid by exact Hk.
        destruct v; try (now rewrite set_app_mid by exact Hk).
        unfold _merge. rewrite (merge_same (VDict d) Hv d eq_refl).
        now rewrite set_app_mid by exact Hk. }
    rewrite Hstep.
    replace (pre ++ (k, v) :: r) with ((pre ++ [(k, v)]) ++ r)
      by (now rewrite <- app_assoc).
    apply IH; try assumption.
    now rewrite <- app_assoc.
Qed.

End SelfMerge.

(** C8, as the code has it.  For a configuration [c] (a dictionary with
    pairwise different keys at every level) whose event sections are
    plain -- every task entry has a non-empty identity, none is flagged
    disabled, and no [remove] list names an entry of its own section --
    merging [c] with itself gives [c] with every event section normalized
    and its task list deduplicated by identity: one entry per identity, at
    the place of the identity's first entry and with the content of its
    last; everything outside the event sections is unchanged.  Merging
    [c] into the result once more changes nothing. *)
Theorem merge_configs_self :
  forall c : dict,
    wf_value (VDict c) = true ->
    Spec.plain_config c = true ->
    _merge_configs c c = Spec.self_merge c
    /\ _merge_configs (_merge_configs c c) c = _merge_configs c c.
Proof.
  intros c Hwf Hp. apply SelfMerge.wf_dict_inv in Hwf as [Hu Hf].
  assert (H1 : _merge_configs c c = Spec.self_merge c)
    by (apply (SelfMerge.self_merge_fold c []); assumption).
  split; [exact H1|]. rewrite H1. unfold _merge_configs.
  apply (SelfMerge.self_merge_again_fold c []); assumption.
Qed.

Lemma merge_configs_self_witness :
  _merge_configs Host.self_merge_sample Host.self_merge_sample
  = [("default_timeout", VInt 20);
     ("policy", VDict [("block_on", VList [VStr "security:error"])]);
     ("PreToolUse",
      VDict [("tasks",
              VList [VDict [("id", VStr "pack.a"); ("ref", VStr "pack.a2")];
                     VDict [("ref", VStr "pack.b"); ("timeout", VInt 5)]])]);
     ("PostToolUse",
      VDict [("remove", VList [VStr "pack.z"]); ("tasks", VList [VStr "pack.c"])])]
  /\ _merge_configs (_merge_configs Host.self_merge_sample Host.self_merge_sample)
        Host.self_merge_sample
     = _merge_configs Host.self_merge_sample Host.self_merge_sample.
Proof.
  destruct (merge_configs_self Host.self_merge_sample) as [H1 H2];
    [vm_compute; reflexivity | vm_compute; reflexivity |].
  split; [rewrite H1; vm_compute; reflexivity | exact H2].
Defined.

(** C8 as stated fails: a section whose [remove] list names its own first
    task comes out of the self-merge with its two tasks in the other
    order, while deduplication by identity leaves the order alone. *)
Lemma merge_configs_self_reorders :
  let c := [("PreToolUse",
             VDict [("remove", VList [VStr "a.check"]);
                    ("tasks", VList [VStr "a.check"; VStr "b.check"])])] in
  _merge_configs c c
  = [("PreToolUse",
      VDict [("remove", VList [VStr "a.check"]);
             ("tasks", VList [VStr "b.check"; VStr "a.check"])])]
  /\ Spec.self_merge c = c
  /\ _merge_configs c c <> Spec.self_merge c.
Proof.
  cbv zeta. split; [vm_compute; reflexivity|].
  split; [vm_compute; reflexivity|]. vm_compute. discriminate.
Qed.

(* ===================================================================== *)
(** ** Configuration resolution *)
(* ===================================================================== *)

Module LoadFacts.
Section Facts.
Variable P : PathLib.
Variable E : ConfigEnv.




(** *** Enough fuel *)














End Facts.
End LoadFacts.


(* ===================================================================== *)
(** ** The feedback store *)
(* ===================================================================== *)

Module FeedbackFacts.
Import Feedback.

Lemma strip_empty_not_truthy s :
  PyStr.strip s = "" ->
  negb (PyStr.truthy s) || negb (PyStr.truthy (PyStr.strip s)) = true.
Proof. intros ->. simpl. apply orb_true_r. Qed.

Lemma cleanup_purged t now :
  Spec.purged now (_cleanup_expired t now DEFAULT_DEDUP_WINDOW) = true.
Proof.
  unfold Spec.purged, _cleanup_expired. apply forallb_forall.
  intros r Hin. apply List.filter_In in Hin as [_ H].
  apply negb_true_iff in H. apply Z.leb_le. apply Z.ltb_ge in H. exact H.
Qed.

Lemma purged_update f iid now t :
  (forall r, last_seen (f r) = last_seen r \/ last_seen (f r) = now) ->
  Spec.purged now t = true -> Spec.purged now (update_issue f iid t) = true.
Proof.
  unfold Spec.purged, update_issue. intros Hf Hp.
  rewrite forallb_forall in *. intros r Hin.
  apply in_map_iff in Hin as [r0 [E Hin]]. specialize (Hp r0 Hin).
  destruct (String.eqb (issue_id r0) iid); subst r; [|exact Hp].
  destruct (Hf r0) as [-> | ->]; [exact Hp|].
  apply Z.leb_le. unfold DEFAULT_DEDUP_WINDOW. lia.
Qed.

Lemma insert_by_In {A} (le : A -> A -> bool) x y : forall l,
  In y (Sql.insert_by le x l) <-> y = x \/ In y l.
Proof.
  induction l as [|z l IH]; simpl.
  - split; [intros [->|[]]; now left | intros [->|[]]; now left].
  - destruct (le x z); simpl.
    + split; [intros [->|H]; [now left | now right]
             | intros [->|H]; [now left | now right]].
    + rewrite IH. split.
      * intros [->|[->|H]]; [right; now left | now left | right; now right].
      * intros [->|[->|H]]; [right; now left | now left | right; now right].
Qed.

(** Ordering keeps the rows. *)
Lemma order_by_In {A} (le : A -> A -> bool) (l : list A) x :
  In x (Sql.order_by le l) <-> In x l.
Proof.
  unfold Sql.order_by. induction l as [|y l IH]; simpl; [tauto|].
  rewrite insert_by_In, IH. split; intros [H|H]; auto.
Qed.

(** The two queries leave a purged table behind and answer from purged
    rows only. *)
Lemma summary_purges sid m now (st : fstore) :
  exists t, snd (get_feedback_summary sid m now st) !! db_name sid = Some t
            /\ Spec.purged now t = true
            /\ forall r, In r (fst (get_feedback_summary sid m now st)) -> In r t.
Proof.
  unfold get_feedback_summary, _get_connection, commit. simpl.
  eexists. split; [apply lookup_insert_eq|]. split; [apply cleanup_purged|].
  intros r Hin. apply order_by_In in Hin.
  now apply List.filter_In in Hin as [Hin _].
Qed.

Lemma deferred_purges sid now (st : fstore) :
  exists t, snd (get_deferred_feedback sid now st) !! db_name sid = Some t
            /\ Spec.purged now t = true
            /\ forall r, In r (fst (get_deferred_feedback sid now st)) -> In r t.
Proof.
  unfold get_deferred_feedback, _get_connection, commit. simpl.
  eexists. split; [apply lookup_insert_eq|]. split; [apply cleanup_purged|].
  intros r Hin. apply order_by_In in Hin.
  now apply List.filter_In in Hin as [Hin _].
Qed.

(** Recording content that is not blank leaves a purged table behind. *)
Lemma record_purges sha P content_ task sid file sev cat strat now (st : fstore) :
  PyStr.strip content_ <> "" ->
  exists t, snd (record_feedback sha P content_ task sid file sev cat strat now st)
              !! db_name sid = Some t
            /\ Spec.purged now t = true.
Proof.
  intros Hne. unfold record_feedback.
  assert (Hc : negb (PyStr.truthy content_) || negb (PyStr.truthy (PyStr.strip content_))
               = false).
  { destruct content_ as [|c r]; [now elim Hne|]. simpl.
    destruct (PyStr.strip (String c r)); [now elim Hne | reflexivity]. }
  rewrite Hc. unfold _get_connection, commit.
  destruct (select_issue _ _) as [row|]; simpl; eexists;
    (split; [apply lookup_insert_eq|]).
  - apply purged_update; [|apply cleanup_purged].
    intros r. right. reflexivity.
  - unfold Spec.purged. rewrite forallb_app.
    apply andb_true_intro. split; [apply cleanup_purged|].
    simpl. rewrite andb_true_r.
    apply Z.leb_le. unfold DEFAULT_DEDUP_WINDOW. lia.
Qed.

End FeedbackFacts.

(** C9.  Recording content that is empty or only whitespace returns the
    synthetic item -- issue id "empty", strategy "always", hence to be
    shown -- and leaves the store exactly as it was: no file is opened,
    no row inserted, updated or purged. *)
Theorem record_feedback_blank_content :
  forall (sha256_hexdigest : string -> string) (P : PathLib)
         (content task sid : string) (file sev cat : option string)
         (strat : string) (now : Z) (st : Feedback.fstore),
    PyStr.strip content = "" ->
    let r := Feedback.record_feedback sha256_hexdigest P content task sid
               file sev cat strat now st in
    fst r = Feedback.empty_item task
    /\ Feedback.issue_id (fst r) = "empty"
    /\ Feedback.strategy (fst r) = "always"
    /\ Feedback.should_show_feedback (fst r) = true
    /\ snd r = st.
Proof.
  intros sha P content task sid file sev cat strat now st Hblank. cbv zeta.
  unfold Feedback.record_feedback.
  rewrite (FeedbackFacts.strip_empty_not_truthy content Hblank).
  repeat split.
Qed.

(** The theorem on a line of blanks, with a store that holds an expired
    row: the row stays. *)
Lemma record_feedback_blank_content_witness :
  let st : Feedback.fstore := {[ "default.db" := [Host.stale_row] ]} in
  let r := Feedback.record_feedback Host.digest Host.posix "   " "python.ruff" ""
             (Some "src/app.py") None None "show_once" 1000 st in
  fst r = Feedback.empty_item "python.ruff"
  /\ Feedback.issue_id (fst r) = "empty"
  /\ Feedback.strategy (fst r) = "always"
  /\ Feedback.should_show_feedback (fst r) = true
  /\ snd r = st.
Proof.
  apply (record_feedback_blank_content Host.digest Host.posix "   " "python.ruff" ""
           (Some "src/app.py") None None "show_once" 1000).
  reflexivity.
Defined.

(** C3 at [mark_shown]: it purges nothing.  A row last seen at time 0 is
    long expired at time 1000; [mark_shown] counts one more showing on it
    and leaves it in the table, where the deferred query at the same time
    deletes it before answering. *)
Lemma mark_shown_keeps_expired_row :
  let st : Feedback.fstore := {[ "default.db" := [Host.stale_row] ]} in
  Spec.purged 1000 [Host.stale_row] = false
  /\ Feedback.mark_shown (Feedback.issue_id Host.stale_row) "" st !! "default.db"
     = Some [Feedback.shown_once_more Host.stale_row]
  /\ snd (Feedback.get_deferred_feedback "" 1000 st) !! "default.db" = Some [].
Proof.
  cbv zeta. split; [reflexivity|]. split; vm_compute; reflexivity.
Qed.

(* ===================================================================== *)
(** ** The background queue: poll and harvest *)
(* ===================================================================== *)

Module QueueFacts.
Import TaskQueue TaskRunner.

Lemma table_execute sid f q : table sid (execute sid f q) = f (table sid q).
Proof. unfold table, execute, with_dbs. simpl. now rewrite lookup_insert_eq. Qed.

Lemma table_connection sid q : table sid (_get_connection sid q) = table sid q.
Proof.
  unfold table at 1, _get_connection, with_dbs. simpl.
  now rewrite lookup_insert_eq.
Qed.

Lemma read_back_outputs f q q' :
  outputs q' = outputs q -> read_back f q' = read_back f q.
Proof. intros H. unfold read_back. now rewrite H. Qed.

Lemma find_map_same_id (g : BackgroundTask -> BackgroundTask) tid : forall l,
  (forall r, task_id (g r) = task_id r) ->
  List.find (fun r => String.eqb (task_id r) tid) (map g l)
  = option_map g (List.find (fun r => String.eqb (task_id r) tid) l).
Proof.
  intros l Hg. induction l as [|x l IH]; simpl; [reflexivity|].
  rewrite Hg. destruct (String.eqb (task_id x) tid); [reflexivity | exact IH].
Qed.

Lemma row_update_same tid sid u q :
  Spec.task_row tid sid (update_task_status tid sid u q)
  = option_map (apply_update u) (Spec.task_row tid sid q).
Proof.
  unfold Spec.task_row, update_task_status. rewrite table_execute.
  rewrite find_map_same_id.
  - destruct (List.find _ (table sid q)) as [r|] eqn:F; [|reflexivity].
    simpl. apply find_some in F as [_ F]. now rewrite F.
  - intros r. now destruct (String.eqb (task_id r) tid).
Qed.

Lemma row_update_other tid tid' sid u q :
  tid <> tid' ->
  Spec.task_row tid sid (update_task_status tid' sid u q) = Spec.task_row tid sid q.
Proof.
  intros Hne. unfold Spec.task_row, update_task_status. rewrite table_execute.
  rewrite find_map_same_id.
  - destruct (List.find _ (table sid q)) as [r|] eqn:F; [|reflexivity].
    simpl. apply find_some in F as [_ F]. apply String.eqb_eq in F.
    destruct (String.eqb (task_id r) tid') eqn:E; [|reflexivity].
    apply String.eqb_eq in E. congruence.
  - intros r. now destruct (String.eqb (task_id r) tid').
Qed.

(** With a primary key, the row found under a member's id is the member. *)
Lemma row_of_member t : forall tbl,
  uniq (map task_id tbl) = true -> In t tbl ->
  List.find (fun r => String.eqb (task_id r) (task_id t)) tbl = Some t.
Proof.
  induction tbl as [|x tbl IH]; simpl; [tauto|].
  intros Hu Hin. apply andb_prop in Hu as [Hx Hu].
  destruct Hin as [->|Hin]; [now rewrite String.eqb_refl|].
  destruct (String.eqb (task_id x) (task_id t)) eqn:E; [|now apply IH].
  apply String.eqb_eq in E. apply negb_true_iff, mem_false in Hx.
  exfalso. apply Hx. rewrite E. now apply in_map.
Qed.

Lemma key_inj t x tbl :
  uniq (map task_id tbl) = true -> In t tbl -> In x tbl ->
  task_id x = task_id t -> x = t.
Proof.
  intros Hu Ht Hx E.
  pose proof (row_of_member t tbl Hu Ht) as F1.
  pose proof (row_of_member x tbl Hu Hx) as F2.
  rewrite E in F2. congruence.
Qed.

Section Poll.
Variable kill0 : value -> bool.
Variable sid : string.
Variable now : Z.

Lemma check_one_outputs x q : outputs (snd (check_one kill0 sid now x q)) = outputs q.
Proof.
  unfold check_one.
  destruct (timed_out now x); [reflexivity|].
  destruct (has_metadata x) as [m|]; [|reflexivity].
  destruct (Dict.get m "pid") as [pid|]; [|reflexivity].
  destruct (kill0 pid); reflexivity.
Qed.

Lemma check_one_other tid x q :
  task_id x <> tid ->
  Spec.task_row tid sid (snd (check_one kill0 sid now x q)) = Spec.task_row tid sid q.
Proof.
  intros Hne. unfold check_one.
  destruct (timed_out now x); simpl; [now apply row_update_other|].
  destruct (has_metadata x) as [m|]; [|reflexivity].
  destruct (Dict.get m "pid") as [pid|]; [|reflexivity].
  destruct (kill0 pid); simpl; [reflexivity | now apply row_update_other].
Qed.

Lemma check_one_finished t m pid q :
  timed_out now t = false ->
  has_metadata t = Some m ->
  Dict.get m "pid" = Some pid ->
  kill0 pid = false ->
  check_one kill0 sid now t q
  = (Some (task_id t),
     update_task_status (task_id t) sid
       (Spec.finished now (read_back (Dict.get m "stdout_file") q)
                 (read_back (Dict.get m "stderr_file") q)) q).
Proof.
  intros Ht Hm Hp Hk. unfold check_one. rewrite Ht, Hm, Hp, Hk.
  unfold Spec.finished.
  destruct (PyStr.truthy (read_back (Dict.get m "stderr_file") q)); reflexivity.
Qed.

Lemma check_loop_row q t m pid :
  timed_out now t = false ->
  has_metadata t = Some m ->
  Dict.get m "pid" = Some pid ->
  kill0 pid = false ->
  let T := apply_update (Spec.finished now (read_back (Dict.get m "stdout_file") q)
                                  (read_back (Dict.get m "stderr_file") q)) t in
  forall l q1,
    outputs q1 = outputs q ->
    (forall x, In x l -> task_id x = task_id t -> x = t) ->
    (Spec.task_row (task_id t) sid q1 = Some T ->
     Spec.task_row (task_id t) sid (snd (check_loop kill0 l sid now q1)) = Some T)
    /\ (Spec.task_row (task_id t) sid q1 = Some t -> In t l ->
        Spec.task_row (task_id t) sid (snd (check_loop kill0 l sid now q1)) = Some T
        /\ In (task_id t) (fst (check_loop kill0 l sid now q1))).
Proof.
  intros Ht Hm Hp Hk T.
  induction l as [|x l IH]; intros q1 Ho Hinj.
  - simpl. split; [tauto | intros _ []].
  - simpl.
    assert (Hinj' : forall y, In y l -> task_id y = task_id t -> y = t)
      by (intros y Hy; apply Hinj; now right).
    destruct (String.eqb (task_id x) (task_id t)) eqn:E.
    + apply String.eqb_eq in E.
      assert (x = t) by (apply Hinj; [now left | exact E]). subst x.
      rewrite (check_one_finished t m pid q1 Ht Hm Hp Hk).
      rewrite !(read_back_outputs _ q q1 Ho).
      set (q2 := update_task_status _ _ _ q1).
      assert (Ho2 : outputs q2 = outputs q) by exact Ho.
      destruct (IH q2 Ho2 Hinj') as [IH1 _].
      destruct (check_loop kill0 l sid now q2) as [ids q3] eqn:L. simpl in *.
      split.
      * intros Hrow. apply IH1. unfold q2. rewrite row_update_same, Hrow.
        reflexivity.
      * intros Hrow _. split; [|now left].
        apply IH1. unfold q2. rewrite row_update_same, Hrow. reflexivity.
    + apply String.eqb_neq in E.
      pose proof (check_one_other (task_id t) x q1 E) as Hrow1.
      pose proof (check_one_outputs x q1) as Ho1.
      destruct (check_one kill0 sid now x q1) as [done q2]. simpl in *.
      assert (Ho2 : outputs q2 = outputs q) by congruence.
      destruct (IH q2 Ho2 Hinj') as [IH1 IH2].
      destruct (check_loop kill0 l sid now q2) as [ids q3] eqn:L. simpl in *.
      split.
      * intros Hrow. apply IH1. congruence.
      * intros Hrow [->|Hin]; [congruence|].
        destruct IH2 as [H1 H2]; [congruence | exact Hin |].
        split; [exact H1|]. destruct done; [now right | exact H2].
Qed.

End Poll.

(** *** Harvest *)

Section Harvest.
Variable json_loads : string -> value + string.
Variable sid : string.

(** When no output makes the parser raise, the loop consumes every task
    it is given. *)
Lemma harvest_loop_consumes : forall l q,
  (forall t, In t l -> exists fb, _parse_task_output json_loads t = Ok fb) ->
  (exists items, fst (harvest_loop json_loads l sid q) = Ok items)
  /\ table sid (snd (harvest_loop json_loads l sid q))
     = List.filter (fun r => negb (PyStr.mem (task_id r) (map task_id l)))
         (table sid q).
Proof.
  induction l as [|t l IH]; intros q Hok; simpl.
  - split; [now eexists|]. symmetry.
    apply forallb_filter_id, forallb_forall. reflexivity.
  - destruct (Hok t (or_introl eq_refl)) as [fb Hfb]. rewrite Hfb.
    destruct (IH (mark_task_consumed (task_id t) sid q)) as [[items Hi] Ht].
    { intros x Hx. apply Hok. now right. }
    destruct (harvest_loop json_loads l sid _) as [r q'] eqn:L. simpl in *.
    subst r. split; [now eexists|].
    rewrite Ht. unfold mark_task_consumed. rewrite table_execute.
    rewrite list_filter_twice. apply filter_ext. intros r.
    unfold PyStr.mem. simpl. now rewrite negb_orb.
Qed.

End Harvest.
End QueueFacts.

(** C7.  In a queue whose rows have pairwise different ids, take a running
    task that has not timed out and whose recorded process id no longer
    exists.  The poll reports it finished and rewrites its row from the
    captured output files: status "completed" with exit code 0 when the
    captured stderr is empty, status "failed" with exit code 1 when it is
    not, the two captured texts stored and the completion time set. *)
Theorem poll_classifies_by_stderr :
  forall (kill0 : value -> bool) (sid : string) (now : Z) (q : TaskQueue.qstore)
         (t : TaskQueue.BackgroundTask) (m : dict) (pid : value),
    uniq (map TaskQueue.task_id (TaskQueue.table sid q)) = true ->
    In t (TaskQueue.table sid q) ->
    TaskQueue.status t = "running" ->
    TaskRunner.timed_out now t = false ->
    TaskRunner.has_metadata t = Some m ->
    Dict.get m "pid" = Some pid ->
    kill0 pid = false ->
    let out := TaskRunner.read_back (Dict.get m "stdout_file") q in
    let err := TaskRunner.read_back (Dict.get m "stderr_file") q in
    let polled := TaskRunner.check_running_tasks kill0 sid now q in
    In (TaskQueue.task_id t) (fst polled)
    /\ exists t',
         Spec.task_row (TaskQueue.task_id t) sid (snd polled) = Some t'
         /\ TaskQueue.status t' = (if String.eqb err "" then "completed" else "failed")
         /\ TaskQueue.exit_code t' = Some (if String.eqb err "" then 0 else 1)%Z
         /\ TaskQueue.stdout t' = Some out
         /\ TaskQueue.stderr t' = Some err
         /\ TaskQueue.completed_at t' = Some now.
Proof.
  intros kill0 sid now q t m pid Hu Hin Hrun Ht Hm Hp Hk out err polled.
  unfold polled, TaskRunner.check_running_tasks, TaskQueue.get_running_tasks.
  set (running := Sql.order_by _ _).
  set (q1 := TaskQueue._get_connection sid q).
  assert (Hrow : Spec.task_row (TaskQueue.task_id t) sid q1 = Some t).
  { unfold Spec.task_row, q1. rewrite QueueFacts.table_connection.
    now apply QueueFacts.row_of_member. }
  assert (Hmem : In t running).
  { unfold running. apply FeedbackFacts.order_by_In. apply List.filter_In.
    split; [exact Hin|]. unfold TaskQueue.status_is. rewrite Hrun. reflexivity. }
  assert (Hinj : forall x, In x running ->
                           TaskQueue.task_id x = TaskQueue.task_id t -> x = t).
  { intros x Hx E. unfold running in Hx. apply FeedbackFacts.order_by_In in Hx.
    apply List.filter_In in Hx as [Hx _].
    now apply (QueueFacts.key_inj t x (TaskQueue.table sid q)). }
  destruct (QueueFacts.check_loop_row kill0 sid now q t m pid Ht Hm Hp Hk
              running q1 eq_refl Hinj) as [_ H].
  destruct (H Hrow Hmem) as [H1 H2]. split; [exact H2|].
  eexists. split; [exact H1|].
  fold out err. unfold Spec.finished. simpl.
  destruct err; simpl; repeat split; reflexivity.
Qed.

(** The theorem on a task whose process left "3 passed" on stdout and
    nothing on stderr: polled at time 150, it is completed. *)
Lemma poll_classifies_by_stderr_witness :
  let polled := TaskRunner.check_running_tasks (fun _ => false) "" 150
                  Host.polled_queue in
  In "task-0" (fst polled)
  /\ exists t',
       Spec.task_row "task-0" "" (snd polled) = Some t'
       /\ TaskQueue.status t' = "completed"
       /\ TaskQueue.exit_code t' = Some 0%Z
       /\ TaskQueue.stdout t' = Some "3 passed"
       /\ TaskQueue.stderr t' = Some ""
       /\ TaskQueue.completed_at t' = Some 150%Z.
Proof.
  exact (poll_classifies_by_stderr (fun _ => false) "" 150 Host.polled_queue
           Host.running_task
           [("pid", VInt 4242);
            ("stdout_file", VStr "default/output/task-0.stdout");
            ("stderr_file", VStr "default/output/task-0.stderr")]
           (VInt 4242)
           eq_refl (or_introl eq_refl) eq_refl eq_refl eq_refl eq_refl eq_refl).
Defined.

(** Harvest consumes what it fetched when no output makes the parser
    raise: every fetched row is deleted, whether or not it gave feedback. *)
Lemma harvest_consumes_fetched :
  forall (json_loads : string -> value + string) (sid : string) (q : TaskQueue.qstore),
    let fetched := fst (TaskQueue.get_completed_tasks sid 10 q) in
    (forall t, In t fetched ->
               exists fb, TaskRunner._parse_task_output json_loads t = Ok fb) ->
    (exists items, fst (TaskRunner.process_completed_tasks json_loads sid q) = Ok items)
    /\ TaskQueue.table sid (snd (TaskRunner.process_completed_tasks json_loads sid q))
       = List.filter
           (fun r => negb (PyStr.mem (TaskQueue.task_id r)
                             (map TaskQueue.task_id fetched)))
           (TaskQueue.table sid q).
Proof.
  intros json_loads sid q fetched Hok.
  destruct (QueueFacts.harvest_loop_consumes json_loads sid fetched
              (TaskQueue._get_connection sid q) Hok) as [H1 H2].
  unfold TaskRunner.process_completed_tasks, TaskQueue.get_completed_tasks.
  split; [exact H1|].
  etransitivity; [exact H2|]. now rewrite QueueFacts.table_connection.
Qed.

(** A task with exit code 0 and no output gives no feedback. *)
Lemma quiet_task_gives_nothing :
  forall (json_loads : string -> value + string) (t : TaskQueue.BackgroundTask),
    TaskQueue.exit_code t = Some 0%Z ->
    TaskQueue.stdout t = Some "" \/ TaskQueue.stdout t = None ->
    TaskRunner._parse_task_output json_loads t = Ok None.
Proof.
  intros json_loads t Hc [Ho|Ho]; unfold TaskRunner._parse_task_output;
    rewrite Hc, Ho; reflexivity.
Qed.

(** C10 at an output the parser raises on.  Two completed rows are
    fetched: a quiet one (exit code 0, no output) and one whose stdout is
    a JSON object with a feedback list of texts.  The quiet row is consumed
    and deleted; on the other [first.get] raises [AttributeError], which
    the parser does not catch: the pass ends with the exception and the
    row stays in the queue, to be fetched again by the next pass. *)
Lemma harvest_raises_and_keeps_row :
  let quiet := Host.completed_task "task-0" 200 "" in
  let odd := Host.completed_task "task-1" 190 Host.feedback_of_text in
  let q := Host.queue_of [quiet; odd] in
  fst (TaskQueue.get_completed_tasks "" 10 q) = [quiet; odd]
  /\ TaskRunner._parse_task_output Host.loads quiet = Ok None
  /\ TaskRunner._parse_task_output Host.loads odd = Raise "AttributeError"
  /\ fst (TaskRunner.process_completed_tasks Host.loads "" q) = Raise "AttributeError"
  /\ TaskQueue.table "" (snd (TaskRunner.process_completed_tasks Host.loads "" q))
     = [odd].
Proof.
  cbv zeta. repeat split; vm_compute; reflexivity.
Qed.

(* ===================================================================== *)
(** ** The task runner *)
(* ===================================================================== *)

Module RunnerFacts.
Import Types Runner.

Section Pool.
Variable number_of_text : string -> option Z.
Variable elapsed : nat -> Z.
Variable arrives : nat -> Z -> bool.


(** With its two settings readable and no body that never returns, a run
    is the concatenation of what each descriptor adds, in the order of the
    batch. *)
Lemma run_parallel_collects tasks payload c d :
  cfg_conc number_of_text payload = Ok c ->
  default_timeout_of number_of_text payload = Ok d ->
  (forall desc, In desc tasks -> hangs desc payload = false) ->
  run_parallel number_of_text elapsed arrives tasks payload
  = Ok (collect_from elapsed arrives d 0 tasks payload).
Proof.
  intros Hc Hd Hh. unfold run_parallel. rewrite Hc, Hd.
  assert (Hn : existsb (fun desc => hangs desc payload) tasks = false).
  { apply not_true_is_false. intros H.
    apply existsb_exists in H as [x [Hx Hx']].
    rewrite (Hh x Hx) in Hx'. discriminate. }
  rewrite Hn. now destruct tasks.
Qed.


(** A run that returns results had no body that never returns. *)
Lemma run_parallel_returned tasks payload results :
  run_parallel number_of_text elapsed arrives tasks payload = Ok results ->
  forall desc, In desc tasks -> hangs desc payload = false.
Proof.
  intros H desc Hin. destruct (hangs desc payload) eqn:Hh; [|reflexivity].
  unfold run_parallel in H. destruct tasks as [|x r]; [destruct Hin|].
  destruct (cfg_conc number_of_text payload) as [c|e|] eqn:Hc; try discriminate.
  assert (Hn : existsb (fun desc => hangs desc payload) (x :: r) = true)
    by (apply existsb_exists; now exists desc).
  rewrite Hn in H. discriminate.
Qed.


(** A body that raises gives its one warning to [_safe_task_call]. *)
Lemma safe_task_call_raises i desc payload err :
  fn desc (task_payload desc payload) = Raises err ->
  _safe_task_call elapsed i desc payload
  = Some [warning err (id desc) (Some (elapsed i))].
Proof. intros H. unfold _safe_task_call. now rewrite H. Qed.



End Pool.
End RunnerFacts.




(* ===================================================================== *)
(** ** The decision engine *)
(* ===================================================================== *)

Module RouterFacts.
Import Types Router.

Lemma common_fields_get results d k :
  k <> "suppressOutput" -> k <> "systemMessage" ->
  Dict.get (common_fields results d) k = Dict.get d k.
Proof.
  intros H1 H2. unfold common_fields.
  destruct (existsb _ results); destruct (nonempty _);
    rewrite ?DictFacts.get_set_ne by congruence; reflexivity.
Qed.

Lemma with_context_get event ctx d k :
  k <> "hookSpecificOutput" ->
  Dict.get (with_context event ctx d) k = Dict.get d k.
Proof.
  intros H. unfold with_context. destruct (PyStr.truthy ctx); [|reflexivity].
  now rewrite DictFacts.get_set_ne by congruence.
Qed.

Section Decide.
Variable repr : value -> string.
Variable sha256_hexdigest : string -> string.
Variable P : PathLib.

(** The response is the shape of the event with the common fields. *)
Lemma respond_response event sid cfg results now w :
  exists adds,
    fst (respond repr sha256_hexdigest P event sid cfg results now w)
    = VDict (common_fields results
               (shape event (blocks_of repr (block_on_of cfg) results) adds
                  (List.filter (fun a => truthy_text (permission_decision a)) results)
                  (List.filter end_turn results))).
Proof.
  unfold respond.
  destruct (if is_post event then _ else _) as [adds fb]. now exists adds.
Qed.

Lemma blocks_nonempty block_on results a :
  In a results -> block a || _matches_policy repr block_on a = true ->
  nonempty (blocks_of repr block_on results) = true.
Proof.
  intros Hin Hb.
  assert (H : In a (blocks_of repr block_on results))
    by (apply List.filter_In; split; assumption).
  now destruct (blocks_of repr block_on results).
Qed.

Lemma blocks_empty block_on results :
  (forall b, In b results -> block b = false /\ _matches_policy repr block_on b = false) ->
  blocks_of repr block_on results = [].
Proof.
  intros H. unfold blocks_of. induction results as [|x r IH]; [reflexivity|].
  simpl. destruct (H x (or_introl eq_refl)) as [-> ->]. simpl.
  apply IH. intros b Hb. apply H. now right.
Qed.

(** A security finding of severity error matches the rule
    "security:error". *)
Lemma security_error_matches block_on a :
  severity a = Some "error" -> category a = Some "security" ->
  In (VStr "security:error") block_on ->
  _matches_policy repr block_on a = true.
Proof.
  intros Hs Hc Hin. unfold _matches_policy. rewrite Hs, Hc.
  apply existsb_exists. exists (VStr "security:error").
  split; [exact Hin | reflexivity].
Qed.

(** The two parts of a text around its first [c]. *)
Lemma split_once_join c : forall s a b,
  PyStr.contains_char c s = true -> PyStr.split_once c s = (a, b) ->
  s = a +:+ String c b.
Proof.
  induction s as [|d r IH]; intros a b Hc Hs; [discriminate|].
  cbn [PyStr.split_once] in Hs. cbn [PyStr.contains_char] in Hc.
  destruct (Ascii.eqb c d) eqn:Hd.
  - apply Ascii.eqb_eq in Hd. subst d. injection Hs as <- <-. reflexivity.
  - simpl in Hc. destruct (PyStr.split_once c r) as [a' b'] eqn:Hr.
    injection Hs as <- <-.
    change (String d a' +:+ String c b') with (String d (a' +:+ String c b')).
    f_equal. now apply IH.
Qed.

Lemma empty_or_equal s t :
  negb (PyStr.truthy s) || String.eqb s t = true -> s = "" \/ s = t.
Proof.
  intros H. apply orb_true_iff in H as [H|H].
  - left. now destruct s.
  - right. now apply String.eqb_eq.
Qed.

(** The rules that match a security finding of severity error, by their
    text. *)
Lemma rule_matches_security_error rule :
  rule_matches repr "error" "security" rule
  = Inv.names_security_error (Inv.rule_text repr rule).
Proof.
  unfold rule_matches, Inv.rule_text.
  generalize (PyStr.strip (PyStr.lower (Selectors.py_str repr rule))) as s.
  intros s. destruct (Inv.names_security_error s) eqn:M.
  - apply mem_In in M. simpl in M.
    destruct M as [<-|[<-|[<-|[<-|[<-|[<-|[]]]]]]]; reflexivity.
  - apply not_true_is_false. intros H.
    destruct s as [|x s']; [discriminate|].
    remember (String x s') as s eqn:Es. cbn [PyStr.truthy negb] in H.
    assert (Ht : negb (PyStr.truthy s) = false) by (subst s; reflexivity).
    rewrite Ht in H.
    destruct (PyStr.contains_char ":" s) eqn:C.
    + destruct (PyStr.split_once ":" s) as [rcat rsev] eqn:S.
      pose proof (split_once_join _ _ _ _ C S) as Hs.
      apply andb_prop in H as [H1 H2].
      apply empty_or_equal in H1. apply empty_or_equal in H2.
      destruct H1 as [-> | ->], H2 as [-> | ->]; rewrite Hs in M; discriminate.
    + destruct (PyStr.mem s ["info"; "warn"; "error"]).
      * apply String.eqb_eq in H. rewrite <- H in M. discriminate.
      * apply String.eqb_eq in H. rewrite H in M. discriminate.
Qed.

Lemma matches_policy_security_error block_on a :
  severity a = Some "error" -> category a = Some "security" ->
  _matches_policy repr block_on a
  = existsb (fun rule => Inv.names_security_error (Inv.rule_text repr rule)) block_on.
Proof.
  intros Hs Hc. unfold _matches_policy. rewrite Hs, Hc.
  change (PyStr.lower (text_or_empty (Some "error"))) with "error".
  change (PyStr.lower (text_or_empty (Some "security"))) with "security".
  induction block_on as [|rule r IH]; [reflexivity|].
  simpl. now rewrite rule_matches_security_error, IH.
Qed.

Lemma blocks_but_one block_on results a :
  block a = false -> _matches_policy repr block_on a = false ->
  (forall b, In b results ->
             b = a \/ (block b = false /\ _matches_policy repr block_on b = false)) ->
  blocks_of repr block_on results = [].
Proof.
  intros Hf Hm H. apply blocks_empty. intros b Hb.
  destruct (H b Hb) as [-> | Hb']; [now split | exact Hb'].
Qed.

(** Whatever the tasks returned, a SessionEnd answer continues, and the
    session's feedback file, queue file and drop-in directory are gone. *)
Lemma respond_session_end sid cfg results now w :
  let r := respond repr sha256_hexdigest P "SessionEnd" sid cfg results now w in
  Spec.field (fst r) "continue" = Some (VBool true)
  /\ feedback (snd r) !! Feedback.db_name sid = None
  /\ TaskQueue.dbs (queue (snd r)) !! TaskQueue.dir_name sid = None
  /\ TaskQueue.incoming (queue (snd r)) !! TaskQueue.dir_name sid = None.
Proof.
  cbv zeta. unfold respond. simpl. split; [|repeat split; apply lookup_delete_eq].
  rewrite common_fields_get by discriminate.
  unfold shape. simpl. now rewrite with_context_get by discriminate.
Qed.

End Decide.
End RouterFacts.

(** C5.  Take any collection of outcomes of a PostToolUse invocation that
    holds an outcome of severity "error" and category "security".  A rule
    of [block_on] matches the outcome exactly when its text, lowered and
    stripped, is "security:error", "security:", ":error", ":", "security"
    or "error".  Under a policy whose [block_on] holds the rule
    "security:error" the response is a block decision with a reason -- no
    "continue", no context.  When instead the outcome has no block flag and
    no rule of [block_on] has one of these texts, it is not among the
    blocks and, having context, is among the advisory additions; and when
    no other outcome of the collection blocks, the response carries no
    decision and continues. *)
Theorem post_action_block_policy :
  forall (repr : value -> string) (sha256_hexdigest : string -> string)
         (P : PathLib) (sid : string) (cfg : dict)
         (results : list Types.Action) (a : Types.Action) (now : Z)
         (w : Router.World),
    In a results ->
    Types.severity a = Some "error" ->
    Types.category a = Some "security" ->
    let block_on := Router.block_on_of cfg in
    let response :=
      fst (Router.respond repr sha256_hexdigest P "PostToolUse" sid cfg results now w) in
    let named :=
      existsb (fun rule => Inv.names_security_error (Inv.rule_text repr rule))
        block_on in
    Router._matches_policy repr block_on a = named
    /\ (In (VStr "security:error") block_on ->
        Spec.field response "decision" = Some (VStr "block")
        /\ (exists reason, Spec.field response "reason" = Some (VStr reason))
        /\ Spec.field response "continue" = None
        /\ Spec.field response "hookSpecificOutput" = None)
    /\ (Types.block a = false ->
        named = false ->
        ~ In a (Router.blocks_of repr block_on results)
        /\ (Router.truthy_text (Types.add_context a) = true ->
            In a (Router.adds_of repr block_on results))
        /\ ((forall b, In b results ->
                       b = a
                       \/ (Types.block b = false
                           /\ Router._matches_policy repr block_on b = false)) ->
            Spec.field response "decision" = None
            /\ Spec.field response "continue" = Some (VBool true))).
Proof.
  intros repr sha P sid cfg results a now w Hin Hsev Hcat block_on response named.
  pose proof (RouterFacts.matches_policy_security_error repr block_on a Hsev Hcat)
    as Hnamed.
  fold named in Hnamed.
  destruct (RouterFacts.respond_response repr sha P "PostToolUse" sid cfg results now w)
    as [adds Hresp].
  unfold response. rewrite Hresp. unfold Spec.field. fold block_on.
  split; [exact Hnamed|]. split.
  - intros Hrule.
    assert (Hb : Router.nonempty (Router.blocks_of repr block_on results) = true).
    { apply (RouterFacts.blocks_nonempty repr block_on results a Hin).
      rewrite (RouterFacts.security_error_matches repr block_on a Hsev Hcat Hrule).
      apply orb_true_r. }
    rewrite !RouterFacts.common_fields_get by discriminate.
    unfold Router.shape. simpl. unfold Router.decision_shape. rewrite Hb.
    simpl. repeat split. now eexists.
  - intros Hflag Hno. rewrite Hno in Hnamed. split; [|split].
    + intros H. apply List.filter_In in H as [_ H].
      rewrite Hflag, Hnamed in H. discriminate.
    + intros Hctx. apply List.filter_In. split; [exact Hin|].
      now rewrite Hctx, Hflag, Hnamed.
    + intros Hall.
      rewrite !RouterFacts.common_fields_get by discriminate.
      unfold Router.shape. simpl. unfold Router.decision_shape.
      rewrite (RouterFacts.blocks_but_one repr block_on results a Hflag Hnamed Hall).
      simpl.
      rewrite !RouterFacts.with_context_get by discriminate. split; reflexivity.
Qed.

(** The theorem on the single finding of an analyzer.  Under the policy
    that blocks on "security:error" the response is a block decision.
    Under a policy whose four rules name other categories and severities
    ("style", "Security:Warn", " lint:error ", "warn") no rule matches the
    finding, and the whole response is the advisory addition. *)
Lemma post_action_block_policy_witness :
  (Spec.field
     (fst (Router.respond Host.no_repr Host.digest Host.posix "PostToolUse" "s1"
             Host.strict_cfg [Host.security_finding] 1000 Host.fresh_world))
     "decision" = Some (VStr "block"))
  /\ Router._matches_policy Host.no_repr (Router.block_on_of Host.other_rules_cfg)
       Host.security_finding = false
  /\ fst (Router.respond Host.no_repr Host.digest Host.posix "PostToolUse" "s1"
            Host.other_rules_cfg [Host.security_finding] 1000 Host.fresh_world)
     = VDict [("continue", VBool true);
              ("hookSpecificOutput",
               VDict [("hookEventName", VStr "PostToolUse");
                      ("additionalContext", VStr "eval() on user input")])]
  /\ Spec.field
       (fst (Router.respond Host.no_repr Host.digest Host.posix "PostToolUse" "s1"
               Host.other_rules_cfg [Host.security_finding] 1000 Host.fresh_world))
       "decision" = None.
Proof.
  destruct (post_action_block_policy Host.no_repr Host.digest Host.posix "s1"
              Host.strict_cfg [Host.security_finding] Host.security_finding 1000
              Host.fresh_world (or_introl eq_refl) eq_refl eq_refl) as [_ [H1 _]].
  destruct (post_action_block_policy Host.no_repr Host.digest Host.posix "s1"
              Host.other_rules_cfg [Host.security_finding] Host.security_finding 1000
              Host.fresh_world (or_introl eq_refl) eq_refl eq_refl) as [H0 [_ H2]].
  split; [apply H1; simpl; now left|].
  split; [rewrite H0; reflexivity|].
  split; [vm_compute; reflexivity|].
  destruct (H2 eq_refl eq_refl) as [_ [_ H3]].
  apply H3. intros b [<-|[]]. now left.
Defined.

(* ===================================================================== *)
(** ** A whole invocation *)
(* ===================================================================== *)

(** When the configuration loads and no task is selected for the event,
    [main] prints a plain continue and returns before anything else is
    done: the world is left as it was, whatever the event. *)
Lemma main_without_tasks :
  forall (P : PathLib) (E : ConfigEnv) (fuel : nat) (repr : value -> string)
         (sha256_hexdigest : string -> string) (uuid4 : nat -> string)
         (json_loads : string -> value + string)
         (number_of_text : string -> option Z)
         (resolve : string -> (string * Types.TaskFn) + string)
         (elapsed : nat -> Z) (arrives : nat -> Z -> bool)
         (popen : string -> list value -> option string -> Z + string)
         (kill0 : value -> bool) (is_dir : string -> bool) (now : Z)
         (config_paths : option (list string)) (payload : dict) (w : Router.World)
         (c : ascii) (rest : string) (cfg : dict) (d : Z),
    let event := String c rest in
    Dict.get payload "hook_event_name" = Some (VStr event) ->
    event <> "SessionStart" ->
    load_config P E fuel config_paths = Loaded cfg ->
    Runner.number_of number_of_text (get_or cfg "default_timeout" (VInt 12)) = Ok d ->
    Selectors.select_tasks resolve repr event cfg
      (Router.str_or repr payload "tool_name" "")
      (if String.eqb event "PostToolUse"
       then FileMatch.collect_changed_files_from_payload payload else []) = [] ->
    Router.main P E fuel repr sha256_hexdigest uuid4 json_loads number_of_text
      resolve elapsed arrives popen kill0 is_dir now config_paths payload w
    = (Router.Printed (VDict [("continue", VBool true)]), w).
Proof.
  intros P E fuel repr sha uuid4 json_loads number_of_text resolve elapsed arrives
    popen kill0 is_dir now config_paths payload w c rest cfg d event
    Hev Hne Hload Hd Hsel.
  unfold Router.main. rewrite Hev. fold event.
  rewrite (proj2 (String.eqb_neq _ _) Hne).
  rewrite Hload, Hd. now rewrite Hsel.
Qed.

(** C1 at a configuration with no SessionEnd task.  The session "s1" has
    left a feedback file, a queue file and a drop-in directory behind.
    The SessionEnd invocation answers with a plain continue and returns
    at the check for selected tasks: the world is exactly as before,
    nothing was cleaned up.  With one task configured for SessionEnd the
    same invocation removes all three. *)
Lemma session_end_without_tasks_skips_cleanup :
  let payload := [("hook_event_name", VStr "SessionEnd"); ("session_id", VStr "s1")] in
  Host.main Host.no_tasks_env Host.no_import 150 None payload Host.used_world
  = (Router.Printed (VDict [("continue", VBool true)]), Host.used_world)
  /\ Router.feedback Host.used_world !! Feedback.db_name "s1" = Some [Host.stale_row]
  /\ TaskQueue.dbs (Router.queue Host.used_world) !! TaskQueue.dir_name "s1"
     = Some [Host.running_task]
  /\ (let cleaned :=
        Host.main Host.one_task_env Host.import_quiet 150 None payload
          Host.used_world in
      fst cleaned = Router.Printed (VDict [("continue", VBool true)])
      /\ Router.feedback (snd cleaned) !! Feedback.db_name "s1" = None
      /\ TaskQueue.dbs (Router.queue (snd cleaned)) !! TaskQueue.dir_name "s1" = None
      /\ TaskQueue.incoming (Router.queue (snd cleaned)) !! TaskQueue.dir_name "s1"
         = None).
Proof.
  cbv zeta. repeat split; vm_compute; reflexivity.
Qed.

(* ===================================================================== *)
(** ** The fatal stop of the configuration *)
(* ===================================================================== *)

Module StopFacts.
Import Types Router.





Section Main.
Variable P : PathLib.
Variable E : ConfigEnv.
Variable fuel : nat.
Variable repr : value -> string.
Variable sha256_hexdigest : string -> string.
Variable uuid4 : nat -> string.
Variable json_loads : string -> value + string.
Variable number_of_text : string -> option Z.
Variable resolve : string -> (string * TaskFn) + string.
Variable elapsed : nat -> Z.
Variable arrives : nat -> Z -> bool.
Variable popen : string -> list value -> option string -> Z + string.
Variable kill0 : value -> bool.
Variable is_dir : string -> bool.
Variable now : Z.



End Main.
End StopFacts.




(* ===================================================================== *)
(** ** Further properties of the configuration merge *)
(* ===================================================================== *)

Module MergeFacts.

Lemma get_absent {V} (d : list (string * V)) k :
  ~ In k (Dict.keys d) -> Dict.get d k = None.
Proof.
  intros H. apply DictFacts.has_false in H. unfold Dict.has in H.
  destruct (Dict.get d k); [discriminate | reflexivity].
Qed.

Lemma step_get (a : dict) k' v' k :
  k <> k' ->
  Dict.get (match Dict.get a k', v' with
            | Some (VDict da), VDict _ => Dict.set a k' (VDict (merge_into da v'))
            | _, _ => Dict.set a k' v'
            end) k = Dict.get a k.
Proof.
  intros Hne.
  destruct (Dict.get a k') as [x|]; [destruct x|]; destruct v';
    apply DictFacts.get_set_ne; congruence.
Qed.

Lemma merge_into_untouched : forall (b a : dict) k,
  Dict.get b k = None -> Dict.get (merge_into a (VDict b)) k = Dict.get a k.
Proof.
  induction b as [|[k' v'] b IH]; intros a k Hk; [reflexivity|].
  simpl in Hk. destruct (String.eqb k k') eqn:E; [discriminate|].
  apply String.eqb_neq in E.
  rewrite SelfMerge.merge_into_cons, IH by exact Hk. now apply step_get.
Qed.

Lemma merge_into_override : forall (b a : dict) k v,
  uniq (Dict.keys b) = true -> Dict.get b k = Some v ->
  Dict.get (merge_into a (VDict b)) k = Some (Inv.merged_value (Dict.get a k) v).
Proof.
  induction b as [|[k' v'] b IH]; intros a k v Hu Hk; [discriminate|].
  simpl in Hu, Hk. apply andb_prop in Hu as [Hn Hu].
  rewrite SelfMerge.merge_into_cons.
  destruct (String.eqb k k') eqn:E.
  - apply String.eqb_eq in E. subst k'. injection Hk as ->.
    rewrite merge_into_untouched
      by (apply get_absent; now apply mem_false, negb_true_iff).
    unfold Inv.merged_value, _merge.
    destruct (Dict.get a k) as [x|]; [destruct x|]; destruct v;
      apply DictFacts.get_set_eq.
  - apply String.eqb_neq in E.
    rewrite (IH _ _ _ Hu Hk). now rewrite step_get.
Qed.

Lemma config_step_get (out : dict) k' v' k :
  k <> k' -> Dict.get (config_step out (k', v')) k = Dict.get out k.
Proof.
  intros Hne. unfold config_step. destruct (is_event_key k').
  - apply DictFacts.get_set_ne. congruence.
  - destruct (Dict.get out k') as [x|]; [destruct x|]; destruct v';
      apply DictFacts.get_set_ne; congruence.
Qed.

Lemma configs_untouched : forall (b a : dict) k,
  Dict.get b k = None -> Dict.get (_merge_configs a b) k = Dict.get a k.
Proof.
  unfold _merge_configs.
  induction b as [|[k' v'] b IH]; intros a k Hk; [reflexivity|].
  simpl in Hk. destruct (String.eqb k k') eqn:E; [discriminate|].
  apply String.eqb_neq in E. simpl fold_left.
  rewrite IH by exact Hk. now apply config_step_get.
Qed.

Lemma configs_override : forall (b a : dict) k v,
  uniq (Dict.keys b) = true -> Dict.get b k = Some v ->
  Dict.get (_merge_configs a b) k
  = Some (if is_event_key k
          then VDict (_merge_event_sections
                        (match Dict.get a k with
                         | Some s => s
                         | None => VDict empty_section
                         end) v)
          else Inv.merged_value (Dict.get a k) v).
Proof.
  induction b as [|[k' v'] b IH]; intros a k v Hu Hk; [discriminate|].
  simpl in Hu, Hk. apply andb_prop in Hu as [Hn Hu].
  change (_merge_configs a ((k', v') :: b))
    with (_merge_configs (config_step a (k', v')) b).
  destruct (String.eqb k k') eqn:E.
  - apply String.eqb_eq in E. subst k'. injection Hk as ->.
    rewrite configs_untouched
      by (apply get_absent; now apply mem_false, negb_true_iff).
    unfold config_step. destruct (is_event_key k).
    + apply DictFacts.get_set_eq.
    + unfold Inv.merged_value.
      destruct (Dict.get a k) as [x|]; [destruct x|]; destruct v;
        apply DictFacts.get_set_eq.
  - apply String.eqb_neq in E.
    rewrite (IH _ _ _ Hu Hk). now rewrite config_step_get.
Qed.

End MergeFacts.

(** X1.  [_merge], key by key.  For an overriding dict [b] (its keys pairwise
    different, as in any dict): a key [b] does not have keeps the value it
    has in [a]; a key [b] has takes the value of [b], except that two
    dicts are merged in turn. *)
Theorem merge_lookup :
  forall (a b : dict) (k : string),
    uniq (Dict.keys b) = true ->
    Dict.get (_merge a b) k
    = match Dict.get b k with
      | None => Dict.get a k
      | Some v => Some (Inv.merged_value (Dict.get a k) v)
      end.
Proof.
  intros a b k Hu. unfold _merge.
  destruct (Dict.get b k) as [v|] eqn:Hk.
  - now apply MergeFacts.merge_into_override.
  - now apply MergeFacts.merge_into_untouched.
Qed.

(** The theorem on the default policy and an override that sets one of
    its flags and adds a rule list. *)
Lemma merge_lookup_witness :
  Dict.get (_merge _DEFAULTS
              [("policy", VDict [("block_on", VList [VStr "security"])]);
               ("concurrency", VInt 2)]) "policy"
  = Some (VDict [("missing_tool_is_warning", VBool true);
                 ("treat_stderr_only_as_warning", VBool true);
                 ("block_on", VList [VStr "security"])]).
Proof.
  rewrite (merge_lookup _DEFAULTS
             [("policy", VDict [("block_on", VList [VStr "security"])]);
              ("concurrency", VInt 2)] "policy" eq_refl).
  reflexivity.
Defined.

(** X2.  [_merge_configs], key by key.  For an overriding configuration [b]
    (its keys pairwise different): a key [b] does not have keeps its value;
    an event key takes the merge of the two sections, the empty section
    standing in when [a] has none; any other key is overridden as [_merge]
    does it. *)
Theorem merge_configs_lookup :
  forall (a b : dict) (k : string),
    uniq (Dict.keys b) = true ->
    Dict.get (_merge_configs a b) k
    = match Dict.get b k with
      | None => Dict.get a k
      | Some v =>
          Some (if is_event_key k
                then VDict (_merge_event_sections
                              (match Dict.get a k with
                               | Some s => s
                               | None => VDict empty_section
                               end) v)
                else Inv.merged_value (Dict.get a k) v)
      end.
Proof.
  intros a b k Hu.
  destruct (Dict.get b k) as [v|] eqn:Hk.
  - now apply MergeFacts.configs_override.
  - now apply MergeFacts.configs_untouched.
Qed.

(** The theorem on the defaults and a project file that lists one Stop
    task. *)
Lemma merge_configs_lookup_witness :
  Dict.get (_merge_configs _DEFAULTS
              [("Stop", VList [VStr "notify.done"]); ("default_timeout", VInt 30)])
    "Stop"
  = Some (VDict [("tasks", VList [VStr "notify.done"])]).
Proof.
  rewrite (merge_configs_lookup _DEFAULTS
             [("Stop", VList [VStr "notify.done"]); ("default_timeout", VInt 30)]
             "Stop" eq_refl).
  reflexivity.
Defined.

(* ===================================================================== *)
(** ** The task list of a merged section *)
(* ===================================================================== *)

Module SectionFacts.

Lemma set_In {V} (d : list (string * V)) k v x :
  In x (Dict.set d k v) -> x = (k, v) \/ In x d.
Proof.
  induction d as [|[k' v'] r IH]; simpl.
  - intros [<-|[]]. now left.
  - destruct (String.eqb k k') eqn:E; simpl.
    + apply String.eqb_eq in E. subst k'. intros [<-|H]; auto.
    + intros [<-|H]; auto. destruct (IH H); auto.
Qed.

Lemma uniq_set {V} (d : list (string * V)) k v :
  uniq (Dict.keys d) = true -> uniq (Dict.keys (Dict.set d k v)) = true.
Proof.
  intros Hu. destruct (Dict.has d k) eqn:Hh.
  - apply DictFacts.has_In in Hh. now rewrite DictFacts.keys_set_present.
  - apply DictFacts.has_false in Hh. rewrite DictFacts.set_absent by exact Hh.
    rewrite SelfMerge.keys_app. now apply SelfMerge.uniq_snoc.
Qed.

Lemma pop_In {V} (d : list (string * V)) k x : In x (Dict.pop d k) -> In x d.
Proof.
  induction d as [|[k' v'] r IH]; simpl; [tauto|].
  destruct (String.eqb k k'); simpl; [tauto|]. intros [<-|H]; auto.
Qed.

Lemma uniq_pop {V} (d : list (string * V)) k :
  uniq (Dict.keys d) = true -> uniq (Dict.keys (Dict.pop d k)) = true.
Proof.
  intros Hu. rewrite DictFacts.pop_filter by exact Hu.
  now apply DictFacts.uniq_filter.
Qed.

Lemma pop_absent {V} (d : list (string * V)) k :
  uniq (Dict.keys d) = true -> ~ In k (Dict.keys (Dict.pop d k)).
Proof.
  intros Hu. rewrite DictFacts.pop_filter by exact Hu.
  unfold Dict.keys. intros Hin. apply in_map_iff in Hin as [[k' v'] [Hk Hin]].
  apply List.filter_In in Hin as [_ Hf]. simpl in Hk, Hf. subst k'.
  now rewrite String.eqb_refl in Hf.
Qed.

Lemma keys_set_incl {V} (d : list (string * V)) k v x :
  In x (Dict.keys (Dict.set d k v)) -> x = k \/ In x (Dict.keys d).
Proof.
  unfold Dict.keys. intros Hin. apply in_map_iff in Hin as [[k' v'] [Hk Hin]].
  simpl in Hk. subst k'. apply set_In in Hin as [[= -> _]|Hin]; [now left|].
  right. change x with (fst (x, v')). now apply in_map.
Qed.

Lemma keys_pop_incl {V} (d : list (string * V)) k x :
  In x (Dict.keys (Dict.pop d k)) -> In x (Dict.keys d).
Proof.
  unfold Dict.keys. intros Hin. apply in_map_iff in Hin as [[k' v'] [Hk Hin]].
  simpl in Hk. subst k'. apply pop_In in Hin.
  change x with (fst (x, v')). now apply in_map.
Qed.

Lemma keyed_set (O : dict) e :
  Inv.keyed O -> PyStr.truthy (_task_key e) = true ->
  Inv.keyed (Dict.set O (_task_key e) e).
Proof.
  intros [Hu He] Ht. split; [now apply uniq_set|].
  intros k v Hin. apply set_In in Hin as [[= -> ->]|Hin]; [now split | now apply He].
Qed.

Lemma keyed_pop (O : dict) k : Inv.keyed O -> Inv.keyed (Dict.pop O k).
Proof.
  intros [Hu He]. split; [now apply uniq_pop|].
  intros k' v Hin. apply He. now apply pop_In in Hin.
Qed.

Lemma keyed_seed (O : dict) e : Inv.keyed O -> Inv.keyed (seed_step O e).
Proof.
  intros H. unfold seed_step.
  destruct (PyStr.truthy (_task_key e)) eqn:Ht; [now apply keyed_set | exact H].
Qed.

Lemma keyed_remove (O : dict) rid : Inv.keyed O -> Inv.keyed (remove_step O rid).
Proof.
  intros H. destruct rid; simpl; try exact H.
  destruct (Dict.has O s); [now apply keyed_pop | exact H].
Qed.

Lemma keyed_task (O : dict) e : Inv.keyed O -> Inv.keyed (task_step O e).
Proof.
  intros H. unfold task_step.
  destruct (PyStr.truthy (_task_key e)) eqn:Ht; [|exact H].
  destruct (is_disabled e); [now apply keyed_pop | now apply keyed_set].
Qed.

Lemma keyed_fold (step : dict -> value -> dict) :
  (forall O e, Inv.keyed O -> Inv.keyed (step O e)) ->
  forall l O, Inv.keyed O -> Inv.keyed (fold_left step l O).
Proof.
  intros Hs. induction l as [|e l IH]; intros O H; simpl; [exact H|].
  apply IH. now apply Hs.
Qed.

(** The ordered dict [_merge_event_sections] ends with. *)
Lemma keyed_merged a b :
  Inv.keyed
    (fold_left task_step (section_tasks (_normalize_event_section b))
       (apply_removes (Dict.get (_normalize_event_section b) "remove")
          (fold_left seed_step (section_tasks (_normalize_event_section a)) []))).
Proof.
  apply (keyed_fold task_step keyed_task).
  assert (Hseed : Inv.keyed
            (fold_left seed_step (section_tasks (_normalize_event_section a)) [])).
  { apply (keyed_fold seed_step keyed_seed). split; [reflexivity | intros k v []]. }
  unfold apply_removes.
  destruct (Dict.get (_normalize_event_section b) "remove") as [x|]; [|exact Hseed].
  destruct x; try exact Hseed.
  now apply (keyed_fold remove_step keyed_remove).
Qed.

Lemma keyed_identities (O : dict) :
  Inv.keyed O -> map _task_key (Dict.values O) = Dict.keys O.
Proof.
  intros [_ He]. unfold Dict.values, Dict.keys. rewrite map_map.
  apply map_ext_in. intros [k v] Hin. simpl. now apply He.
Qed.

Lemma keyed_distinct (O : dict) :
  Inv.keyed O -> Inv.distinct_identities (Dict.values O) = true.
Proof.
  intros H. unfold Inv.distinct_identities.
  rewrite (keyed_identities O H). destruct H as [Hu He]. rewrite Hu. simpl.
  apply forallb_forall. intros e Hin. unfold Dict.values in Hin.
  apply in_map_iff in Hin as [[k v] [<- Hin]]. simpl.
  destruct (He k v Hin) as [-> Ht]. exact Ht.
Qed.

(** An identity absent from the ordered dict stays absent while entries
    of other identities are applied. *)
Lemma task_steps_absent k : forall l (O : dict),
  ~ In k (Dict.keys O) ->
  (forall x, In x l -> _task_key x <> k) ->
  ~ In k (Dict.keys (fold_left task_step l O)).
Proof.
  induction l as [|x l IH]; intros O Hn Hl; simpl; [exact Hn|].
  apply IH; [|intros y Hy; apply Hl; now right].
  unfold task_step. destruct (PyStr.truthy (_task_key x)); [|exact Hn].
  destruct (is_disabled x).
  - intros Hin. apply Hn. now apply keys_pop_incl in Hin.
  - intros Hin. apply keys_set_incl in Hin as [->|Hin]; [|tauto].
    apply (Hl x); [now left | reflexivity].
Qed.

Lemma merged_distinct a b :
  exists ts,
    Dict.get (_merge_event_sections a b) "tasks" = Some (VList ts)
    /\ Inv.distinct_identities ts = true.
Proof.
  eexists. split.
  - unfold _merge_event_sections. apply DictFacts.get_set_eq.
  - apply keyed_distinct, keyed_merged.
Qed.

End SectionFacts.

(** X3.  Whatever two sections are merged, the result has a task list, every
    task in it has a non-empty identity, and no two tasks share one. *)
Theorem merged_section_identities :
  forall a b : value,
    exists ts,
      Dict.get (_merge_event_sections a b) "tasks" = Some (VList ts)
      /\ Inv.distinct_identities ts = true.
Proof.
  intros a b. apply SectionFacts.merged_distinct.
Qed.

(** X4.  An override entry flagged [disabled] removes its identity: when no
    later entry of the override has the same identity, the merged section
    has no task of that identity, inherited or not. *)
Theorem disabled_entry_removes_identity :
  forall (a b : value) (before after : list value) (e : value),
    section_tasks (_normalize_event_section b) = before ++ e :: after ->
    is_disabled e = true ->
    (forall x, In x after -> _task_key x <> _task_key e) ->
    ~ In (_task_key e)
        (map _task_key (section_tasks (_merge_event_sections a b))).
Proof.
  intros a b before after e Hb Hdis Hafter.
  rewrite ConfigFacts.merged_tasks, Hb.
  set (O := apply_removes _ _).
  assert (HO : Inv.keyed O).
  { subst O. pose proof (SectionFacts.keyed_merged a (VDict [("tasks", VList [])])) as H.
    simpl in H. unfold apply_removes.
    destruct (Dict.get (_normalize_event_section b) "remove") as [x|]; [|exact H].
    destruct x; try exact H.
    now apply (SectionFacts.keyed_fold remove_step SectionFacts.keyed_remove). }
  rewrite fold_left_app. simpl fold_left.
  set (O1 := fold_left task_step before O).
  assert (HO1 : Inv.keyed O1)
    by (apply (SectionFacts.keyed_fold task_step SectionFacts.keyed_task); exact HO).
  assert (Hfin : Inv.keyed (fold_left task_step after (task_step O1 e))).
  { apply (SectionFacts.keyed_fold task_step SectionFacts.keyed_task).
    now apply SectionFacts.keyed_task. }
  rewrite (SectionFacts.keyed_identities _ Hfin).
  apply SectionFacts.task_steps_absent; [|exact Hafter].
  unfold task_step. rewrite Hdis.
  destruct (PyStr.truthy (_task_key e)) eqn:Ht.
  - apply SectionFacts.pop_absent. apply HO1.
  - intros Hin. unfold Dict.keys in Hin.
    apply in_map_iff in Hin as [[k v] [Hk Hin]]. simpl in Hk. subst k.
    destruct HO1 as [_ He]. destruct (He _ _ Hin) as [_ Ht']. congruence.
Qed.

(** The theorem on a base of two tasks and an override that disables the
    first. *)
Lemma disabled_entry_removes_identity_witness :
  ~ In "a.check"
      (map _task_key
         (section_tasks
            (_merge_event_sections
               (VList [VStr "a.check"; VStr "b.check"])
               (VList [VDict [("ref", VStr "a.check"); ("disabled", VBool true)];
                       VStr "c.check"])))).
Proof.
  apply (disabled_entry_removes_identity
           (VList [VStr "a.check"; VStr "b.check"])
           (VList [VDict [("ref", VStr "a.check"); ("disabled", VBool true)];
                   VStr "c.check"])
           [] [VStr "c.check"]
           (VDict [("ref", VStr "a.check"); ("disabled", VBool true)])).
  - reflexivity.
  - reflexivity.
  - intros x [<-|[]]. vm_compute. discriminate.
Defined.

(* ===================================================================== *)
(** ** What a load returns *)
(* ===================================================================== *)

Module LoadedFacts.

Lemma get_without_same {V} (d : list (string * V)) k :
  Dict.get (Dict.without k d) k = None.
Proof.
  unfold Dict.without. induction d as [|[k' v'] r IH]; simpl; [reflexivity|].
  destruct (String.eqb k' k) eqn:E; simpl; [exact IH|].
  rewrite String.eqb_sym, E. exact IH.
Qed.

Lemma get_without_other {V} (d : list (string * V)) key k :
  k <> key -> Dict.get (Dict.without key d) k = Dict.get d k.
Proof.
  intros Hne. unfold Dict.without.
  induction d as [|[k' v'] r IH]; simpl; [reflexivity|].
  destruct (String.eqb k' key) eqn:E; simpl.
  - apply String.eqb_eq in E. subst k'.
    rewrite (proj2 (String.eqb_neq _ _) Hne). exact IH.
  - destruct (String.eqb k k'); [reflexivity | exact IH].
Qed.

Lemma config_step_has (out : dict) kv k :
  Dict.has out k = true -> Dict.has (config_step out kv) k = true.
Proof.
  destruct kv as [k' v']. unfold Dict.has. intros H.
  destruct (String.eqb k k') eqn:E.
  - apply String.eqb_eq in E. subst k'. unfold config_step.
    destruct (is_event_key k); [now rewrite DictFacts.get_set_eq|].
    destruct (Dict.get out k) as [x|]; [destruct x|]; destruct v';
      now rewrite DictFacts.get_set_eq.
  - apply String.eqb_neq in E. now rewrite MergeFacts.config_step_get.
Qed.

Lemma merge_configs_has : forall (b a : dict) k,
  Dict.has a k = true -> Dict.has (_merge_configs a b) k = true.
Proof.
  unfold _merge_configs. induction b as [|kv b IH]; intros a k H; simpl; [exact H|].
  apply IH. now apply config_step_has.
Qed.

Lemma config_step_normal (out : dict) kv ev :
  In ev _EVENT_KEYS ->
  Inv.section_normal out ev -> Inv.section_normal (config_step out kv) ev.
Proof.
  destruct kv as [k v]. intros Hev H. unfold Inv.section_normal.
  destruct (String.eqb ev k) eqn:E.
  - apply String.eqb_eq in E. subst k. unfold config_step, is_event_key.
    rewrite (proj2 (mem_In _ _) Hev). rewrite DictFacts.get_set_eq.
    destruct (SectionFacts.merged_distinct
                (match Dict.get out ev with
                 | Some s => s
                 | None => VDict empty_section
                 end) v) as [ts [H1 H2]].
    eexists. exists ts. split; [reflexivity | split; assumption].
  - apply String.eqb_neq in E. rewrite MergeFacts.config_step_get by exact E.
    exact H.
Qed.

Lemma merge_configs_normal ev : forall (b a : dict),
  In ev _EVENT_KEYS ->
  Inv.section_normal a ev -> Inv.section_normal (_merge_configs a b) ev.
Proof.
  unfold _merge_configs. induction b as [|kv b IH]; intros a Hev H; simpl; [exact H|].
  apply IH; [exact Hev|]. now apply config_step_normal.
Qed.

Section Facts.
Variable P : PathLib.
Variable E : ConfigEnv.

(** The loop ends with the current document merged over what it
    extends. *)
Lemma extends_loop_result resolve cur base : forall items merged seen r s',
  (forall data o s r' s'', resolve data o s = Some (r', s'') ->
                           Dict.get r' "extends" = None) ->
  Dict.get merged "extends" = None ->
  extends_loop P E resolve cur base items merged seen = Some (r, s') ->
  exists m, r = _merge_configs m cur /\ Dict.get m "extends" = None.
Proof.
  induction items as [|raw rest IH]; intros merged seen r s' Hres Hm;
    cbn [extends_loop].
  - intros [= <- _]. now exists merged.
  - destruct (stripped_str (Some raw)) as [token|]; [|now apply IH].
    destruct (PyStr.mem (cycle_key P base token) seen); [now apply IH|].
    destruct (_load_one P E token base) as [[data|] co]; [|now apply IH].
    destruct (resolve data co (cycle_key P base token :: seen))
      as [[child s2]|] eqn:R; [|discriminate].
    apply IH; [exact Hres|].
    rewrite MergeFacts.configs_untouched; [exact Hm|].
    exact (Hres _ _ _ _ _ R).
Qed.

Lemma resolve_result : forall fuel cfg origin seen r s',
  _resolve_extends P E fuel cfg origin seen = Some (r, s') ->
  Dict.get r "extends" = None
  /\ (r = Dict.without "extends" cfg
      \/ exists m, r = _merge_configs m (Dict.without "extends" cfg)).
Proof.
  induction fuel as [|fuel IH]; intros cfg origin seen r s' H.
  - simpl in H.
    destruct (Dict.get cfg "extends") as [[ | | | | [|i items] | ]|] eqn:X;
      try (injection H as <- _; split; [apply get_without_same | now left]).
    apply extends_loop_result in H as [m [-> Hm]];
      [|intros; discriminate | reflexivity].
    split; [|right; now exists m].
    rewrite MergeFacts.configs_untouched; [exact Hm | apply get_without_same].
  - simpl in H.
    destruct (Dict.get cfg "extends") as [[ | | | | [|i items] | ]|] eqn:X;
      try (injection H as <- _; split; [apply get_without_same | now left]).
    apply extends_loop_result in H as [m [-> Hm]];
      [|intros data o s r' s'' Hr; exact (proj1 (IH _ _ _ _ _ Hr)) | reflexivity].
    split; [|right; now exists m].
    rewrite MergeFacts.configs_untouched; [exact Hm | apply get_without_same].
Qed.

Lemma load_sources_keeps (Q : dict -> Prop) fuel :
  (forall a b, Dict.get b "extends" = None -> Q a -> Q (_merge_configs a b)) ->
  forall sources result seen cfg,
    Q result ->
    load_sources P E fuel sources result seen = Loaded cfg -> Q cfg.
Proof.
  intros HQ. induction sources as [|src rest IH]; intros result seen cfg Hr; simpl.
  - now intros [= <-].
  - destruct (_load_one P E src None) as [[data|] origin]; [|now apply IH].
    destruct (_resolve_extends P E fuel data origin seen) as [[r s']|] eqn:R;
      [|discriminate].
    apply IH. apply HQ; [|exact Hr]. exact (proj1 (resolve_result _ _ _ _ _ _ R)).
Qed.

Lemma loaded_keeps (Q : dict -> Prop) fuel key cfg :
  (forall a b, Dict.get b "extends" = None -> Q a -> Q (_merge_configs a b)) ->
  Q _DEFAULTS ->
  _load_config_cached P E fuel key = Loaded cfg -> Q cfg.
Proof.
  intros HQ H0. unfold _load_config_cached.
  destruct (sources_of P E key) as [|s l]; [discriminate|].
  now apply load_sources_keeps.
Qed.

End Facts.
End LoadedFacts.

(** X5.  Every configuration a load returns is complete: it has every key of
    the defaults, no [extends] key, and for each of the nine events a
    section with a task list whose entries have pairwise different,
    non-empty identities -- whatever the documents hold. *)
Theorem loaded_config_is_normal :
  forall (P : PathLib) (E : ConfigEnv) (fuel : nat) (key : option (list string))
         (cfg : dict),
    _load_config_cached P E fuel key = Loaded cfg ->
    Dict.get cfg "extends" = None
    /\ (forall k, In k (Dict.keys _DEFAULTS) -> Dict.has cfg k = true)
    /\ (forall ev, In ev _EVENT_KEYS -> Inv.section_normal cfg ev).
Proof.
  intros P E fuel key cfg H. split; [|split].
  - apply (LoadedFacts.loaded_keeps P E (fun c => Dict.get c "extends" = None)
             fuel key cfg); [|reflexivity|exact H].
    intros a b Hb Ha. now rewrite MergeFacts.configs_untouched.
  - intros k Hk.
    apply (LoadedFacts.loaded_keeps P E (fun c => Dict.has c k = true)
             fuel key cfg); [| |exact H].
    + intros a b _ Ha. now apply LoadedFacts.merge_configs_has.
    + now apply DictFacts.has_In.
  - intros ev Hev.
    apply (LoadedFacts.loaded_keeps P E (fun c => Inv.section_normal c ev)
             fuel key cfg); [| |exact H].
    + intros a b _ Ha. now apply LoadedFacts.merge_configs_normal.
    + simpl in Hev.
      repeat (destruct Hev as [<-|Hev];
              [exists [("tasks", VList [])], []; repeat split|]).
      contradiction.
Qed.

(** The theorem on the project whose two files extend each other. *)
Lemma loaded_config_is_normal_witness :
  exists cfg,
    _load_config_cached Host.posix Host.cyclic_env 2 None = Loaded cfg
    /\ Dict.get cfg "extends" = None
    /\ (forall k, In k (Dict.keys _DEFAULTS) -> Dict.has cfg k = true)
    /\ (forall ev, In ev _EVENT_KEYS -> Inv.section_normal cfg ev).
Proof.
  eexists. split; [vm_compute; reflexivity|].
  apply (loaded_config_is_normal Host.posix Host.cyclic_env 2 None).
  vm_compute. reflexivity.
Defined.

(** X6.  A document's own settings win over everything it extends: outside the
    event sections, a key the document gives a value that is no mapping
    has that value in the resolved document. *)
Theorem extends_child_overrides_parents :
  forall (P : PathLib) (E : ConfigEnv) (fuel : nat) (cfg : dict)
         (origin : option string) (seen : list string) (r : dict)
         (seen' : list string) (k : string) (v : value),
    _resolve_extends P E fuel cfg origin seen = Some (r, seen') ->
    uniq (Dict.keys cfg) = true ->
    Dict.get cfg k = Some v ->
    k <> "extends" ->
    is_event_key k = false ->
    (forall d, v <> VDict d) ->
    Dict.get r k = Some v.
Proof.
  intros P E fuel cfg origin seen r seen' k v H Hu Hk Hne Hev Hv.
  destruct (LoadedFacts.resolve_result P E _ _ _ _ _ _ H) as [_ [->|[m ->]]].
  - now rewrite LoadedFacts.get_without_other.
  - rewrite (MergeFacts.configs_override _ m k v).
    + rewrite Hev. unfold Inv.merged_value.
      destruct (Dict.get m k) as [x|]; [destruct x|]; destruct v;
        try reflexivity; exfalso; eapply Hv; reflexivity.
    + now apply DictFacts.uniq_filter.
    + now rewrite LoadedFacts.get_without_other.
Qed.

(** The theorem on [hooks.yml] of the cyclic project: its timeout of 20
    stands, whatever [base.yml] says. *)
Lemma extends_child_overrides_parents_witness :
  exists r seen',
    _resolve_extends Host.posix Host.cyclic_env 2
      [("extends", VList [VStr "base.yml"]); ("default_timeout", VInt 20)]
      (Some "/work/hooks.yml") []
    = Some (r, seen')
    /\ Dict.get r "default_timeout" = Some (VInt 20).
Proof.
  eexists. eexists. split; [vm_compute; reflexivity|].
  eapply (extends_child_overrides_parents Host.posix Host.cyclic_env 2
           [("extends", VList [VStr "base.yml"]); ("default_timeout", VInt 20)]
           (Some "/work/hooks.yml") [] _ _ "default_timeout" (VInt 20)).
  - vm_compute. reflexivity.
  - reflexivity.
  - reflexivity.
  - discriminate.
  - reflexivity.
  - discriminate.
Defined.

(** X7.  With [CLAUDE_HOOKS_CONFIG] set, discovery looks at that path and no
    other: when it does not exist, a load without explicit sources is
    fatal even if the project has a [hooks.yml]. *)
Theorem env_override_replaces_discovery :
  forall (P : PathLib) (E : ConfigEnv) (fuel : nat) (p : string),
    env_CLAUDE_HOOKS_CONFIG E = Some p ->
    p <> "" ->
    sources_of P E None = (if exists_ E p then [p] else [])
    /\ (exists_ E p = false ->
        exists msg, load_config P E fuel None = RuntimeError msg).
Proof.
  intros P E fuel p Henv Hp.
  assert (Hs : sources_of P E None = (if exists_ E p then [p] else [])).
  { unfold sources_of, _candidate_paths. rewrite Henv.
    destruct p as [|c r]; [congruence|]. simpl.
    destruct (exists_ E (String c r)); reflexivity. }
  split; [exact Hs|].
  intros Hex. unfold load_config, _load_config_cached. rewrite Hs, Hex.
  eexists. reflexivity.
Qed.

(** The theorem on a project that has a [hooks.yml] while the variable
    names a file that is not there. *)
Lemma env_override_replaces_discovery_witness :
  let E := {| env_CLAUDE_HOOKS_CONFIG := Some "/etc/hooks.yml";
              getcwd := "/work";
              files := files Host.no_tasks_env;
              examples := [] |} in
  exists_ E "/work/hooks.yml" = true
  /\ exists msg, load_config Host.posix E 1 None = RuntimeError msg.
Proof.
  cbv zeta. split; [reflexivity|].
  apply (env_override_replaces_discovery Host.posix
           {| env_CLAUDE_HOOKS_CONFIG := Some "/etc/hooks.yml";
              getcwd := "/work";
              files := files Host.no_tasks_env;
              examples := [] |} 1 "/etc/hooks.yml").
  - reflexivity.
  - discriminate.
  - reflexivity.
Defined.

(* ===================================================================== *)
(** ** The feedback store, operation by operation *)
(* ===================================================================== *)

Module StoreFacts.
Import Feedback.

Lemma not_blank content_ :
  PyStr.strip content_ <> "" ->
  negb (PyStr.truthy content_) || negb (PyStr.truthy (PyStr.strip content_)) = false.
Proof.
  intros Hne. destruct content_ as [|c r]; [now elim Hne|]. simpl.
  destruct (PyStr.strip (String c r)); [now elim Hne | reflexivity].
Qed.

Lemma rows_insert sid t (st : fstore) :
  Inv.feedback_rows sid (<[db_name sid := t]> st) = t.
Proof. unfold Inv.feedback_rows. now rewrite lookup_insert_eq. Qed.

Lemma select_absent iid : forall t,
  (forall r, In r t -> issue_id r <> iid) -> select_issue t iid = None.
Proof.
  unfold select_issue. induction t as [|x t IH]; intros H; simpl; [reflexivity|].
  destruct (String.eqb (issue_id x) iid) eqn:E.
  - apply String.eqb_eq in E. exfalso. apply (H x); [now left | exact E].
  - apply IH. intros r Hr. apply H. now right.
Qed.

Lemma select_app_absent iid t' : forall t,
  (forall r, In r t -> issue_id r <> iid) ->
  select_issue (t ++ t') iid = select_issue t' iid.
Proof.
  unfold select_issue. induction t as [|x t IH]; intros H; simpl; [reflexivity|].
  destruct (String.eqb (issue_id x) iid) eqn:E.
  - apply String.eqb_eq in E. exfalso. apply (H x); [now left | exact E].
  - apply IH. intros r Hr. apply H. now right.
Qed.

Lemma update_absent f iid : forall t,
  (forall r, In r t -> issue_id r <> iid) -> update_issue f iid t = t.
Proof.
  unfold update_issue. induction t as [|x t IH]; intros H; simpl; [reflexivity|].
  rewrite IH by (intros r Hr; apply H; now right).
  destruct (String.eqb (issue_id x) iid) eqn:E; [|reflexivity].
  apply String.eqb_eq in E. exfalso. apply (H x); [now left | exact E].
Qed.

Lemma update_app f iid t t' :
  update_issue f iid (t ++ t') = update_issue f iid t ++ update_issue f iid t'.
Proof. unfold update_issue. apply map_app. Qed.

Lemma cleanup_In t now w r : In r (_cleanup_expired t now w) -> In r t.
Proof. unfold _cleanup_expired. intros H. now apply List.filter_In in H. Qed.

Lemma cleanup_app t t' now w :
  _cleanup_expired (t ++ t') now w
  = _cleanup_expired t now w ++ _cleanup_expired t' now w.
Proof. unfold _cleanup_expired. apply List.filter_app. Qed.

Section Record.
Variable sha : string -> string.
Variable P : PathLib.

(** [record_feedback] on content that is not blank, in terms of the rows
    of the session. *)
Lemma record_rows content_ task sid file sev cat strat now (st : fstore) :
  PyStr.strip content_ <> "" ->
  let iid := _issue_id sha P task file (PyStr.strip content_) in
  let inst := _content_hash sha (PyStr.strip content_) in
  let T := _cleanup_expired (Inv.feedback_rows sid st) now DEFAULT_DEDUP_WINDOW in
  let r := record_feedback sha P content_ task sid file sev cat strat now st in
  match select_issue T iid with
  | Some row =>
      fst r = seen_again inst (PyStr.strip content_) now row
      /\ Inv.feedback_rows sid (snd r)
         = update_issue (seen_again inst (PyStr.strip content_) now) iid T
  | None =>
      let new := {| instance_id := inst; issue_id := iid;
                    content := PyStr.strip content_; task_id := task;
                    severity := sev; category := cat; file_path := file;
                    strategy := strat; first_seen := now; last_seen := now;
                    occurrence_count := 1; times_shown := 0 |} in
      fst r = new /\ Inv.feedback_rows sid (snd r) = T ++ [new]
  end.
Proof.
  intros Hne iid inst T r. subst r. unfold record_feedback.
  rewrite (not_blank _ Hne). unfold _get_connection, commit.
  fold (Inv.feedback_rows sid st). fold iid. fold inst. fold T.
  destruct (select_issue T iid) as [row|]; simpl; split;
    try reflexivity; apply rows_insert.
Qed.

End Record.

Lemma mark_rows iid sid (st : fstore) :
  Inv.feedback_rows sid (mark_shown iid sid st)
  = update_issue shown_once_more iid (Inv.feedback_rows sid st).
Proof.
  unfold mark_shown, _get_connection, commit.
  fold (Inv.feedback_rows sid st). apply rows_insert.
Qed.

End StoreFacts.

Module RepeatFacts.

(** Recording the same issue twice, marked shown in between. *)
Lemma record_twice :
  forall (sha : string -> string) (P : PathLib) (content task sid : string)
         (file sev cat : option string) (now1 now2 : Z) (st : Feedback.fstore),
    PyStr.strip content <> "" ->
    (forall r, In r (Inv.feedback_rows sid st) ->
               Feedback.issue_id r
               <> Feedback._issue_id sha P task file (PyStr.strip content)) ->
    let first := Feedback.record_feedback sha P content task sid file sev cat
                   "show_once" now1 st in
    let st2 := Feedback.mark_shown (Feedback.issue_id (fst first)) sid (snd first) in
    let second := Feedback.record_feedback sha P content task sid file sev cat
                    "show_once" now2 st2 in
    let expired := (now1 <? now2 - Feedback.DEFAULT_DEDUP_WINDOW)%Z in
    Feedback.should_show_feedback (fst first) = true
    /\ Feedback.should_show_feedback (fst second) = expired
    /\ Feedback.occurrence_count (fst second) = (if expired then 1 else 2)%Z
    /\ Feedback.times_shown (fst second) = (if expired then 0 else 1)%Z
    /\ Feedback.first_seen (fst second) = (if expired then now2 else now1).
Proof.
  intros sha P content task sid file sev cat now1 now2 st Hne Hnew
    first st2 second expired.
  set (iid := Feedback._issue_id sha P task file (PyStr.strip content)) in *.
  set (T1 := Feedback._cleanup_expired (Inv.feedback_rows sid st) now1
               Feedback.DEFAULT_DEDUP_WINDOW).
  assert (HT1 : forall r, In r T1 -> Feedback.issue_id r <> iid).
  { intros r Hr. apply Hnew. now apply StoreFacts.cleanup_In in Hr. }
  (* the first record inserts a row *)
  pose proof (StoreFacts.record_rows sha P content task sid file sev cat
                "show_once" now1 st Hne) as H1.
  cbv zeta in H1. fold iid in H1. fold T1 in H1. fold first in H1.
  rewrite (StoreFacts.select_absent iid T1 HT1) in H1.
  destruct H1 as [Hi1 Hr1].
  (* marking it shown *)
  assert (Hr2 : Inv.feedback_rows sid st2
                = T1 ++ [Feedback.shown_once_more (fst first)]).
  { subst st2. rewrite StoreFacts.mark_rows, Hr1, StoreFacts.update_app.
    rewrite StoreFacts.update_absent.
    - rewrite Hi1. simpl. now rewrite String.eqb_refl.
    - intros r Hr. rewrite Hi1. simpl. now apply HT1. }
  (* the second record *)
  pose proof (StoreFacts.record_rows sha P content task sid file sev cat
                "show_once" now2 st2 Hne) as H2.
  cbv zeta in H2. fold iid in H2. fold second in H2.
  rewrite Hr2, StoreFacts.cleanup_app in H2.
  rewrite StoreFacts.select_app_absent in H2
    by (intros r Hr; apply HT1; now apply StoreFacts.cleanup_In in Hr).
  rewrite Hi1 in H2. simpl in H2. fold expired in H2.
  split; [rewrite Hi1; reflexivity|].
  destruct expired; simpl in H2.
  - destruct H2 as [-> _]. repeat split.
  - rewrite String.eqb_refl in H2. destruct H2 as [-> _]. repeat split.
Qed.

End RepeatFacts.

(** X8.  Show-once feedback over two invocations.  An issue new to the session
    is recorded at [now1], shown and marked shown; the same content of the
    same task and file is recorded again at [now2].  The first item is to
    be shown.  The second is to be shown exactly when the first has
    expired by then (it was last seen more than the window before
    [now2]): within the window the repeat is counted and suppressed, after
    it the issue starts afresh. *)
Theorem show_once_repeat_is_shown_iff_expired :
  forall (sha : string -> string) (P : PathLib) (content task sid : string)
         (file sev cat : option string) (now1 now2 : Z) (st : Feedback.fstore),
    PyStr.strip content <> "" ->
    (forall r, In r (Inv.feedback_rows sid st) ->
               Feedback.issue_id r
               <> Feedback._issue_id sha P task file (PyStr.strip content)) ->
    let first := Feedback.record_feedback sha P content task sid file sev cat
                   "show_once" now1 st in
    let st2 := Feedback.mark_shown (Feedback.issue_id (fst first)) sid (snd first) in
    let second := Feedback.record_feedback sha P content task sid file sev cat
                    "show_once" now2 st2 in
    let expired := (now1 <? now2 - Feedback.DEFAULT_DEDUP_WINDOW)%Z in
    Feedback.should_show_feedback (fst first) = true
    /\ Feedback.should_show_feedback (fst second) = expired
    /\ Feedback.occurrence_count (fst second) = (if expired then 1 else 2)%Z
    /\ Feedback.times_shown (fst second) = (if expired then 0 else 1)%Z
    /\ Feedback.first_seen (fst second) = (if expired then now2 else now1).
Proof.
  intros sha P content task sid file sev cat now1 now2 st Hne Hnew.
  now apply RepeatFacts.record_twice.
Qed.

(** The theorem on a lint warning recorded at time 1000 and again 60
    seconds later. *)
Lemma show_once_repeat_is_shown_iff_expired_witness :
  let first := Feedback.record_feedback Host.digest Host.posix "unused import os"
                 "python.ruff" "s1" (Some "src/app.py") (Some "warn") (Some "lint")
                 "show_once" 1000 ∅ in
  let st2 := Feedback.mark_shown (Feedback.issue_id (fst first)) "s1" (snd first) in
  let second := Feedback.record_feedback Host.digest Host.posix "unused import os"
                  "python.ruff" "s1" (Some "src/app.py") (Some "warn") (Some "lint")
                  "show_once" 1060 st2 in
  Feedback.should_show_feedback (fst first) = true
  /\ Feedback.should_show_feedback (fst second) = false
  /\ Feedback.occurrence_count (fst second) = 2%Z
  /\ Feedback.times_shown (fst second) = 1%Z
  /\ Feedback.first_seen (fst second) = 1000%Z.
Proof.
  apply (show_once_repeat_is_shown_iff_expired Host.digest Host.posix
           "unused import os" "python.ruff" "s1" (Some "src/app.py")
           (Some "warn") (Some "lint") 1000 1060 ∅).
  - vm_compute. discriminate.
  - intros r Hr. vm_compute in Hr. contradiction.
Defined.

Module SessionFiles.

Lemma length_app (a b : string) :
  String.length (a +:+ b) = String.length a + String.length b.
Proof. induction a as [|c a IH]; simpl; [reflexivity | now rewrite IH]. Qed.

(** Two texts with the same ending appended are the same text. *)
Lemma app_inv_tail (s : string) : forall a b, a +:+ s = b +:+ s -> a = b.
Proof.
  induction a as [|c a IH]; intros [|d b] H.
  - reflexivity.
  - exfalso. apply (f_equal String.length) in H.
    change ("" +:+ s) with s in H.
    change (String d b +:+ s) with (String d (b +:+ s)) in H.
    simpl in H. rewrite length_app in H. lia.
  - exfalso. apply (f_equal String.length) in H.
    change ("" +:+ s) with s in H.
    change (String c a +:+ s) with (String c (a +:+ s)) in H.
    simpl in H. rewrite length_app in H. lia.
  - change (String c (a +:+ s) = String d (b +:+ s)) in H.
    injection H as -> H. f_equal. now apply IH.
Qed.

Lemma same_file sid sid' :
  Feedback.db_name sid' = Feedback.db_name sid
  <-> Inv.file_stem sid' = Inv.file_stem sid.
Proof.
  unfold Feedback.db_name. fold (Inv.file_stem sid). fold (Inv.file_stem sid').
  split; [apply app_inv_tail | now intros ->].
Qed.

End SessionFiles.

(** X9.  The feedback operations of one session touch one file, the
    session's own: every other file of the store stays as it is.  The
    files of two sessions are different exactly when the ids differ within
    their first 16 characters, the empty id counting as "default".  So the
    feedback of a session whose id differs there from the acting one is
    untouched, while sessions whose ids agree there share one file: the
    clean-up of one removes the feedback of the other. *)
Theorem feedback_sessions_isolated :
  forall (sha : string -> string) (P : PathLib) (content task sid : string)
         (file sev cat : option string) (strat iid : string) (m now : Z)
         (st : Feedback.fstore),
    (forall other : string,
       other <> Feedback.db_name sid ->
       snd (Feedback.record_feedback sha P content task sid file sev cat strat now st)
         !! other = st !! other
       /\ Feedback.mark_shown iid sid st !! other = st !! other
       /\ snd (Feedback.get_feedback_summary sid m now st) !! other = st !! other
       /\ snd (Feedback.get_deferred_feedback sid now st) !! other = st !! other
       /\ Feedback.cleanup_session sid st !! other = st !! other)
    /\ (forall sid' : string,
          Feedback.db_name sid' = Feedback.db_name sid
          <-> Inv.file_stem sid' = Inv.file_stem sid)
    /\ (forall sid' : string,
          Inv.file_stem sid' <> Inv.file_stem sid ->
          Inv.feedback_rows sid'
            (snd (Feedback.record_feedback sha P content task sid file sev cat strat
                    now st))
          = Inv.feedback_rows sid' st
          /\ Inv.feedback_rows sid' (Feedback.mark_shown iid sid st)
             = Inv.feedback_rows sid' st
          /\ Inv.feedback_rows sid' (snd (Feedback.get_feedback_summary sid m now st))
             = Inv.feedback_rows sid' st
          /\ Inv.feedback_rows sid' (snd (Feedback.get_deferred_feedback sid now st))
             = Inv.feedback_rows sid' st
          /\ Inv.feedback_rows sid' (Feedback.cleanup_session sid st)
             = Inv.feedback_rows sid' st)
    /\ (forall sid' : string,
          Inv.file_stem sid' = Inv.file_stem sid ->
          Inv.feedback_rows sid' (Feedback.cleanup_session sid st) = []).
Proof.
  intros sha P content task sid file sev cat strat iid m now st.
  assert (Hfiles : forall other : string,
            other <> Feedback.db_name sid ->
            snd (Feedback.record_feedback sha P content task sid file sev cat strat
                   now st) !! other = st !! other
            /\ Feedback.mark_shown iid sid st !! other = st !! other
            /\ snd (Feedback.get_feedback_summary sid m now st) !! other = st !! other
            /\ snd (Feedback.get_deferred_feedback sid now st) !! other = st !! other
            /\ Feedback.cleanup_session sid st !! other = st !! other).
  { intros other Hne.
    assert (Hne' : Feedback.db_name sid <> other) by congruence.
    repeat split.
    - unfold Feedback.record_feedback.
      destruct (negb (PyStr.truthy content) || negb (PyStr.truthy (PyStr.strip content)));
        [reflexivity|].
      unfold Feedback._get_connection, Feedback.commit.
      destruct (Feedback.select_issue _ _); simpl;
        now rewrite !lookup_insert_ne by exact Hne'.
    - unfold Feedback.mark_shown, Feedback._get_connection, Feedback.commit.
      now rewrite !lookup_insert_ne by exact Hne'.
    - unfold Feedback.get_feedback_summary, Feedback._get_connection, Feedback.commit.
      simpl. now rewrite !lookup_insert_ne by exact Hne'.
    - unfold Feedback.get_deferred_feedback, Feedback._get_connection, Feedback.commit.
      simpl. now rewrite !lookup_insert_ne by exact Hne'.
    - unfold Feedback.cleanup_session. now apply lookup_delete_ne. }
  split; [exact Hfiles|]. split; [intros sid'; apply SessionFiles.same_file|]. split.
  - intros sid' Hne.
    assert (Hn : Feedback.db_name sid' <> Feedback.db_name sid)
      by (intros H; apply Hne; now apply SessionFiles.same_file).
    destruct (Hfiles _ Hn) as [H1 [H2 [H3 [H4 H5]]]].
    unfold Inv.feedback_rows. now rewrite H1, H2, H3, H4, H5.
  - intros sid' He. apply SessionFiles.same_file in He.
    unfold Inv.feedback_rows, Feedback.cleanup_session.
    rewrite He. now rewrite lookup_delete_eq.
Qed.

(** The theorem on the sessions "s1" and "s2": what "s1" does leaves the
    stale row of "s2" in place.  The sessions "2024-06-01T10:00:00-a" and
    "2024-06-01T10:00:00-b" agree in their first 16 characters: the
    clean-up of the first removes the row of the second. *)
Lemma feedback_sessions_isolated_witness :
  let st : Feedback.fstore := {[ "s2.db" := [Host.stale_row] ]} in
  let shared : Feedback.fstore :=
    {[ Feedback.db_name "2024-06-01T10:00:00-b" := [Host.stale_row] ]} in
  snd (Feedback.record_feedback Host.digest Host.posix "unused import os"
         "python.ruff" "s1" None None None "show_once" 1000 st) !! "s2.db"
  = Some [Host.stale_row]
  /\ Feedback.cleanup_session "s1" st !! "s2.db" = Some [Host.stale_row]
  /\ Inv.feedback_rows "2024-06-01T10:00:00-b" shared = [Host.stale_row]
  /\ Inv.feedback_rows "2024-06-01T10:00:00-b"
       (Feedback.cleanup_session "2024-06-01T10:00:00-a" shared) = [].
Proof.
  cbv zeta.
  destruct (feedback_sessions_isolated Host.digest Host.posix "unused import os"
              "python.ruff" "s1" None None None "show_once" "" 2 1000
              {[ "s2.db" := [Host.stale_row] ]}) as [Hfiles _].
  destruct (Hfiles "s2.db") as [H1 [_ [_ [_ H5]]]]; [vm_compute; discriminate|].
  destruct (feedback_sessions_isolated Host.digest Host.posix "unused import os"
              "python.ruff" "2024-06-01T10:00:00-a" None None None "show_once" "" 2
              1000 {[ Feedback.db_name "2024-06-01T10:00:00-b" := [Host.stale_row] ]})
    as [_ [_ [_ Hshared]]].
  split; [rewrite H1; reflexivity|].
  split; [rewrite H5; reflexivity|].
  split; [vm_compute; reflexivity|].
  apply Hshared. vm_compute. reflexivity.
Defined.

Module OrderFacts.

Lemma insert_ordered {A} (le : A -> A -> bool) x :
  (forall a b, le a b = false -> le b a = true) ->
  forall l, Inv.ordered le l = true -> Inv.ordered le (Sql.insert_by le x l) = true.
Proof.
  intros Htot. induction l as [|y r IH]; intros Ho; [reflexivity|].
  cbn [Sql.insert_by]. destruct (le x y) eqn:Exy.
  - cbn [Inv.ordered]. now rewrite Exy.
  - apply Htot in Exy. destruct r as [|z r'].
    + simpl. now rewrite Exy.
    + cbn [Inv.ordered] in Ho. apply andb_prop in Ho as [Hyz Hr].
      specialize (IH Hr). cbn [Sql.insert_by] in IH |- *.
      destruct (le x z) eqn:Exz.
      * cbn [Inv.ordered] in IH |- *. now rewrite Exy.
      * cbn [Inv.ordered] in IH |- *. now rewrite Hyz.
Qed.

Lemma order_by_ordered {A} (le : A -> A -> bool) :
  (forall a b, le a b = false -> le b a = true) ->
  forall l, Inv.ordered le (Sql.order_by le l) = true.
Proof.
  intros Htot. unfold Sql.order_by.
  induction l as [|x l IH]; [reflexivity|]. simpl.
  now apply insert_ordered.
Qed.

Lemma insert_length {A} (le : A -> A -> bool) x : forall l,
  length (Sql.insert_by le x l) = S (length l).
Proof.
  induction l as [|y r IH]; [reflexivity|]. simpl.
  destruct (le x y); simpl; [reflexivity | now rewrite IH].
Qed.

Lemma order_by_length {A} (le : A -> A -> bool) (l : list A) :
  length (Sql.order_by le l) = length l.
Proof.
  unfold Sql.order_by. induction l as [|x l IH]; [reflexivity|]. simpl.
  now rewrite insert_length, IH.
Qed.

Lemma desc_total {A} (key : A -> Z) a b :
  Sql.desc key a b = false -> Sql.desc key b a = true.
Proof. unfold Sql.desc. intros H. apply Z.leb_gt in H. apply Z.leb_le. lia. Qed.

Lemma asc_total {A} (key : A -> Z) a b :
  Sql.asc key a b = false -> Sql.asc key b a = true.
Proof. unfold Sql.asc. intros H. apply Z.leb_gt in H. apply Z.leb_le. lia. Qed.

End OrderFacts.

(** X10.  [get_feedback_summary] returns exactly the rows of the session that
    have not expired and have occurred at least [min_occurrences] times,
    most recently seen first; the expired rows are deleted from the store
    on the way. *)
Theorem feedback_summary_rows :
  forall (sid : string) (min_occurrences now : Z) (st : Feedback.fstore),
    let res := Feedback.get_feedback_summary sid min_occurrences now st in
    (forall r, In r (fst res)
               <-> In r (Inv.feedback_rows sid st)
                   /\ (now - Feedback.DEFAULT_DEDUP_WINDOW <= Feedback.last_seen r)%Z
                   /\ (min_occurrences <= Feedback.occurrence_count r)%Z)
    /\ Inv.ordered (Sql.desc Feedback.last_seen) (fst res) = true
    /\ Inv.feedback_rows sid (snd res)
       = Feedback._cleanup_expired (Inv.feedback_rows sid st) now
           Feedback.DEFAULT_DEDUP_WINDOW.
Proof.
  intros sid m now st res. subst res.
  unfold Feedback.get_feedback_summary, Feedback._get_connection, Feedback.commit.
  fold (Inv.feedback_rows sid st). cbn [fst snd]. split; [|split].
  - intros r. rewrite FeedbackFacts.order_by_In, List.filter_In.
    unfold Feedback._cleanup_expired. rewrite List.filter_In.
    rewrite negb_true_iff, Z.ltb_ge, Z.leb_le. tauto.
  - apply OrderFacts.order_by_ordered. apply OrderFacts.desc_total.
  - apply StoreFacts.rows_insert.
Qed.

(** X11.  [get_deferred_feedback] returns exactly the rows of the session that
    have not expired and whose strategy is "defer", oldest first; the
    expired rows are deleted from the store on the way. *)
Theorem deferred_feedback_rows :
  forall (sid : string) (now : Z) (st : Feedback.fstore),
    let res := Feedback.get_deferred_feedback sid now st in
    (forall r, In r (fst res)
               <-> In r (Inv.feedback_rows sid st)
                   /\ (now - Feedback.DEFAULT_DEDUP_WINDOW <= Feedback.last_seen r)%Z
                   /\ Feedback.strategy r = "defer")
    /\ Inv.ordered (Sql.asc Feedback.first_seen) (fst res) = true
    /\ (forall r, In r (fst res) -> Feedback.should_show_feedback r = false)
    /\ Inv.feedback_rows sid (snd res)
       = Feedback._cleanup_expired (Inv.feedback_rows sid st) now
           Feedback.DEFAULT_DEDUP_WINDOW.
Proof.
  intros sid now st res. subst res.
  unfold Feedback.get_deferred_feedback, Feedback._get_connection, Feedback.commit.
  fold (Inv.feedback_rows sid st). cbn [fst snd].
  assert (Hin : forall r,
            In r (Sql.order_by (Sql.asc Feedback.first_seen)
                    (List.filter (fun r => String.eqb (Feedback.strategy r) "defer")
                       (Feedback._cleanup_expired (Inv.feedback_rows sid st) now
                          Feedback.DEFAULT_DEDUP_WINDOW)))
            <-> In r (Inv.feedback_rows sid st)
                /\ (now - Feedback.DEFAULT_DEDUP_WINDOW <= Feedback.last_seen r)%Z
                /\ Feedback.strategy r = "defer").
  { intros r. rewrite FeedbackFacts.order_by_In, List.filter_In.
    unfold Feedback._cleanup_expired. rewrite List.filter_In.
    rewrite negb_true_iff, Z.ltb_ge, String.eqb_eq. tauto. }
  split; [exact Hin|]. split; [|split].
  - apply OrderFacts.order_by_ordered. apply OrderFacts.asc_total.
  - intros r Hr. apply Hin in Hr as [_ [_ Hs]].
    unfold Feedback.should_show_feedback. now rewrite Hs.
  - apply StoreFacts.rows_insert.
Qed.

(* ===================================================================== *)
(** ** The background queue: rows in, rows out *)
(* ===================================================================== *)

Module RowFacts.
Import TaskQueue.





Lemma table_drawn sid d i o n :
  table sid {| dbs := d; incoming := i; outputs := o; drawn := n |}
  = match d !! dir_name sid with Some t => t | None => [] end.
Proof. reflexivity. Qed.

Section Queue.
Variable uuid4 : nat -> string.


End Queue.
End RowFacts.



Module ImportFacts.
Import TaskQueue.


Section Dropins.
Variable uuid4 : nat -> string.
Variable json_loads : string -> value + string.
Variable sid : string.
Variable now : Z.







End Dropins.
End ImportFacts.



(* ===================================================================== *)
(** ** The task runner: spawn, poll and harvest over the rows *)
(* ===================================================================== *)

Module RunFacts.
Import TaskQueue TaskRunner.

Lemma update_ids tid sid u q :
  map task_id (table sid (update_task_status tid sid u q)) = map task_id (table sid q).
Proof.
  unfold update_task_status. rewrite QueueFacts.table_execute, map_map.
  apply map_ext. intros r. now destruct (String.eqb (task_id r) tid).
Qed.

Lemma filter_none {A} (f : A -> bool) : forall l,
  (forall x, In x l -> f x = false) -> List.filter f l = [].
Proof.
  induction l as [|x l IH]; intros H; simpl; [reflexivity|].
  rewrite (H x (or_introl eq_refl)). apply IH. intros y Hy. apply H. now right.
Qed.

Lemma same_id_once tid : forall t : list BackgroundTask,
  uniq (map task_id t) = true ->
  length (List.filter (fun r => String.eqb (task_id r) tid) t) <= 1.
Proof.
  induction t as [|x t IH]; simpl; [lia|].
  intros Hu. apply andb_prop in Hu as [Hx Hu]. specialize (IH Hu).
  destruct (String.eqb (task_id x) tid) eqn:E; [|exact IH].
  apply String.eqb_eq in E. simpl.
  assert (H0 : List.filter (fun r => String.eqb (task_id r) tid) t = []).
  { apply filter_none. intros r Hr. apply String.eqb_neq. intros Er.
    apply negb_true_iff, mem_false in Hx. apply Hx. rewrite E, <- Er.
    now apply in_map. }
  rewrite H0. simpl. lia.
Qed.

(** An update of one id raises the number of rows with a status by at
    most the number of rows with that id. *)
Lemma update_count s tid u : forall t : list BackgroundTask,
  length (List.filter (status_is s)
            (map (fun r => if String.eqb (task_id r) tid then apply_update u r else r) t))
  <= length (List.filter (status_is s) t)
     + length (List.filter (fun r => String.eqb (task_id r) tid) t).
Proof.
  induction t as [|x t IH]; simpl; [lia|].
  destruct (String.eqb (task_id x) tid); simpl.
  - destruct (status_is s (apply_update u x)), (status_is s x); simpl; lia.
  - destruct (status_is s x); simpl; lia.
Qed.

(** An update that sets another status does not raise the number. *)
Lemma update_count_other s tid u : forall t : list BackgroundTask,
  (forall r, status_is s (apply_update u r) = false) ->
  length (List.filter (status_is s)
            (map (fun r => if String.eqb (task_id r) tid then apply_update u r else r) t))
  <= length (List.filter (status_is s) t).
Proof.
  intros t Hs. induction t as [|x t IH]; simpl; [lia|].
  destruct (String.eqb (task_id x) tid); simpl.
  - rewrite Hs. destruct (status_is s x); simpl; lia.
  - destruct (status_is s x); simpl; lia.
Qed.

Section Spawn.
Variable popen : string -> list value -> option string -> Z + string.
Variable sid : string.
Variable cwd : option string.
Variable now : Z.

Lemma spawn_one_ids t q :
  map task_id (table sid (snd (spawn_one popen sid cwd now t q)))
  = map task_id (table sid q).
Proof.
  unfold spawn_one. destruct (has_command t) as [cmd|]; [|apply update_ids].
  destruct (popen (task_id t) cmd cwd); cbn [snd]; now rewrite update_ids.
Qed.

Lemma spawn_one_running t q :
  uniq (map task_id (table sid q)) = true ->
  Inv.running_count sid (snd (spawn_one popen sid cwd now t q))
  <= Inv.running_count sid q
     + match fst (spawn_one popen sid cwd now t q) with Some _ => 1 | None => 0 end.
Proof.
  intros Hu. unfold Inv.running_count, spawn_one.
  destruct (has_command t) as [cmd|].
  - destruct (popen (task_id t) cmd cwd); cbn [fst snd];
      unfold update_task_status; rewrite QueueFacts.table_execute.
    + etransitivity; [apply update_count|].
      pose proof (same_id_once (task_id t) _ Hu) as H1.
      change (table sid _) with (table sid q). lia.
    + etransitivity; [apply update_count_other; reflexivity|].
      change (table sid _) with (table sid q). lia.
  - cbn [fst snd]. unfold update_task_status. rewrite QueueFacts.table_execute.
    etransitivity; [apply update_count_other; reflexivity|]. lia.
Qed.

Lemma spawn_loop_ids : forall l q,
  map task_id (table sid (snd (spawn_loop popen l sid cwd now q)))
  = map task_id (table sid q).
Proof.
  induction l as [|t l IH]; intros q; [reflexivity|].
  cbn [spawn_loop]. pose proof (spawn_one_ids t q) as H1.
  destruct (spawn_one popen sid cwd now t q) as [s q1]. cbn [snd] in H1.
  specialize (IH q1).
  destruct (spawn_loop popen l sid cwd now q1) as [ids q2]. cbn [snd] in *.
  congruence.
Qed.

Lemma spawn_loop_running : forall l q,
  uniq (map task_id (table sid q)) = true ->
  Inv.running_count sid (snd (spawn_loop popen l sid cwd now q))
  <= Inv.running_count sid q + length (fst (spawn_loop popen l sid cwd now q))
  /\ length (fst (spawn_loop popen l sid cwd now q)) <= length l.
Proof.
  induction l as [|t l IH]; intros q Hu; [simpl; lia|].
  cbn [spawn_loop].
  pose proof (spawn_one_ids t q) as Hi. pose proof (spawn_one_running t q Hu) as Hr.
  destruct (spawn_one popen sid cwd now t q) as [s q1]. cbn [fst snd] in Hi, Hr.
  destruct (IH q1) as [IH1 IH2]; [now rewrite Hi|].
  destruct (spawn_loop popen l sid cwd now q1) as [ids q2]. cbn [fst snd] in *.
  destruct s; simpl; lia.
Qed.

End Spawn.

Section Poll.
Variable kill0 : value -> bool.
Variable sid : string.
Variable now : Z.

Lemma check_one_ids t q :
  map task_id (table sid (snd (check_one kill0 sid now t q)))
  = map task_id (table sid q).
Proof.
  unfold check_one. destruct (timed_out now t); [apply update_ids|].
  destruct (has_metadata t) as [m|]; [|reflexivity].
  destruct (Dict.get m "pid") as [pid|]; [|reflexivity].
  destruct (kill0 pid); [reflexivity | apply update_ids].
Qed.

Lemma check_loop_ids : forall l q,
  map task_id (table sid (snd (check_loop kill0 l sid now q)))
  = map task_id (table sid q).
Proof.
  induction l as [|t l IH]; intros q; [reflexivity|].
  cbn [check_loop]. pose proof (check_one_ids t q) as H1.
  destruct (check_one kill0 sid now t q) as [s q1]. cbn [snd] in H1.
  specialize (IH q1).
  destruct (check_loop kill0 l sid now q1) as [ids q2]. cbn [snd] in *.
  congruence.
Qed.

End Poll.
End RunFacts.

(** Spawning and polling only update rows: the ids in the session's
    table, in their order, are the same afterwards.  Rows are added by
    queueing alone and deleted by the harvest alone. *)
Lemma spawn_and_poll_keep_rows :
  forall (popen : string -> list value -> option string -> Z + string)
         (kill0 : value -> bool) (sid : string) (max_concurrent : nat)
         (cwd : option string) (now : Z) (q : TaskQueue.qstore),
    map TaskQueue.task_id
      (TaskQueue.table sid (snd (TaskRunner.spawn_tasks popen sid max_concurrent cwd now q)))
    = map TaskQueue.task_id (TaskQueue.table sid q)
    /\ map TaskQueue.task_id
         (TaskQueue.table sid (snd (TaskRunner.check_running_tasks kill0 sid now q)))
       = map TaskQueue.task_id (TaskQueue.table sid q).
Proof.
  intros popen kill0 sid n cwd now q. split.
  - unfold TaskRunner.spawn_tasks, TaskQueue.get_running_tasks. cbn [fst snd].
    destruct (n - _) as [|k]; cbn [snd].
    + now rewrite QueueFacts.table_connection.
    + unfold TaskQueue.get_pending_tasks.
      rewrite RunFacts.spawn_loop_ids.
      now rewrite !QueueFacts.table_connection.
  - unfold TaskRunner.check_running_tasks, TaskQueue.get_running_tasks.
    rewrite RunFacts.check_loop_ids. now rewrite QueueFacts.table_connection.
Qed.

(** X14.  The concurrency limit.  On a table with a primary key, [spawn_tasks]
    starts at most as many tasks as there are free slots, and when no
    more than [max_concurrent] rows were running before, no more than
    [max_concurrent] are running after. *)
Theorem spawn_respects_max_concurrent :
  forall (popen : string -> list value -> option string -> Z + string)
         (sid : string) (max_concurrent : nat) (cwd : option string) (now : Z)
         (q : TaskQueue.qstore),
    uniq (map TaskQueue.task_id (TaskQueue.table sid q)) = true ->
    let spawned := TaskRunner.spawn_tasks popen sid max_concurrent cwd now q in
    length (fst spawned) <= max_concurrent - Inv.running_count sid q
    /\ (Inv.running_count sid q <= max_concurrent ->
        Inv.running_count sid (snd spawned) <= max_concurrent).
Proof.
  intros popen sid n cwd now q Hu spawned. subst spawned.
  unfold TaskRunner.spawn_tasks, TaskQueue.get_running_tasks. cbn [fst snd].
  rewrite OrderFacts.order_by_length. fold (Inv.running_count sid q).
  destruct (n - Inv.running_count sid q) as [|k] eqn:Slots.
  - cbn [fst snd]. split; [simpl; lia|]. intros Hle.
    unfold Inv.running_count in *. now rewrite QueueFacts.table_connection.
  - unfold TaskQueue.get_pending_tasks.
    set (pending := firstn (S k) _).
    set (q2 := TaskQueue._get_connection sid (TaskQueue._get_connection sid q)).
    assert (Hlen : length pending <= S k) by apply firstn_le_length.
    assert (Hu2 : uniq (map TaskQueue.task_id (TaskQueue.table sid q2)) = true)
      by (unfold q2; now rewrite !QueueFacts.table_connection).
    assert (Hrc : Inv.running_count sid q2 = Inv.running_count sid q)
      by (unfold Inv.running_count, q2; now rewrite !QueueFacts.table_connection).
    destruct (RunFacts.spawn_loop_running popen sid cwd now pending q2 Hu2) as [H1 H2].
    destruct (TaskRunner.spawn_loop popen pending sid cwd now q2) as [ids q3].
    cbn [fst snd] in *. split; lia.
Qed.

(** The theorem on a session with one task running, two more pending and
    room for two. *)
Lemma spawn_respects_max_concurrent_witness :
  let pending := fun tid : string =>
    {| TaskQueue.task_id := tid; TaskQueue.task_type := "external";
       TaskQueue.status := "pending"; TaskQueue.command := Some [VStr "make"];
       TaskQueue.metadata := Some []; TaskQueue.source := "cli";
       TaskQueue.session_id := ""; TaskQueue.created_at := 120;
       TaskQueue.started_at := None; TaskQueue.completed_at := None;
       TaskQueue.timeout := 60; TaskQueue.exit_code := None;
       TaskQueue.stdout := None; TaskQueue.stderr := None;
       TaskQueue.error := None |} in
  let q := Host.queue_of [Host.running_task; pending "task-1"; pending "task-2"] in
  let spawned := TaskRunner.spawn_tasks (fun _ _ _ => inl 77%Z) "" 2 None 130 q in
  fst spawned = ["task-1"]
  /\ Inv.running_count "" (snd spawned) <= 2.
Proof.
  cbv zeta. split; [vm_compute; reflexivity|].
  eapply (spawn_respects_max_concurrent (fun _ _ _ => inl 77%Z) "" 2 None 130).
  - vm_compute. reflexivity.
  - vm_compute. lia.
Defined.

Module PollFacts.
Import TaskQueue TaskRunner.

Section Poll.
Variable kill0 : value -> bool.
Variable sid : string.
Variable now : Z.

(** A task on which the poll writes the update [u], whatever the rows
    are, has the updated row after the loop and is among the ids
    returned. *)
Lemma check_loop_updates q t u :
  (forall q1, outputs q1 = outputs q ->
              check_one kill0 sid now t q1
              = (Some (task_id t), update_task_status (task_id t) sid u q1)) ->
  forall l q1,
    outputs q1 = outputs q ->
    (forall x, In x l -> task_id x = task_id t -> x = t) ->
    (Spec.task_row (task_id t) sid q1 = Some (apply_update u t) ->
     Spec.task_row (task_id t) sid (snd (check_loop kill0 l sid now q1))
     = Some (apply_update u t))
    /\ (Spec.task_row (task_id t) sid q1 = Some t -> In t l ->
        Spec.task_row (task_id t) sid (snd (check_loop kill0 l sid now q1))
        = Some (apply_update u t)
        /\ In (task_id t) (fst (check_loop kill0 l sid now q1))).
Proof.
  intros Hone.
  induction l as [|x l IH]; intros q1 Ho Hinj.
  - simpl. split; [tauto | intros _ []].
  - cbn [check_loop].
    assert (Hinj' : forall y, In y l -> task_id y = task_id t -> y = t)
      by (intros y Hy; apply Hinj; now right).
    destruct (String.eqb (task_id x) (task_id t)) eqn:E.
    + apply String.eqb_eq in E.
      assert (x = t) by (apply Hinj; [now left | exact E]). subst x.
      rewrite (Hone q1 Ho).
      set (q2 := update_task_status _ _ _ q1).
      assert (Ho2 : outputs q2 = outputs q) by exact Ho.
      destruct (IH q2 Ho2 Hinj') as [IH1 _].
      destruct (check_loop kill0 l sid now q2) as [ids q3] eqn:L. cbn [fst snd] in *.
      assert (Hidem : apply_update u (apply_update u t) = apply_update u t).
      { unfold apply_update. simpl.
        destruct (u_status u), (u_metadata u), (u_started_at u), (u_completed_at u),
          (u_exit_code u), (u_stdout u), (u_stderr u), (u_error u); reflexivity. }
      split.
      * intros Hrow. apply IH1. unfold q2. rewrite QueueFacts.row_update_same, Hrow.
        simpl. now rewrite Hidem.
      * intros Hrow _. split; [|now left].
        apply IH1. unfold q2. now rewrite QueueFacts.row_update_same, Hrow.
    + apply String.eqb_neq in E.
      pose proof (QueueFacts.check_one_other kill0 sid now (task_id t) x q1 E) as Hrow1.
      pose proof (QueueFacts.check_one_outputs kill0 sid now x q1) as Ho1.
      destruct (check_one kill0 sid now x q1) as [done q2]. cbn [fst snd] in *.
      assert (Ho2 : outputs q2 = outputs q) by congruence.
      destruct (IH q2 Ho2 Hinj') as [IH1 IH2].
      destruct (check_loop kill0 l sid now q2) as [ids q3] eqn:L. cbn [fst snd] in *.
      split.
      * intros Hrow. apply IH1. congruence.
      * intros Hrow [->|Hin]; [congruence|].
        destruct IH2 as [H1 H2]; [congruence | exact Hin |].
        split; [exact H1|]. destruct done; [now right | exact H2].
Qed.

(** A task the poll passes over keeps its row and is not among the ids
    returned. *)
Lemma check_loop_skips t :
  (forall q1, check_one kill0 sid now t q1 = (None, q1)) ->
  forall l q1,
    (forall x, In x l -> task_id x = task_id t -> x = t) ->
    Spec.task_row (task_id t) sid (snd (check_loop kill0 l sid now q1))
    = Spec.task_row (task_id t) sid q1
    /\ ~ In (task_id t) (fst (check_loop kill0 l sid now q1)).
Proof.
  intros Hone.
  induction l as [|x l IH]; intros q1 Hinj.
  - simpl. tauto.
  - cbn [check_loop].
    assert (Hinj' : forall y, In y l -> task_id y = task_id t -> y = t)
      by (intros y Hy; apply Hinj; now right).
    destruct (String.eqb (task_id x) (task_id t)) eqn:E.
    + apply String.eqb_eq in E.
      assert (x = t) by (apply Hinj; [now left | exact E]). subst x.
      rewrite Hone. destruct (IH q1 Hinj') as [IH1 IH2].
      destruct (check_loop kill0 l sid now q1) as [ids q3]. cbn [fst snd] in *.
      tauto.
    + apply String.eqb_neq in E.
      pose proof (QueueFacts.check_one_other kill0 sid now (task_id t) x q1 E) as Hrow1.
      assert (Hdone : forall i, fst (check_one kill0 sid now x q1) = Some i ->
                                i = task_id x).
      { unfold check_one. intros i.
        destruct (timed_out now x); [now intros [= <-]|].
        destruct (has_metadata x) as [m|]; [|discriminate].
        destruct (Dict.get m "pid") as [pid|]; [|discriminate].
        destruct (kill0 pid); [discriminate | now intros [= <-]]. }
      destruct (check_one kill0 sid now x q1) as [done q2]. cbn [fst snd] in *.
      destruct (IH q2 Hinj') as [IH1 IH2].
      destruct (check_loop kill0 l sid now q2) as [ids q3]. cbn [fst snd] in *.
      split; [congruence|].
      destruct done as [i|]; [|exact IH2].
      intros [Hi|Hin]; [|tauto]. specialize (Hdone i eq_refl). congruence.
Qed.

(** The running rows the poll goes through, on a table with a primary
    key. *)
Lemma running_rows q t :
  uniq (map task_id (table sid q)) = true ->
  In t (table sid q) -> status t = "running" ->
  let l := fst (get_running_tasks sid q) in
  In t l
  /\ (forall x, In x l -> task_id x = task_id t -> x = t)
  /\ Spec.task_row (task_id t) sid (snd (get_running_tasks sid q)) = Some t.
Proof.
  intros Hu Hin Hst l. subst l. unfold get_running_tasks. cbn [fst snd].
  split; [|split].
  - apply (proj2 (FeedbackFacts.order_by_In _ _ _)). apply List.filter_In.
    split; [exact Hin|]. unfold status_is. rewrite Hst. reflexivity.
  - intros x Hx E. apply FeedbackFacts.order_by_In in Hx.
    apply List.filter_In in Hx as [Hx _].
    now apply (QueueFacts.key_inj t x (table sid q)).
  - unfold Spec.task_row. rewrite QueueFacts.table_connection.
    now apply QueueFacts.row_of_member.
Qed.

End Poll.
End PollFacts.

(** X15.  A running task whose time is up.  On a table with a primary key, the
    poll at [now] reports the task and marks it failed with the error
    "Task timed out after Ns", whether or not its process still exists;
    the exit code stays as it was and what the process wrote so far is
    stored.  The harvest then turns the row into a warning that carries
    that error, when the exit code was never set and the stored output is
    no JSON. *)
Theorem poll_fails_timed_out_task :
  forall (kill0 : value -> bool) (json_loads : string -> value + string)
         (sid : string) (now : Z) (q : TaskQueue.qstore)
         (t : TaskQueue.BackgroundTask),
    uniq (map TaskQueue.task_id (TaskQueue.table sid q)) = true ->
    In t (TaskQueue.table sid q) ->
    TaskQueue.status t = "running" ->
    TaskRunner.timed_out now t = true ->
    let polled := TaskRunner.check_running_tasks kill0 sid now q in
    let msg := "Task timed out after " +:+ PyStr.of_Z (TaskQueue.timeout t) +:+ "s" in
    In (TaskQueue.task_id t) (fst polled)
    /\ exists t',
         Spec.task_row (TaskQueue.task_id t) sid (snd polled) = Some t'
         /\ TaskQueue.status t' = "failed"
         /\ TaskQueue.error t' = Some msg
         /\ TaskQueue.completed_at t' = Some now
         /\ TaskQueue.exit_code t' = TaskQueue.exit_code t
         /\ (TaskQueue.exit_code t = None ->
             (forall out, TaskQueue.stdout t' = Some out ->
                          json_loads out = inr "JSONDecodeError") ->
             TaskRunner._parse_task_output json_loads t'
             = Ok (Some {| TaskRunner.fb_content :=
                             VStr ("Background task failed: " +:+ PyStr.prefix 500 msg);
                           TaskRunner.fb_severity := VStr "warn";
                           TaskRunner.fb_category := VStr "background-task";
                           TaskRunner.fb_task_id := TaskQueue.source t |})).
Proof.
  intros kill0 json_loads sid now q t Hu Hin Hst Hto polled msg.
  destruct (PollFacts.running_rows sid q t Hu Hin Hst) as [Hl [Hinj Hrow]].
  set (out := match TaskRunner.has_metadata t with
              | Some m => TaskRunner.read_back (Dict.get m "stdout_file") q
              | None => "" end).
  set (err := match TaskRunner.has_metadata t with
              | Some m => TaskRunner.read_back (Dict.get m "stderr_file") q
              | None => "" end).
  set (u := {| TaskQueue.u_status := Some "failed"; TaskQueue.u_started_at := None;
               TaskQueue.u_completed_at := Some now; TaskQueue.u_exit_code := None;
               TaskQueue.u_stdout := Some out; TaskQueue.u_stderr := Some err;
               TaskQueue.u_error := Some msg; TaskQueue.u_metadata := None |}).
  assert (Hone : forall q1, TaskQueue.outputs q1 = TaskQueue.outputs q ->
            TaskRunner.check_one kill0 sid now t q1
            = (Some (TaskQueue.task_id t),
               TaskQueue.update_task_status (TaskQueue.task_id t) sid u q1)).
  { intros q1 Ho. unfold TaskRunner.check_one. rewrite Hto. subst u out err.
    destruct (TaskRunner.has_metadata t) as [m|]; [|reflexivity].
    now rewrite !(QueueFacts.read_back_outputs _ q q1 Ho). }
  destruct (PollFacts.check_loop_updates kill0 sid now q t u Hone
              (fst (TaskQueue.get_running_tasks sid q))
              (snd (TaskQueue.get_running_tasks sid q)) eq_refl Hinj)
    as [_ H2].
  destruct (H2 Hrow Hl) as [Hrow' Hid].
  split; [exact Hid|].
  exists (TaskQueue.apply_update u t). split; [exact Hrow'|].
  repeat (split; [reflexivity|]).
  intros Hec Hjson. unfold TaskRunner._parse_task_output.
  cbn [TaskQueue.apply_update TaskQueue.stdout TaskQueue.exit_code TaskQueue.error
       TaskQueue.stderr TaskQueue.source TaskQueue.keep_opt u
       TaskQueue.u_stdout TaskQueue.u_exit_code TaskQueue.u_error
       TaskQueue.u_stderr].
  rewrite Hec.
  assert (Hmsg : TaskRunner.or_text (Some msg)
                   (TaskRunner.or_text (Some err) "Unknown error") = msg)
    by reflexivity.
  destruct out as [|c r] eqn:Eo; [now rewrite Hmsg|].
  rewrite (Hjson (String c r) eq_refl). now rewrite Hmsg.
Qed.

(** The theorem on the task spawned at 110 with two minutes to run,
    polled at 300. *)
Lemma poll_fails_timed_out_task_witness :
  let polled := TaskRunner.check_running_tasks (fun _ => true) "" 300
                  Host.polled_queue in
  In "task-0" (fst polled)
  /\ exists t',
       Spec.task_row "task-0" "" (snd polled) = Some t'
       /\ TaskQueue.status t' = "failed"
       /\ TaskQueue.error t' = Some "Task timed out after 120s".
Proof.
  cbv zeta.
  destruct (poll_fails_timed_out_task (fun _ => true) Host.loads "" 300
              Host.polled_queue Host.running_task)
    as [H1 [t' [H2 [H3 [H4 _]]]]].
  - vm_compute. reflexivity.
  - vm_compute. now left.
  - reflexivity.
  - vm_compute. reflexivity.
  - split; [exact H1|]. exists t'. repeat split; assumption.
Defined.

(** X16.  A running task the poll leaves alone.  On a table with a primary key,
    a running task whose time is not up and whose process still exists --
    or that has no recorded process id at all -- keeps its row unchanged
    and is not reported as finished. *)
Theorem poll_leaves_live_task :
  forall (kill0 : value -> bool) (sid : string) (now : Z) (q : TaskQueue.qstore)
         (t : TaskQueue.BackgroundTask),
    uniq (map TaskQueue.task_id (TaskQueue.table sid q)) = true ->
    In t (TaskQueue.table sid q) ->
    TaskQueue.status t = "running" ->
    TaskRunner.timed_out now t = false ->
    (forall m pid, TaskRunner.has_metadata t = Some m ->
                   Dict.get m "pid" = Some pid -> kill0 pid = true) ->
    let polled := TaskRunner.check_running_tasks kill0 sid now q in
    Spec.task_row (TaskQueue.task_id t) sid (snd polled) = Some t
    /\ ~ In (TaskQueue.task_id t) (fst polled).
Proof.
  intros kill0 sid now q t Hu Hin Hst Hto Hlive polled.
  destruct (PollFacts.running_rows sid q t Hu Hin Hst) as [Hl [Hinj Hrow]].
  assert (Hone : forall q1, TaskRunner.check_one kill0 sid now t q1 = (None, q1)).
  { intros q1. unfold TaskRunner.check_one. rewrite Hto.
    destruct (TaskRunner.has_metadata t) as [m|] eqn:Hm; [|reflexivity].
    destruct (Dict.get m "pid") as [pid|] eqn:Hp; [|reflexivity].
    now rewrite (Hlive m pid eq_refl Hp). }
  destruct (PollFacts.check_loop_skips kill0 sid now t Hone
              (fst (TaskQueue.get_running_tasks sid q))
              (snd (TaskQueue.get_running_tasks sid q)) Hinj) as [H1 H2].
  split; [|exact H2].
  subst polled. unfold TaskRunner.check_running_tasks.
  destruct (TaskQueue.get_running_tasks sid q) as [l q1]. cbn [fst snd] in *.
  congruence.
Qed.

(** The theorem on the task spawned at 110, polled at 150 while its
    process is alive. *)
Lemma poll_leaves_live_task_witness :
  let polled := TaskRunner.check_running_tasks (fun _ => true) "" 150
                  Host.polled_queue in
  Spec.task_row "task-0" "" (snd polled) = Some Host.running_task
  /\ ~ In "task-0" (fst polled).
Proof.
  apply (poll_leaves_live_task (fun _ => true) "" 150 Host.polled_queue
           Host.running_task).
  - vm_compute. reflexivity.
  - vm_compute. now left.
  - reflexivity.
  - vm_compute. reflexivity.
  - reflexivity.
Defined.

Module HarvestFacts.
Import TaskQueue TaskRunner.

Lemma firstn_member {A} (x : A) : forall n l, In x (firstn n l) -> In x l.
Proof.
  induction n as [|n IH]; intros [|y l]; simpl; try tauto.
  intros [->|H]; [now left | right; now apply IH].
Qed.

Section Harvest.
Variable json_loads : string -> value + string.
Variable sid : string.

Lemma harvest_loop_length : forall l q items,
  fst (harvest_loop json_loads l sid q) = Ok items -> length items <= length l.
Proof.
  induction l as [|t l IH]; intros q items; cbn [harvest_loop].
  - intros [= <-]. simpl. lia.
  - destruct (_parse_task_output json_loads t) as [fb|e|]; [|discriminate|discriminate].
    specialize (IH (mark_task_consumed (task_id t) sid q)).
    destruct (harvest_loop json_loads l sid _) as [r q']. cbn [fst] in *.
    destruct r as [its|e|]; [|discriminate|discriminate].
    intros [= <-]. specialize (IH its eq_refl).
    destruct fb; simpl; lia.
Qed.

Lemma harvest_loop_keeps r : forall l q,
  In r (table sid q) -> ~ In (task_id r) (map task_id l) ->
  In r (table sid (snd (harvest_loop json_loads l sid q))).
Proof.
  induction l as [|t l IH]; intros q Hin Hn; cbn [harvest_loop]; [exact Hin|].
  destruct (_parse_task_output json_loads t) as [fb|e|]; [|exact Hin|exact Hin].
  specialize (IH (mark_task_consumed (task_id t) sid q)).
  destruct (harvest_loop json_loads l sid _) as [res q']. cbn [snd] in *.
  apply IH.
  - unfold mark_task_consumed. rewrite QueueFacts.table_execute.
    apply List.filter_In. split; [exact Hin|].
    apply negb_true_iff, String.eqb_neq. intros E. apply Hn. left. now symmetry.
  - intros H. apply Hn. now right.
Qed.

Lemma harvest_loop_subset r : forall l q,
  In r (table sid (snd (harvest_loop json_loads l sid q))) -> In r (table sid q).
Proof.
  induction l as [|t l IH]; intros q; cbn [harvest_loop]; [tauto|].
  destruct (_parse_task_output json_loads t) as [fb|e|]; [|tauto|tauto].
  specialize (IH (mark_task_consumed (task_id t) sid q)).
  destruct (harvest_loop json_loads l sid _) as [res q']. cbn [snd] in *.
  intros H. apply IH in H. unfold mark_task_consumed in H.
  rewrite QueueFacts.table_execute in H. now apply List.filter_In in H.
Qed.

End Harvest.
End HarvestFacts.

(** X17.  One harvest pass, whether it ends normally or with an exception:
    it returns at most ten feedback items, it adds no row, and on a table
    with a primary key it deletes no row that is still pending or
    running. *)
Theorem harvest_is_bounded_and_spares_unfinished :
  forall (json_loads : string -> value + string) (sid : string)
         (q : TaskQueue.qstore),
    let pass := TaskRunner.process_completed_tasks json_loads sid q in
    (forall items, fst pass = Ok items -> length items <= 10)
    /\ (forall r, In r (TaskQueue.table sid (snd pass)) ->
                  In r (TaskQueue.table sid q))
    /\ (uniq (map TaskQueue.task_id (TaskQueue.table sid q)) = true ->
        forall r, In r (TaskQueue.table sid q) ->
                  Inv.finished_row r = false ->
                  In r (TaskQueue.table sid (snd pass))).
Proof.
  intros json_loads sid q pass. subst pass.
  unfold TaskRunner.process_completed_tasks, TaskQueue.get_completed_tasks.
  set (fetched := firstn 10 _).
  set (q1 := TaskQueue._get_connection sid q).
  assert (Ht : TaskQueue.table sid q1 = TaskQueue.table sid q)
    by apply QueueFacts.table_connection.
  split; [|split].
  - intros items H. apply HarvestFacts.harvest_loop_length in H.
    pose proof (firstn_le_length 10
                  (Sql.order_by
                     (fun x y => Sql.null_le (TaskQueue.completed_at y)
                                   (TaskQueue.completed_at x))
                     (List.filter
                        (fun t => TaskQueue.status_is "completed" t
                                  || TaskQueue.status_is "failed" t)
                        (TaskQueue.table sid q)))) as Hl.
    fold fetched in Hl. lia.
  - intros r Hr. apply HarvestFacts.harvest_loop_subset in Hr. now rewrite Ht in Hr.
  - intros Hu r Hr Hfin. apply HarvestFacts.harvest_loop_keeps; [now rewrite Ht|].
    intros Hin. apply in_map_iff in Hin as [x [E Hx]].
    subst fetched. apply HarvestFacts.firstn_member in Hx. apply FeedbackFacts.order_by_In in Hx.
    apply List.filter_In in Hx as [Hx Hs].
    assert (x = r) by (apply (QueueFacts.key_inj r x (TaskQueue.table sid q)); assumption).
    subst x. unfold Inv.finished_row in Hfin. congruence.
Qed.

(** X18.  The parser raises in exactly two cases, both on captured stdout
    that is not empty.  Either the output reads as a JSON object whose
    "feedback" is a list that is not empty and whose first entry is no
    object: the exception is then the [AttributeError] of [first.get].
    Or [json.loads] raises on the output an exception the [except] clause
    does not name ([RecursionError] on text nested too deeply,
    [ValueError] on an integer of too many digits): that exception passes
    through.  A [JSONDecodeError] is caught, and the raw output is
    reported instead. *)
Theorem parse_task_output_raises_iff :
  forall (json_loads : string -> value + string) (t : TaskQueue.BackgroundTask)
         (e : string),
    TaskRunner._parse_task_output json_loads t = Raise e
    <-> exists out,
          TaskQueue.stdout t = Some out
          /\ out <> ""
          /\ ((e = "AttributeError"
               /\ exists data first rest,
                    json_loads out = inl (VDict data)
                    /\ Dict.get data "feedback" = Some (VList (first :: rest))
                    /\ forall f, first <> VDict f)
              \/ (json_loads out = inr e
                  /\ PyStr.mem e ["JSONDecodeError"; "KeyError"; "IndexError"] = false)).
Proof.
  intros json_loads t e. unfold TaskRunner._parse_task_output.
  set (fallback := match TaskQueue.exit_code t, TaskQueue.stdout t with
                   | Some 0%Z, Some (String _ _ as out) => _
                   | Some 0%Z, _ => _
                   | _, _ => _
                   end).
  assert (Hfb : fallback <> Raise e).
  { subst fallback.
    destruct (TaskQueue.exit_code t) as [[| |]|];
      destruct (TaskQueue.stdout t) as [[|]|]; discriminate. }
  split.
  - intros H.
    destruct (TaskQueue.stdout t) as [[|c r]|] eqn:So; try congruence.
    exists (String c r). split; [reflexivity|]. split; [discriminate|].
    destruct (json_loads (String c r)) as [[| | | | |data]|exc] eqn:J; try congruence.
    + left.
      destruct (Dict.get data "feedback") as [[| | | |[|first rest]|]|] eqn:F;
        try congruence.
      destruct first; try congruence; injection H as <-;
        (split; [reflexivity|]);
        eexists; eexists; eexists;
        (split; [reflexivity|]); (split; [exact F|]); discriminate.
    + right.
      destruct (PyStr.mem exc ["JSONDecodeError"; "KeyError"; "IndexError"]) eqn:M;
        [congruence|].
      injection H as <-. now split.
  - intros [out [So [Hne [[-> [data [first [rest [J [F Hf]]]]]] | [J M]]]]];
      rewrite So; (destruct out as [|c r]; [congruence|]); rewrite J.
    + rewrite F. destruct first; try reflexivity.
      exfalso. eapply Hf. reflexivity.
    + now rewrite M.
Qed.

(** On output nested too deeply for [json.loads] the pass over the
    completed tasks ends with the [RecursionError]. *)
Lemma parse_task_output_raises_iff_witness :
  let loads := fun s : string =>
                 if String.eqb s "[[[[" then inr "RecursionError"
                 else inr "JSONDecodeError" in
  TaskRunner._parse_task_output loads (Host.completed_task "task-1" 190 "[[[[")
  = Raise "RecursionError"
  /\ fst (TaskRunner.process_completed_tasks loads ""
            (Host.queue_of [Host.completed_task "task-1" 190 "[[[["]))
     = Raise "RecursionError"
  /\ TaskRunner._parse_task_output loads (Host.completed_task "task-2" 190 "not json")
     = Ok (Some {| TaskRunner.fb_content :=
                     VStr ("Background task completed:" +:+ PyStr.nl +:+ "not json");
                   TaskRunner.fb_severity := VStr "info";
                   TaskRunner.fb_category := VStr "background-task";
                   TaskRunner.fb_task_id := "cli" |}).
Proof.
  cbv zeta. split; [|split; vm_compute; reflexivity].
  apply (proj2 (parse_task_output_raises_iff
                  (fun s : string =>
                     if String.eqb s "[[[[" then inr "RecursionError"
                     else inr "JSONDecodeError")
                  (Host.completed_task "task-1" 190 "[[[[") "RecursionError")).
  exists "[[[[". split; [reflexivity|]. split; [discriminate|].
  right. split; reflexivity.
Defined.

(* ===================================================================== *)
(** ** The parallel runner: what a batch returns *)
(* ===================================================================== *)

Module BatchFacts.
Import Types Runner.

Section Pool.
Variable number_of_text : string -> option Z.
Variable elapsed : nat -> Z.
Variable arrives : nat -> Z -> bool.

(** Where an action collected from a descriptor comes from: the runner
    made it as a warning, or the body returned it and the runner stamped
    it. *)
Lemma collect_origin d i desc payload a :
  In a (collect elapsed arrives d i desc payload) ->
  (block a = false /\ task_id a = Some (id desc))
  \/ exists out x,
       fn desc (task_payload desc payload) = Returns out
       /\ In x (flatten_actions out)
       /\ a = stamp desc (elapsed i) x.
Proof.
  unfold collect, _safe_task_call.
  destruct (fn desc (task_payload desc payload)) as [out|err|] eqn:F.
  - destruct (arrives i (wait_timeout desc d)).
    + intros Hin. apply in_map_iff in Hin as [x [<- Hx]].
      right. now exists out, x.
    + intros [<-|[]]. now left.
  - destruct (arrives i (wait_timeout desc d)); intros [<-|[]]; now left.
  - intros [<-|[]]. now left.
Qed.

Lemma collect_from_origin d payload a : forall tasks i,
  In a (collect_from elapsed arrives d i tasks payload) ->
  exists desc j, In desc tasks /\ In a (collect elapsed arrives d j desc payload).
Proof.
  induction tasks as [|desc tasks IH]; intros i; simpl; [tauto|].
  intros Hin. apply in_app_or in Hin as [Hin|Hin].
  - exists desc, i. split; [now left | exact Hin].
  - destruct (IH (S i) Hin) as [desc' [j [H1 H2]]].
    exists desc', j. split; [now right | exact H2].
Qed.

End Pool.
End BatchFacts.

(** X19.  What the runner adds to a batch and what it does not.  Every action
    of the results carries a task id, and a blocking action is always one
    a task body returned as blocking: the warnings the runner makes for a
    raised exception or an expired wait never block. *)
Theorem run_parallel_attributes_and_never_blocks :
  forall (number_of_text : string -> option Z) (elapsed : nat -> Z)
         (arrives : nat -> Z -> bool) (tasks : list Types.TaskDescriptor)
         (payload : dict) (results : list Types.Action) (a : Types.Action),
    Runner.run_parallel number_of_text elapsed arrives tasks payload = Ok results ->
    In a results ->
    (exists i, Types.task_id a = Some i)
    /\ (Types.block a = true ->
        exists desc out x,
          In desc tasks
          /\ Types.fn desc (Runner.task_payload desc payload) = Types.Returns out
          /\ In x (Types.flatten_actions out)
          /\ Types.block x = true).
Proof.
  intros number_of_text elapsed arrives tasks payload results a Hrun Hin.
  assert (Hc : exists d, results = Runner.collect_from elapsed arrives d 0 tasks payload).
  { unfold Runner.run_parallel in Hrun. destruct tasks as [|t ts].
    - injection Hrun as <-. now exists 0%Z.
    - destruct (Runner.cfg_conc number_of_text payload); try discriminate.
      destruct (existsb _ _); [discriminate|].
      destruct (Runner.default_timeout_of number_of_text payload) as [d| |];
        try discriminate.
      injection Hrun as <-. now exists d. }
  destruct Hc as [d ->].
  apply BatchFacts.collect_from_origin in Hin as [desc [j [Hd Hin]]].
  apply BatchFacts.collect_origin in Hin as [[Hb Hi]|[out [x [Hf [Hx ->]]]]].
  - split; [eexists; exact Hi | intros Hb'; congruence].
  - split.
    + simpl. destruct (Types.task_id x); eexists; reflexivity.
    + simpl. intros Hb. exists desc, out, x. repeat split; assumption.
Qed.

(** The theorem on the batch of three whose middle task raises. *)
Lemma run_parallel_attributes_and_never_blocks_witness :
  exists i, Types.task_id (Types.warning "boom" "lint" (Some 2%Z)) = Some i.
Proof.
  apply (run_parallel_attributes_and_never_blocks Host.no_number (fun _ => 2%Z)
           (fun _ _ => true)
           [Host.task_returning "fmt" (Host.advisory "reformatted");
            Host.task_raising "lint" "boom";
            Host.task_returning "types" (Host.advisory "2 errors")]
           Host.run_payload
           [Runner.stamp (Host.task_returning "fmt" (Host.advisory "reformatted")) 2
              (Host.advisory "reformatted");
            Types.warning "boom" "lint" (Some 2%Z);
            Runner.stamp (Host.task_returning "types" (Host.advisory "2 errors")) 2
              (Host.advisory "2 errors")]
           (Types.warning "boom" "lint" (Some 2%Z))).
  - vm_compute. reflexivity.
  - right. now left.
Defined.



(* ===================================================================== *)
(** ** Task selection and changed files *)
(* ===================================================================== *)

Module SelectFacts.
Import Types Selectors.

Lemma dedupe_from_spec : forall items seen,
  uniq (map id (dedupe_from seen items)) = true
  /\ forall d, In d (dedupe_from seen items) ->
       ~ In (id d) seen
       /\ exists r,
            List.find (fun r => String.eqb (r_id r) (id d)) items = Some r
            /\ d = {| id := r_id r; fn := r_fn r; timeout_seconds := r_timeout r;
                      params := r_params r |}.
Proof.
  induction items as [|r0 rest IH]; intros seen; [split; [reflexivity | intros d []]|].
  cbn [dedupe_from]. destruct (PyStr.mem (r_id r0) seen) eqn:M.
  - destruct (IH seen) as [Hu Hd]. split; [exact Hu|].
    intros d Hin. destruct (Hd d Hin) as [Hn [r [Hf ->]]].
    split; [exact Hn|]. exists r. split; [|reflexivity].
    cbn [List.find id] in *. destruct (String.eqb (r_id r0) (r_id r)) eqn:E; [|exact Hf].
    apply String.eqb_eq in E. apply mem_In in M. rewrite E in M. tauto.
  - apply mem_false in M. destruct (IH (r_id r0 :: seen)) as [Hu Hd]. split.
    + cbn [map uniq id]. rewrite Hu, andb_true_r.
      apply negb_true_iff, mem_false. intros Hin.
      apply in_map_iff in Hin as [d [E Hin]].
      destruct (Hd d Hin) as [Hn _]. apply Hn. left. now symmetry.
    + intros d [<-|Hin].
      * split; [exact M|]. exists r0. split; [|reflexivity].
        cbn [List.find id]. now rewrite String.eqb_refl.
      * destruct (Hd d Hin) as [Hn [r [Hf ->]]]. cbn [id] in *.
        split; [intros H; apply Hn; now right|].
        exists r. split; [|reflexivity]. cbn [List.find].
        destruct (String.eqb (r_id r0) (r_id r)) eqn:E; [|exact Hf].
        apply String.eqb_eq in E. exfalso. apply Hn. now left.
Qed.

End SelectFacts.

(** X21.  The tasks selected for an event have pairwise different ids, and
    each is built from the first selected entry that resolves to its id:
    of several entries with one id the first wins, with its callable,
    timeout and parameters. *)
Theorem select_tasks_distinct_ids :
  forall (resolve : string -> (string * Types.TaskFn) + string)
         (repr : value -> string) (event : string) (cfg : dict)
         (tool_name : string) (files : list string),
    let items :=
      flat_map (Selectors.select_entry resolve repr tool_name files)
        (Selectors._entries_for_section (Dict.get cfg event)) in
    let selected := Selectors.select_tasks resolve repr event cfg tool_name files in
    uniq (map Types.id selected) = true
    /\ forall d, In d selected ->
         exists r,
           List.find (fun r => String.eqb (Selectors.r_id r) (Types.id d)) items
           = Some r
           /\ d = {| Types.id := Selectors.r_id r; Types.fn := Selectors.r_fn r;
                     Types.timeout_seconds := Selectors.r_timeout r;
                     Types.params := Selectors.r_params r |}.
Proof.
  intros resolve repr event cfg tool_name files items selected.
  subst selected. unfold Selectors.select_tasks, Selectors._dedupe_descriptors.
  fold items. destruct (SelectFacts.dedupe_from_spec items []) as [Hu Hd].
  split; [exact Hu|]. intros d Hin. now destruct (Hd d Hin) as [_ H].
Qed.

(** X22.  A task that cannot be imported does not stop the invocation.  When
    the only entry of the event's section is a reference whose import
    raises, the batch selected and run gives exactly one action: not
    blocking, attributed to the reference, with the reason "Task not
    available: REF (ERROR)". *)
Theorem unimportable_task_becomes_warning :
  forall (resolve : string -> (string * Types.TaskFn) + string)
         (repr : value -> string) (number_of_text : string -> option Z)
         (elapsed : nat -> Z) (arrives : nat -> Z -> bool)
         (event : string) (cfg : dict) (tool_name : string)
         (files : list string) (payload : dict) (ref err : string) (c d : Z),
    ref <> "" ->
    resolve ref = inr err ->
    Selectors._entries_for_section (Dict.get cfg event) = [VStr ref] ->
    Runner.cfg_conc number_of_text payload = Ok c ->
    Runner.default_timeout_of number_of_text payload = Ok d ->
    arrives 0 d = true ->
    let w := Types.warning
               ("Task not available: " +:+ ref +:+ " (" +:+ err +:+ ")")
               ref (Some (elapsed 0)) in
    Runner.run_parallel number_of_text elapsed arrives
      (Selectors.select_tasks resolve repr event cfg tool_name files) payload
    = Ok [w]
    /\ Types.block w = false.
Proof.
  intros resolve repr number_of_text elapsed arrives event cfg tool_name files
    payload ref err c d Hne Hres Hent Hc Hd Harr w.
  split; [|reflexivity].
  unfold Selectors.select_tasks. rewrite Hent.
  cbn [flat_map Selectors.select_entry]. unfold Selectors._parse_task_entry.
  destruct ref as [|ch rest]; [congruence|]. rewrite Hres.
  cbn [app Selectors._dedupe_descriptors Selectors.dedupe_from PyStr.mem existsb
       Selectors.r_id Selectors.r_fn Selectors.r_timeout Selectors.r_params].
  rewrite (RunnerFacts.run_parallel_collects _ _ _ _ _ c d Hc Hd).
  - cbn [Runner.collect_from]. unfold Runner.collect, Runner._safe_task_call.
    cbn [Types.fn Selectors._wrap_missing_task Runner.wait_timeout
         Types.timeout_seconds]. rewrite Harr. reflexivity.
  - intros desc [<-|[]]. reflexivity.
Qed.

(** The theorem on a Stop section that names a module that is not
    installed. *)
Lemma unimportable_task_becomes_warning_witness :
  Runner.run_parallel Host.no_number (fun _ => 0%Z) (fun _ _ => true)
    (Selectors.select_tasks Host.no_import Host.no_repr "Stop"
       [("Stop", VDict [("tasks", VList [VStr "missing.pack"])])] "" [])
    Host.run_payload
  = Ok [Types.warning "Task not available: missing.pack (No module named that)"
          "missing.pack" (Some 0%Z)].
Proof.
  destruct (unimportable_task_becomes_warning Host.no_import Host.no_repr
              Host.no_number (fun _ => 0%Z) (fun _ _ => true) "Stop"
              [("Stop", VDict [("tasks", VList [VStr "missing.pack"])])] "" []
              Host.run_payload "missing.pack" "No module named that" 6 12)
    as [H _].
  - discriminate.
  - reflexivity.
  - reflexivity.
  - reflexivity.
  - reflexivity.
  - reflexivity.
  - exact H.
Defined.

(** X23.  Filters without a subject.  An entry restricted to tools is not
    selected when the invocation names no tool, and an entry restricted
    to file types is not selected when the invocation carries no files:
    a section whose entries are all restricted in one of these ways
    selects nothing. *)
Theorem restricted_entries_need_a_subject :
  forall (resolve : string -> (string * Types.TaskFn) + string)
         (repr : value -> string) (event : string) (cfg : dict)
         (tool_name : string) (files : list string),
    (forall entry,
        In entry (Selectors._entries_for_section (Dict.get cfg event)) ->
        exists d x xs,
          entry = VDict d
          /\ ((Dict.get d "tools" = Some (VList (x :: xs)) /\ tool_name = "")
              \/ (Dict.get d "file_types" = Some (VList (x :: xs)) /\ files = []))) ->
    Selectors.select_tasks resolve repr event cfg tool_name files = [].
Proof.
  intros resolve repr event cfg tool_name files H.
  unfold Selectors.select_tasks.
  assert (Hnil : flat_map (Selectors.select_entry resolve repr tool_name files)
                   (Selectors._entries_for_section (Dict.get cfg event)) = []).
  { induction (Selectors._entries_for_section (Dict.get cfg event)) as [|e l IH];
      [reflexivity|].
    cbn [flat_map]. rewrite IH by (intros x Hx; apply H; now right).
    rewrite app_nil_r.
    destruct (H e (or_introl eq_refl)) as [d [x [xs [-> [[Hg ->]|[Hg ->]]]]]].
    - unfold Selectors.select_entry, Selectors.tools_pass, get_or. rewrite Hg.
      reflexivity.
    - unfold Selectors.select_entry, Selectors.file_types_pass, get_or. rewrite Hg.
      now rewrite andb_false_r. }
  now rewrite Hnil.
Qed.

(** The theorem on a formatter restricted to Python files, at an event
    without files. *)
Lemma restricted_entries_need_a_subject_witness :
  Selectors.select_tasks Host.import_quiet Host.no_repr "Stop"
    [("Stop",
      VDict [("tasks",
              VList [VDict [("ref", VStr "python.format");
                            ("file_types", VList [VStr "py"])]])])] "" []
  = [].
Proof.
  apply restricted_entries_need_a_subject.
  intros entry [<-|[]].
  exists [("ref", VStr "python.format"); ("file_types", VList [VStr "py"])],
    (VStr "py"), []. split; [reflexivity|]. right. split; reflexivity.
Defined.

Module FileFacts.
Import FileMatch.

Lemma uniq_keep_first_spec : forall l seen,
  uniq (uniq_keep_first seen l) = true
  /\ forall p, In p (uniq_keep_first seen l) <-> In p l /\ ~ In p seen.
Proof.
  induction l as [|x l IH]; intros seen; [split; [reflexivity | simpl; tauto]|].
  cbn [uniq_keep_first]. destruct (PyStr.mem x seen) eqn:M.
  - destruct (IH seen) as [Hu Hi]. split; [exact Hu|].
    intros p. rewrite Hi. apply mem_In in M. simpl. split.
    + tauto.
    + intros [[->|H] Hn]; tauto.
  - apply mem_false in M. destruct (IH (x :: seen)) as [Hu Hi]. split.
    + cbn [uniq]. rewrite Hu, andb_true_r. apply negb_true_iff, mem_false.
      rewrite Hi. simpl. tauto.
    + intros p. simpl. rewrite Hi. simpl. split.
      * intros [<-|[H1 H2]]; tauto.
      * intros [[<-|H1] H2]; [now left|].
        destruct (String.eqb x p) eqn:E.
        -- apply String.eqb_eq in E. now left.
        -- apply String.eqb_neq in E. right. tauto.
Qed.

Lemma nonempty_str_spec v s : nonempty_str v = Some s -> v = Some (VStr s) /\ s <> "".
Proof.
  unfold nonempty_str. destruct v as [[| | |[|c r]| |]|]; try discriminate.
  intros [= <-]. split; [reflexivity | discriminate].
Qed.

Lemma strs_of_nonempty v p : In p (strs_of v) -> p <> "".
Proof.
  unfold strs_of. destruct v as [[| | | |l|]|]; try (intros []).
  intros Hin. apply in_flat_map in Hin as [item [_ Hin]].
  destruct (nonempty_str (Some item)) as [s|] eqn:N; [|destruct Hin].
  destruct Hin as [<-|[]]. now apply nonempty_str_spec in N.
Qed.

Lemma edit_paths_nonempty v p : In p (edit_paths v) -> p <> "".
Proof.
  unfold edit_paths. destruct v as [[| | | |l|]|]; try (intros []).
  intros Hin. apply in_flat_map in Hin as [e [_ Hin]].
  destruct e; try destruct Hin.
  destruct (nonempty_str _) as [s|] eqn:N; [|destruct Hin].
  destruct Hin as [<-|[]]. now apply nonempty_str_spec in N.
Qed.

Lemma collect_nonempty ti p : In p (collect_changed_files ti) -> p <> "".
Proof.
  unfold collect_changed_files. intros Hin.
  apply (uniq_keep_first_spec _ []) in Hin as [Hin _].
  apply in_app_or in Hin as [Hin|Hin].
  - destruct (nonempty_str (Dict.get ti "file_path")) as [s|] eqn:N; [|destruct Hin].
    destruct Hin as [<-|[]]. now apply nonempty_str_spec in N.
  - apply in_app_or in Hin as [Hin|Hin]; [now apply strs_of_nonempty in Hin|].
    apply in_app_or in Hin as [Hin|Hin];
      [now apply strs_of_nonempty in Hin | now apply edit_paths_nonempty in Hin].
Qed.

End FileFacts.

(** X24.  The changed files of a payload: no path is listed twice, none is
    empty, and a path is listed exactly when the tool input or the tool
    response gives it.  A camelCase [filePath] counts where the same
    dict has no [file_path]. *)
Theorem changed_files_are_distinct :
  forall (payload : dict),
    let files := FileMatch.collect_changed_files_from_payload payload in
    uniq files = true
    /\ (forall p, In p files -> p <> "")
    /\ (forall p, In p files
                  <-> In p (FileMatch.pull (FileMatch.dict_field payload "tool_input"))
                      \/ In p (FileMatch.pull (FileMatch.dict_field payload "tool_response")))
    /\ (forall ti p,
          Dict.get payload "tool_input" = Some (VDict ti) ->
          Dict.get ti "file_path" = None ->
          Dict.get ti "filePath" = Some (VStr p) ->
          p <> "" ->
          In p files).
Proof.
  intros payload files. subst files.
  unfold FileMatch.collect_changed_files_from_payload.
  destruct (FileFacts.uniq_keep_first_spec
              (FileMatch.pull (FileMatch.dict_field payload "tool_input")
               ++ FileMatch.pull (FileMatch.dict_field payload "tool_response")) [])
    as [Hu Hi].
  assert (Hiff : forall p,
            In p (FileMatch.uniq_keep_first []
                    (FileMatch.pull (FileMatch.dict_field payload "tool_input")
                     ++ FileMatch.pull (FileMatch.dict_field payload "tool_response")))
            <-> In p (FileMatch.pull (FileMatch.dict_field payload "tool_input"))
                \/ In p (FileMatch.pull (FileMatch.dict_field payload "tool_response"))).
  { intros p. rewrite Hi, in_app_iff. simpl. tauto. }
  split; [exact Hu|]. split; [|split; [exact Hiff|]].
  - intros p Hin. apply Hiff in Hin as [Hin|Hin];
      unfold FileMatch.pull in Hin; now apply FileFacts.collect_nonempty in Hin.
  - intros ti p Hti Hfp Hcamel Hne. apply Hiff. left.
    unfold FileMatch.dict_field. rewrite Hti. unfold FileMatch.pull, Dict.has.
    rewrite Hcamel, Hfp. cbn [andb negb].
    set (norm := Dict.set ti "file_path" (get_or ti "filePath" VNone)).
    assert (Hn : Dict.get norm "file_path" = Some (VStr p)).
    { subst norm. rewrite DictFacts.get_set_eq. unfold get_or. now rewrite Hcamel. }
    match goal with
    | |- In p (FileMatch.collect_changed_files ?n) => set (norm2 := n)
    end.
    assert (Hn2 : Dict.get norm2 "file_path" = Some (VStr p)).
    { subst norm2.
      match goal with |- context [if ?b then _ else _] => destruct b end;
        [|exact Hn].
      rewrite DictFacts.get_set_ne by discriminate. exact Hn. }
    unfold FileMatch.collect_changed_files.
    apply (proj2 (FileFacts.uniq_keep_first_spec _ [])). split; [|tauto].
    rewrite Hn2. destruct p as [|c r]; [congruence|]. now left.
Qed.

(** The theorem on an edit whose response repeats the path in
    camelCase. *)
Lemma changed_files_are_distinct_witness :
  FileMatch.collect_changed_files_from_payload
    [("tool_input", VDict [("file_path", VStr "src/app.py")]);
     ("tool_response", VDict [("filePath", VStr "src/app.py");
                              ("filePaths", VList [VStr "src/app.py"; VStr "README.md"])])]
  = ["src/app.py"; "README.md"]
  /\ In "README.md"
       (FileMatch.collect_changed_files_from_payload
          [("tool_input", VDict [("filePath", VStr "README.md")])]).
Proof.
  split; [reflexivity|].
  destruct (changed_files_are_distinct
              [("tool_input", VDict [("filePath", VStr "README.md")])])
    as [_ [_ [_ H]]].
  apply (H [("filePath", VStr "README.md")] "README.md"); try reflexivity.
  discriminate.
Defined.

(* ===================================================================== *)
(** ** The decision engine, event by event *)
(* ===================================================================== *)

Module DecideFacts.
Import Types Router.

Section Decide.
Variable repr : value -> string.
Variable sha256_hexdigest : string -> string.
Variable P : PathLib.

(** A field of the answer other than the two common ones is the field
    of the event's shape. *)
Lemma respond_field event sid cfg results now w k :
  k <> "suppressOutput" -> k <> "systemMessage" ->
  exists adds,
    Spec.field (fst (respond repr sha256_hexdigest P event sid cfg results now w)) k
    = Dict.get (shape event (blocks_of repr (block_on_of cfg) results) adds
                  (List.filter (fun a => truthy_text (permission_decision a)) results)
                  (List.filter end_turn results)) k.
Proof.
  intros H1 H2.
  destruct (RouterFacts.respond_response repr sha256_hexdigest P event sid cfg
              results now w) as [adds ->].
  exists adds. unfold Spec.field. now apply RouterFacts.common_fields_get.
Qed.

Lemma flagged_blocks block_on results a :
  In a results -> block a = true ->
  nonempty (blocks_of repr block_on results) = true.
Proof.
  intros Hin Hb. apply (RouterFacts.blocks_nonempty repr block_on results a Hin).
  now rewrite Hb.
Qed.

End Decide.
End DecideFacts.

(** X25.  Events that cannot be blocked.  For SessionEnd, Notification and any
    event name the router does not know, the answer continues whatever
    the tasks returned and whatever the policy says: it has "continue":
    true, no decision and no stop reason. *)
Theorem informational_events_always_continue :
  forall (repr : value -> string) (sha256_hexdigest : string -> string)
         (P : PathLib) (event sid : string) (cfg : dict)
         (results : list Types.Action) (now : Z) (w : Router.World),
    PyStr.mem event ["PreToolUse"; "PostToolUse"; "UserPromptSubmit"; "Stop";
                     "SubagentStop"; "PreCompact"; "SessionStart"] = false ->
    let response :=
      fst (Router.respond repr sha256_hexdigest P event sid cfg results now w) in
    Spec.field response "continue" = Some (VBool true)
    /\ Spec.field response "decision" = None
    /\ Spec.field response "stopReason" = None.
Proof.
  intros repr sha P event sid cfg results now w Hev response. subst response.
  unfold PyStr.mem in Hev. cbn [existsb] in Hev.
  repeat (apply orb_false_elim in Hev as [? Hev]).
  assert (Hshape : forall blocks adds pre enders k,
            k <> "hookSpecificOutput" ->
            Dict.get (Router.shape event blocks adds pre enders) k
            = Dict.get [("continue", VBool true)] k).
  { intros blocks adds pre enders k Hk. unfold Router.shape, PyStr.mem.
    cbn [existsb].
    repeat match goal with
           | E : String.eqb event _ = false |- _ => rewrite E; clear E
           end.
    cbn [orb].
    destruct (String.eqb event "SessionEnd" || (String.eqb event "Notification" || false));
      [now apply RouterFacts.with_context_get | reflexivity]. }
  repeat split.
  - destruct (DecideFacts.respond_field repr sha P event sid cfg results now w
                "continue") as [adds ->]; try discriminate.
    now rewrite Hshape by discriminate.
  - destruct (DecideFacts.respond_field repr sha P event sid cfg results now w
                "decision") as [adds ->]; try discriminate.
    now rewrite Hshape by discriminate.
  - destruct (DecideFacts.respond_field repr sha P event sid cfg results now w
                "stopReason") as [adds ->]; try discriminate.
    now rewrite Hshape by discriminate.
Qed.

(** The theorem on a Notification whose task asks to block. *)
Lemma informational_events_always_continue_witness :
  let blocking := Types.warning "not allowed" "guard" None in
  let flagged :=
    {| Types.block := true; Types.reason := Types.reason blocking;
       Types.end_turn := true; Types.add_context := None;
       Types.permission_decision := None; Types.permission_decision_reason := None;
       Types.user_message := None; Types.suppress_output := None;
       Types.system_message := None; Types.exit2 := None;
       Types.file_path := None; Types.task_id := Some "guard";
       Types.elapsed_seconds := None; Types.severity := Some "error";
       Types.category := Some "security" |} in
  Spec.field
    (fst (Router.respond Host.no_repr Host.digest Host.posix "Notification" "s1"
            Host.strict_cfg [flagged] 1000 Host.fresh_world))
    "continue" = Some (VBool true).
Proof.
  cbv zeta.
  apply (informational_events_always_continue Host.no_repr Host.digest Host.posix
           "Notification" "s1" Host.strict_cfg).
  reflexivity.
Defined.

(** X26.  An outcome flagged as blocking is answered in the way of its event,
    whatever the policy: PreToolUse denies the permission and continues;
    PostToolUse, UserPromptSubmit, Stop, SubagentStop and PreCompact give
    the decision "block" with the reason and no "continue"; SessionStart
    stops the session with the reason. *)
Theorem flagged_block_by_event :
  forall (repr : value -> string) (sha256_hexdigest : string -> string)
         (P : PathLib) (sid : string) (cfg : dict)
         (results : list Types.Action) (a : Types.Action) (now : Z)
         (w : Router.World),
    In a results ->
    Types.block a = true ->
    let answer := fun event =>
      fst (Router.respond repr sha256_hexdigest P event sid cfg results now w) in
    let reason := fun event =>
      Router._reason_from_blocks
        (Router.blocks_of repr (Router.block_on_of cfg) results) event in
    (Spec.field (answer "PreToolUse") "continue" = Some (VBool true)
     /\ Spec.field (answer "PreToolUse") "hookSpecificOutput"
        = Some (VDict [("hookEventName", VStr "PreToolUse");
                       ("permissionDecision", VStr "deny");
                       ("permissionDecisionReason", VStr (reason "PreToolUse"))]))
    /\ (forall event,
          In event ["PostToolUse"; "UserPromptSubmit"; "Stop"; "SubagentStop";
                    "PreCompact"] ->
          Spec.field (answer event) "decision" = Some (VStr "block")
          /\ Spec.field (answer event) "reason" = Some (VStr (reason event))
          /\ Spec.field (answer event) "continue" = None)
    /\ (Spec.field (answer "SessionStart") "continue" = Some (VBool false)
        /\ Spec.field (answer "SessionStart") "stopReason"
           = Some (VStr (reason "SessionStart"))).
Proof.
  intros repr sha P sid cfg results a now w Hin Hb answer reason.
  subst answer reason. cbv beta.
  pose proof (DecideFacts.flagged_blocks repr (Router.block_on_of cfg) results a
                Hin Hb) as Hne.
  assert (Hfield : forall event k v,
            k <> "suppressOutput" -> k <> "systemMessage" ->
            (forall adds,
                Dict.get (Router.shape event
                            (Router.blocks_of repr (Router.block_on_of cfg) results)
                            adds
                            (List.filter
                               (fun a => Router.truthy_text (Types.permission_decision a))
                               results)
                            (List.filter Types.end_turn results)) k = v) ->
            Spec.field
              (fst (Router.respond repr sha P event sid cfg results now w)) k = v).
  { intros event k v H1 H2 Hs.
    destruct (DecideFacts.respond_field repr sha P event sid cfg results now w k H1 H2)
      as [adds ->]. apply Hs. }
  split; [|split].
  - split; apply Hfield; try discriminate; intros adds;
      unfold Router.shape; cbn [String.eqb Ascii.eqb Bool.eqb andb]; now rewrite Hne.
  - intros event Hev. simpl in Hev.
    repeat (destruct Hev as [<-|Hev]);
      try contradiction;
      (split; [|split]); apply Hfield; try discriminate; intros adds;
      unfold Router.shape, Router.decision_shape, PyStr.mem;
      cbn [String.eqb Ascii.eqb Bool.eqb andb existsb orb]; now rewrite Hne.
  - split; apply Hfield; try discriminate; intros adds;
      unfold Router.shape, PyStr.mem;
      cbn [String.eqb Ascii.eqb Bool.eqb andb existsb orb]; now rewrite Hne.
Qed.

(** The theorem on a Stop invocation under the policy that blocks on
    nothing. *)
Lemma flagged_block_by_event_witness :
  let flagged :=
    {| Types.block := true; Types.reason := Some "tests are failing";
       Types.end_turn := false; Types.add_context := None;
       Types.permission_decision := None; Types.permission_decision_reason := None;
       Types.user_message := None; Types.suppress_output := None;
       Types.system_message := None; Types.exit2 := None;
       Types.file_path := None; Types.task_id := Some "tests";
       Types.elapsed_seconds := None; Types.severity := None;
       Types.category := None |} in
  fst (Router.respond Host.no_repr Host.digest Host.posix "Stop" "s1"
         Host.lenient_cfg [flagged] 1000 Host.fresh_world)
  = VDict [("decision", VStr "block"); ("reason", VStr "tests are failing")]
  /\ Spec.field
       (fst (Router.respond Host.no_repr Host.digest Host.posix "Stop" "s1"
               Host.lenient_cfg [flagged] 1000 Host.fresh_world))
       "decision" = Some (VStr "block").
Proof.
  cbv zeta. split; [vm_compute; reflexivity|].
  eapply (flagged_block_by_event Host.no_repr Host.digest Host.posix "s1"
            Host.lenient_cfg).
  - now left.
  - reflexivity.
  - right. right. now left.
Defined.

(** X27.  Deduplication of PostToolUse advice over two invocations.  An
    advisory action whose issue is new to the session is kept by the
    first invocation; the same action in a later invocation is kept
    exactly when the first record has expired by then: on sequential
    edits within the window the advice is given once. *)
Theorem post_tool_advice_is_given_once :
  forall (sha256_hexdigest : string -> string) (P : PathLib)
         (a : Types.Action) (ctx sid : string) (now1 now2 : Z)
         (st : Feedback.fstore),
    Types.add_context a = Some ctx ->
    PyStr.strip ctx <> "" ->
    let task := match Types.task_id a with
                | Some (String _ _ as t) => t
                | _ => "unknown"
                end in
    (forall r, In r (Inv.feedback_rows sid st) ->
               Feedback.issue_id r
               <> Feedback._issue_id sha256_hexdigest P task (Types.file_path a)
                    (PyStr.strip ctx)) ->
    let first := Router.dedupe_adds sha256_hexdigest P [a] sid now1 st in
    let second := Router.dedupe_adds sha256_hexdigest P [a] sid now2 (snd first) in
    fst first = [a]
    /\ fst second
       = (if (now1 <? now2 - Feedback.DEFAULT_DEDUP_WINDOW)%Z then [a] else []).
Proof.
  intros sha P a ctx sid now1 now2 st Ha Hne task Hnew first second.
  pose proof (RepeatFacts.record_twice sha P ctx task sid (Types.file_path a)
                (Types.severity a) (Types.category a) now1 now2 st Hne Hnew) as H.
  cbv zeta in H. destruct H as [H1 [H2 _]].
  assert (Ht : Router.truthy_text (Types.add_context a) = true).
  { rewrite Ha. simpl. destruct ctx; [exfalso; now apply Hne | reflexivity]. }
  set (R1 := Feedback.record_feedback sha P ctx task sid (Types.file_path a)
               (Types.severity a) (Types.category a) "show_once" now1 st) in *.
  set (st2 := Feedback.mark_shown (Feedback.issue_id (fst R1)) sid (snd R1)) in *.
  set (R2 := Feedback.record_feedback sha P ctx task sid (Types.file_path a)
               (Types.severity a) (Types.category a) "show_once" now2 st2) in *.
  assert (Hfirst : first = ([a], st2)).
  { subst first. cbn [Router.dedupe_adds]. rewrite Ht. cbn [negb].
    rewrite Ha. cbn [Router.text_or_empty]. fold task. fold R1.
    destruct R1 as [item st1] eqn:E1. cbn [fst snd] in *. now rewrite H1. }
  split; [now rewrite Hfirst|].
  subst second. rewrite Hfirst. cbn [snd Router.dedupe_adds]. rewrite Ht. cbn [negb].
  rewrite Ha. cbn [Router.text_or_empty]. fold task. fold R2.
  destruct R2 as [item2 st3] eqn:E2. cbn [fst snd] in *. rewrite H2.
  now destruct (now1 <? now2 - Feedback.DEFAULT_DEDUP_WINDOW)%Z.
Qed.

(** The theorem on a lint advice given at time 1000 and produced again
    30 seconds later. *)
Lemma post_tool_advice_is_given_once_witness :
  let a := Host.advisory "unused import os" in
  let first := Router.dedupe_adds Host.digest Host.posix [a] "s1" 1000 ∅ in
  fst first = [a]
  /\ fst (Router.dedupe_adds Host.digest Host.posix [a] "s1" 1030 (snd first)) = [].
Proof.
  cbv zeta.
  apply (post_tool_advice_is_given_once Host.digest Host.posix
           (Host.advisory "unused import os") "unused import os" "s1" 1000 1030 ∅).
  - reflexivity.
  - vm_compute. discriminate.
  - intros r Hr. vm_compute in Hr. contradiction.
Defined.

(** X28.  The guard of SessionStart.  When the project root holds a directory
    named [xenohooks] or [xenomorph], a SessionStart invocation stops
    the session with a message naming it: "continue" is false, no
    configuration is read, no task is run and the stores stay as they
    are. *)
Theorem session_start_stops_on_reserved_directory :
  forall (P : PathLib) (E : ConfigEnv) (fuel : nat) (repr : value -> string)
         (sha256_hexdigest : string -> string) (uuid4 : nat -> string)
         (json_loads : string -> value + string)
         (number_of_text : string -> option Z)
         (resolve : string -> (string * Types.TaskFn) + string)
         (elapsed : nat -> Z) (arrives : nat -> Z -> bool)
         (popen : string -> list value -> option string -> Z + string)
         (kill0 : value -> bool) (is_dir : string -> bool) (now : Z)
         (config_paths : option (list string)) (payload : dict) (w : Router.World),
    Dict.get payload "hook_event_name" = Some (VStr "SessionStart") ->
    let root := path_resolve P (Router.str_or repr payload "cwd" ".") in
    is_dir (path_join P root "xenohooks") = true
    \/ is_dir (path_join P root "xenomorph") = true ->
    exists offenders,
      offenders <> []
      /\ (forall name, In name offenders <-> is_dir (path_join P root name) = true
                                             /\ In name ["xenohooks"; "xenomorph"])
      /\ Router.main P E fuel repr sha256_hexdigest uuid4 json_loads number_of_text
           resolve elapsed arrives popen kill0 is_dir now config_paths payload w
         = (Router.Printed
              (Router.stop_response "SessionStart" (Router.reserved_message offenders)),
            w)
      /\ Spec.field
           (Router.stop_response "SessionStart" (Router.reserved_message offenders))
           "continue" = Some (VBool false).
Proof.
  intros P E fuel repr sha uuid4 json_loads number_of_text resolve elapsed arrives
    popen kill0 is_dir now config_paths payload w Hev root Hdir.
  exists (List.filter (fun name => is_dir (path_join P root name))
            ["xenohooks"; "xenomorph"]).
  assert (Hin : forall name,
            In name (List.filter (fun name => is_dir (path_join P root name))
                       ["xenohooks"; "xenomorph"])
            <-> is_dir (path_join P root name) = true
                /\ In name ["xenohooks"; "xenomorph"]).
  { intros name. rewrite List.filter_In. tauto. }
  assert (Hne : List.filter (fun name => is_dir (path_join P root name))
                  ["xenohooks"; "xenomorph"] <> []).
  { intros Hnil.
    destruct Hdir as [Hd|Hd].
    - assert (H : In "xenohooks" []) by (rewrite <- Hnil; apply Hin; simpl; tauto).
      destruct H.
    - assert (H : In "xenomorph" []) by (rewrite <- Hnil; apply Hin; simpl; tauto).
      destruct H. }
  split; [exact Hne|]. split; [exact Hin|]. split; [|reflexivity].
  unfold Router.main. rewrite Hev.
  change (String.eqb "SessionStart" "SessionStart") with true. cbv iota.
  fold root.
  destruct (List.filter (fun name => is_dir (path_join P root name))
              ["xenohooks"; "xenomorph"]) as [|o os]; [congruence | reflexivity].
Qed.

(** The theorem on a project at [/work] that has a directory
    [/work/xenohooks] and no configuration at all. *)
Lemma session_start_stops_on_reserved_directory_witness :
  exists offenders,
    offenders <> []
    /\ Router.main Host.posix Host.broken_env 8 Host.no_repr Host.digest Host.uuid
         Host.loads Host.no_number Host.no_import (fun _ => 0%Z) (fun _ _ => true)
         (fun _ _ _ => inr "cannot spawn") (fun _ => false)
         (fun p => String.eqb p "/work/xenohooks") 0 None
         [("hook_event_name", VStr "SessionStart"); ("cwd", VStr "/work")]
         Host.fresh_world
       = (Router.Printed
            (Router.stop_response "SessionStart" (Router.reserved_message offenders)),
          Host.fresh_world).
Proof.
  destruct (session_start_stops_on_reserved_directory Host.posix Host.broken_env 8
              Host.no_repr Host.digest Host.uuid Host.loads Host.no_number
              Host.no_import (fun _ => 0%Z) (fun _ _ => true)
              (fun _ _ _ => inr "cannot spawn") (fun _ => false)
              (fun p => String.eqb p "/work/xenohooks") 0 None
              [("hook_event_name", VStr "SessionStart"); ("cwd", VStr "/work")]
              Host.fresh_world)
    as [offenders [H1 [_ [H3 _]]]].
  - reflexivity.
  - left. reflexivity.
  - exists offenders. split; assumption.
Defined.

(* ===================================================================== *)
(** ** The command line *)
(* ===================================================================== *)

Module CliFacts.
Import Cli.

Section Args.
Variable int_of_text : string -> option Z.

Lemma parse_dash cmd f :
  parse_args int_of_text ("--" :: cmd) f = Parsed (with_command cmd f).
Proof. reflexivity. Qed.

(** The loop over a prefix that holds no [--] and is read to its end
    goes on with what follows the prefix. *)
Lemma parse_prefix tail : forall n pre f0 f,
  length pre <= n ->
  ~ In "--" pre ->
  parse_args int_of_text pre f0 = Parsed f ->
  parse_args int_of_text (pre ++ tail) f0 = parse_args int_of_text tail f.
Proof.
  induction n as [|n IH]; intros pre f0 f Hlen Hno Hp.
  - destruct pre; [|simpl in Hlen; lia]. simpl in Hp. now injection Hp as <-.
  - destruct pre as [|tok rest]; [simpl in Hp; now injection Hp as <-|].
    assert (Hrest : ~ In "--" rest) by (intros H; apply Hno; now right).
    assert (Htok : String.eqb tok "--" = false).
    { apply String.eqb_neq. intros ->. apply Hno. now left. }
    simpl in Hlen. cbn [parse_args app] in Hp |- *.
    destruct (String.eqb tok "-h" || String.eqb tok "--help"); [discriminate|].
    destruct (String.eqb tok "-V" || String.eqb tok "--version"); [discriminate|].
    destruct (String.eqb tok "--list-examples"); [discriminate|].
    destruct (String.eqb tok "--check-config"); [apply IH; [lia|assumption..]|].
    destruct (String.eqb tok "--config").
    { destruct rest as [|val rest']; [discriminate|]. cbn [app].
      apply IH; [simpl in Hlen; lia | intros H; apply Hrest; now right | exact Hp]. }
    destruct (String.eqb tok "--queue-task"); [apply IH; [lia|assumption..]|].
    destruct (String.eqb tok "--session").
    { destruct rest as [|val rest']; [discriminate|]. cbn [app].
      apply IH; [simpl in Hlen; lia | intros H; apply Hrest; now right | exact Hp]. }
    destruct (String.eqb tok "--source").
    { destruct rest as [|val rest']; [discriminate|]. cbn [app].
      apply IH; [simpl in Hlen; lia | intros H; apply Hrest; now right | exact Hp]. }
    destruct (String.eqb tok "--timeout").
    { destruct rest as [|val rest']; [discriminate|]. cbn [app].
      destruct (int_of_text val); [|discriminate].
      apply IH; [simpl in Hlen; lia | intros H; apply Hrest; now right | exact Hp]. }
    rewrite Htok in Hp |- *. apply IH; [lia|assumption..].
Qed.

End Args.
End CliFacts.

(** X29.  The double dash ends the options.  When the tokens before it hold no
    [--] and parse on their own, the command line with [--] and a
    command appended sets the same flags, and the command is the tokens
    after [--] exactly as they stand: none of them is read as an option,
    not even [--help]. *)
Theorem double_dash_ends_the_options :
  forall (int_of_text : string -> option Z) (pre cmd : list string)
         (f : Cli.Flags),
    ~ In "--" pre ->
    Cli.parse_args int_of_text pre Cli.initial = Cli.Parsed f ->
    Cli.parse_args int_of_text (pre ++ "--" :: cmd) Cli.initial
    = Cli.Parsed (Cli.with_command cmd f).
Proof.
  intros int_of_text pre cmd f Hno Hp.
  rewrite (CliFacts.parse_prefix int_of_text ("--" :: cmd) (length pre) pre
             Cli.initial f (Nat.le_refl _) Hno Hp).
  apply CliFacts.parse_dash.
Qed.

(** The theorem on a queueing command whose command has a [--help] of
    its own. *)
Lemma double_dash_ends_the_options_witness :
  Cli.parse_args Host.no_number
    ["--queue-task"; "--session"; "s1"; "--"; "pytest"; "--help"] Cli.initial
  = Cli.Parsed
      {| Cli.config_paths := None; Cli.check_config := false;
         Cli.queue_task := true; Cli.queue_session := "s1";
         Cli.queue_source := "cli"; Cli.queue_timeout := 120;
         Cli.queue_command := ["pytest"; "--help"] |}.
Proof.
  apply (double_dash_ends_the_options Host.no_number
           ["--queue-task"; "--session"; "s1"] ["pytest"; "--help"]
           {| Cli.config_paths := None; Cli.check_config := false;
              Cli.queue_task := true; Cli.queue_session := "s1";
              Cli.queue_source := "cli"; Cli.queue_timeout := 120;
              Cli.queue_command := [] |}).
  - simpl. intros [H|[H|[H|[]]]]; discriminate.
  - reflexivity.
Defined.


